(** * Benchmark aggregation engine of explainaboard_web

    A shallow embedding of [backend/src/impl/benchmark_utils.py]
    ([BenchmarkUtils]) and of the leaderboard loop of
    [benchmark_benchmark_id_get] in
    [backend/src/impl/default_controllers_impl.py].

    The Python code works on JSON-like dictionaries, so the embedding
    has one type of dynamic values, dictionaries that keep their
    insertion order, and an exception monad for the [KeyError]s,
    [TypeError]s and [ValueError]s the code can raise. *)

From Stdlib Require Import ZArith Floats Uint63 Ascii String.
From stdpp Require Import base list strings.

Local Open Scope string_scope.

(** ** Python values *)

(** Everything the code reads comes from JSON documents or from
    [to_dict()] of generated models. Numbers are IEEE doubles (Python
    [float]); Python integers are read as the double of the same value. *)
Inductive value : Type :=
| VNone
| VNum (f : float)
| VStr (s : string)
| VList (l : list value)
| VDict (d : list (string * value)).

(** A Python [dict] with string keys, in insertion order. *)
Abbreviation dict := (list (string * value)).

(** The builtin exceptions the code can raise. [KeyError] and
    [IndexError] are the subclasses of Python's [LookupError]. *)
Inductive exn : Type :=
| KeyError
| IndexError
| TypeError
| ValueError
| AttributeError.

Definition is_LookupError (e : exn) : bool :=
  match e with KeyError | IndexError => true | _ => false end.

Inductive result (A : Type) : Type :=
| Ok (a : A)
| Raise (e : exn).
Arguments Ok {A} a.
Arguments Raise {A} e.

#[global] Instance result_ret : MRet result := λ A a, Ok a.
#[global] Instance result_bind : MBind result := λ A B f m,
  match m with Ok a => f a | Raise e => Raise e end.
#[global] Instance result_fmap : FMap result := λ A B f m,
  match m with Ok a => Ok (f a) | Raise e => Raise e end.

(** A [for] loop that threads a state and stops at the first exception. *)
Fixpoint foldM {A B : Type} (f : B → A → result B) (b : B) (l : list A)
  : result B :=
  match l with
  | [] => Ok b
  | a :: l' => b' ← f b a; foldM f b' l'
  end.

(** [bool(v)]. *)
Definition truthy (v : value) : bool :=
  match v with
  | VNone => false
  | VNum f => negb (PrimFloat.eqb f 0%float)
  | VStr s => negb (String.eqb s "")
  | VList l => negb (bool_decide (length l = 0))
  | VDict d => negb (bool_decide (length d = 0))
  end.

(** [v is None]. *)
Definition is_None (v : value) : bool :=
  match v with VNone => true | _ => false end.

(** Lists and dicts are unhashable: using one as a dictionary key or as
    a set element raises [TypeError]. *)
Definition hashable (v : value) : bool :=
  match v with VList _ | VDict _ => false | _ => true end.

(** [a == b] on hashable values. Python also matches a key against the
    very same object before it tries [==]; that only matters for a NaN
    key and is left out. *)
Definition value_eqb (a b : value) : bool :=
  match a, b with
  | VNone, VNone => true
  | VNum x, VNum y => PrimFloat.eqb x y
  | VStr x, VStr y => String.eqb x y
  | _, _ => false
  end.

(** ** Dictionaries *)

Section pydict.
Context {K V : Type} (eqb : K → K → bool).

(** [d.get(k)] on an insertion-ordered dictionary. *)
Fixpoint pd_get (k : K) (d : list (K * V)) : option V :=
  match d with
  | [] => None
  | (k', v) :: d' => if eqb k' k then Some v else pd_get k d'
  end.

(** [d[k] = v]: an existing key keeps its position, a new key goes last. *)
Fixpoint pd_set (k : K) (v : V) (d : list (K * V)) : list (K * V) :=
  match d with
  | [] => [(k, v)]
  | (k', v') :: d' =>
      if eqb k' k then (k', v) :: d' else (k', v') :: pd_set k v d'
  end.

(** [k in d]. *)
Definition pd_mem (k : K) (d : list (K * V)) : bool :=
  match pd_get k d with Some _ => true | None => false end.
End pydict.

Definition dict_lookup (k : string) (d : dict) : option value :=
  pd_get String.eqb k d.

Definition dict_store (k : string) (v : value) (d : dict) : dict :=
  pd_set String.eqb k v d.

(** [d[k]] for a dict [d] and a string literal [k]. *)
Definition py_getitem (d : dict) (k : string) : result value :=
  match dict_lookup k d with
  | Some v => Ok v
  | None => Raise KeyError
  end.

(** [d.get(k, default)] for a dict [d] and a string literal [k]. *)
Definition py_get (d : dict) (k : string) (default : value) : value :=
  match dict_lookup k d with
  | Some v => v
  | None => default
  end.

(** [v[k]] for an arbitrary value [v] and a string literal [k]: only
    dicts can be indexed by a string. *)
Definition subscript (v : value) (k : string) : result value :=
  match v with
  | VDict d => py_getitem d k
  | _ => Raise TypeError
  end.

(** [v.get(k, default)] for an arbitrary value [v]: only dicts have the
    method. *)
Definition attr_get (v : value) (k : string) (default : value)
  : result value :=
  match v with
  | VDict d => Ok (py_get d k default)
  | _ => Raise AttributeError
  end.

(** [v.get(k)] with a computed key [k]; the keys of [v] are strings. *)
Definition attr_get_key (v : value) (k : value) : result value :=
  match v with
  | VDict d =>
      if hashable k then
        match k with
        | VStr s => Ok (py_get d s VNone)
        | _ => Ok VNone
        end
      else Raise TypeError
  | _ => Raise AttributeError
  end.

(** [for x in v]: a list yields its elements, a dict its keys, a string
    its characters. *)
Fixpoint chars (s : string) : list value :=
  match s with
  | EmptyString => []
  | String c s' => VStr (String c EmptyString) :: chars s'
  end.

Definition py_iter (v : value) : result (list value) :=
  match v with
  | VList l => Ok l
  | VDict d => Ok (map (λ kv, VStr kv.1) d)
  | VStr s => Ok (chars s)
  | _ => Raise TypeError
  end.

(** [float(n)] for a Python integer [n] that is a length. *)
Definition float_of_nat (n : nat) : float :=
  PrimFloat.of_uint63 (Uint63.of_Z (Z.of_nat n)).

(** ** Benchmark configuration *)

Record BenchmarkViewConfig : Type := {
  name : string;
  operations : list dict
}.

Record BenchmarkConfig : Type := {
  datasets : list dict;
  metrics : value;
  views : list BenchmarkViewConfig
}.

(** ** Data frames *)

(** The row labels of a [pandas.DataFrame]: the default [RangeIndex] of
    a given length, or explicit labels with an optional name (what
    [groupby] leaves behind). *)
Inductive index : Type :=
| RangeIndex (n : nat)
| Index (iname : option string) (labels : list value).

(** A data frame is stored by column, like [df_input] in the source. *)
Record DataFrame : Type := {
  df_index : index;
  df_columns : list (string * list value)
}.

(** [len(df)]. *)
Definition nrows (df : DataFrame) : nat :=
  match df_index df with
  | RangeIndex n => n
  | Index _ labels => length labels
  end.

(** The type that pandas infers for an array of Python values: an array
    of numbers and [None]s with a number among them becomes a float
    column; every other array is kept as a column of objects. *)
Definition float_column (arr : list value) : bool :=
  forallb (λ v, match v with VNone | VNum _ => true | _ => false end) arr
  && existsb (λ v, match v with VNum _ => true | _ => false end) arr.

(** A float column holds NaN where the array has [None]. *)
Definition pd_cell (v : value) : value :=
  match v with VNone => VNum nan | _ => v end.

Definition pd_column (arr : list value) : list value :=
  if float_column arr then map pd_cell arr else arr.

Definition pd_columns (df_input : list (string * list value))
  : list (string * list value) :=
  map (λ c, (c.1, pd_column c.2)) df_input.

(** [pd.DataFrame(df_input)] for a dict of arrays: the arrays must have
    one length, and every array is stored with the type inferred for
    it. *)
Definition pd_DataFrame (df_input : list (string * list value))
  : result DataFrame :=
  match df_input with
  | [] => Ok {| df_index := RangeIndex 0; df_columns := [] |}
  | (_, arr) :: _ =>
      if forallb (λ c, bool_decide (length c.2 = length arr)) df_input
      then Ok {| df_index := RangeIndex (length arr);
                 df_columns := pd_columns df_input |}
      else Raise ValueError
  end.

(** ** Leaderboard table builder: [generate_dataframe_from_sys_infos] *)

(** A dataset identity as the code uses it for keys: a Python 3-tuple. *)
Definition ident : Type := value * value * value.

(** Hashing a tuple hashes its components. *)
Definition ident_hashable (k : ident) : bool :=
  hashable k.1.1 && hashable k.1.2 && hashable k.2.

Definition ident_eqb (a b : ident) : bool :=
  value_eqb a.1.1 b.1.1 && value_eqb a.1.2 b.1.2 && value_eqb a.2 b.2.

(** The key under which a configured dataset [x] enters the index:
    [(x["dataset_name"], x.get("sub_dataset", None), x.get("split", "test"))]. *)
Definition dataset_key (x : dict) : result ident :=
  n ← py_getitem x "dataset_name";
  let key := (n, py_get x "sub_dataset" VNone, py_get x "split" (VStr "test")) in
  if ident_hashable key then Ok key else Raise TypeError.

(** The key a raw system info [sys] is resolved with:
    [(sys["dataset_name"], sys["sub_dataset_name"], sys["dataset_split"])]. *)
Definition sys_key (sys : dict) : result ident :=
  n ← py_getitem sys "dataset_name";
  s ← py_getitem sys "sub_dataset_name";
  p ← py_getitem sys "dataset_split";
  let key := (n, s, p) in
  if ident_hashable key then Ok key else Raise TypeError.

(** The dict comprehension over [enumerate(config.datasets)]: a later
    entry with an equal key replaces the position stored for it. *)
Fixpoint dataset_to_id_from (i : nat) (ds : list dict)
    (acc : list (ident * nat)) : result (list (ident * nat)) :=
  match ds with
  | [] => Ok acc
  | x :: ds' =>
      key ← dataset_key x;
      dataset_to_id_from (S i) ds' (pd_set ident_eqb key i acc)
  end.

Definition dataset_to_id (config : BenchmarkConfig)
  : result (list (ident * nat)) :=
  dataset_to_id_from 0 (datasets config) [].

(** One round of the loop [for sys in systems]. *)
Definition group_system (config : BenchmarkConfig)
    (dataset_to_id : list (ident * nat))
    (system_dataset_results : list (value * list (option dict)))
    (sys : dict) : result (list (value * list (option dict))) :=
  sys_name ← py_getitem sys "system_name";
  if negb (hashable sys_name) then Raise TypeError else
  let system_dataset_results :=
    if negb (pd_mem value_eqb sys_name system_dataset_results)
    then pd_set value_eqb sys_name
           (replicate (length (datasets config)) None) system_dataset_results
    else system_dataset_results in
  key ← sys_key sys;
  match pd_get ident_eqb key dataset_to_id with
  | None => Raise KeyError
  | Some dataset_id =>
      match pd_get value_eqb sys_name system_dataset_results with
      | None => Raise KeyError
      | Some sys_infos =>
          if bool_decide (dataset_id < length sys_infos)
          then Ok (pd_set value_eqb sys_name
                     (<[dataset_id := Some sys]> sys_infos)
                     system_dataset_results)
          else Raise IndexError
      end
  end.

Definition system_dataset_results (config : BenchmarkConfig)
    (dataset_to_id : list (ident * nat)) (systems : list dict)
  : result (list (value * list (option dict))) :=
  foldM (group_system config dataset_to_id) [] systems.

(** The columns of [df_input] before any row is added. *)
Definition exclude_keys : list string := ["metrics"].

Definition add_dataset_key (df_input : list (string * list value))
    (dataset_key : string) : list (string * list value) :=
  if negb (pd_mem String.eqb dataset_key df_input
           || bool_decide (dataset_key ∈ exclude_keys))
  then pd_set String.eqb dataset_key [] df_input
  else df_input.

Definition df_input_init (config : BenchmarkConfig)
  : list (string * list value) :=
  let df_input :=
    [("system_name", []); ("dataset_name", []);
     ("sub_dataset_name", []); ("dataset_split", [])] in
  let df_input :=
    fold_left (λ df_input dataset,
                 fold_left add_dataset_key (map fst dataset) df_input)
              (datasets config) df_input in
  let df_input := pd_set String.eqb "metric" [] df_input in
  let df_input := pd_set String.eqb "metric_weight" [] df_input in
  pd_set String.eqb "score" [] df_input.

(** [for df_key, df_arr in df_input.items():
       df_arr.append(column_dict.get(df_key))]. *)
Definition append_row (column_dict : dict)
    (df_input : list (string * list value)) : list (string * list value) :=
  map (λ c, (c.1, (c.2 ++ [py_get column_dict c.1 VNone])%list)) df_input.

(** The score of one metric for one slot. *)
Definition metric_score (sys_info : option dict) (dataset_metric : value)
  : result value :=
  match sys_info with
  | Some sys_info =>
      results ← py_getitem sys_info "results";
      overall ← subscript results "overall";
      metric_name ← subscript dataset_metric "name";
      performance ← attr_get_key overall metric_name;
      if truthy performance
      then subscript performance "value"
      else attr_get dataset_metric "default" (VNum 0%float)
  | None => attr_get dataset_metric "default" (VNum 0%float)
  end.

(** The three assignments to [column_dict] in the body of
    [for dataset_metric in dataset_metrics]; [n] is [len(dataset_metrics)].
    [column_dict] is one dict, updated in place from one metric to the
    next. *)
Definition update_column_dict (n : nat) (sys_info : option dict)
    (column_dict : dict) (dataset_metric : value) : result dict :=
  metric_name ← subscript dataset_metric "name";
  let column_dict := dict_store "metric" metric_name column_dict in
  metric_weight ← attr_get dataset_metric "weight"
                    (VNum (1 / float_of_nat n)%float);
  let column_dict := dict_store "metric_weight" metric_weight column_dict in
  score ← metric_score sys_info dataset_metric;
  Ok (dict_store "score" score column_dict).

(** The body of [for dataset_metric in dataset_metrics]: the
    assignments, then one cell appended to every array of [df_input]. *)
Definition emit_metric (n : nat) (sys_info : option dict)
    (st : dict * list (string * list value)) (dataset_metric : value)
  : result (dict * list (string * list value)) :=
  column_dict ← update_column_dict n sys_info st.1 dataset_metric;
  Ok (column_dict, append_row column_dict st.2).

(** [len(v)] where the code takes it: [v] is being iterated. *)
Definition py_len (v : value) : nat :=
  match v with
  | VList l => length l
  | VDict d => length d
  | VStr s => String.length s
  | _ => 0
  end.

(** The body of [for dataset, sys_info in zip(config.datasets, sys_infos)].
    The message of the [ValueError] reads three keys of the dataset, so
    building it can itself raise [KeyError]. *)
Definition emit_dataset (config : BenchmarkConfig) (sys_name : value)
    (df_input : list (string * list value))
    (slot : dict * option dict) : result (list (string * list value)) :=
  let '(dataset, sys_info) := slot in
  let column_dict := dict_store "system_name" sys_name dataset in
  let dataset_metrics := py_get dataset "metrics" (metrics config) in
  if is_None dataset_metrics then
    _ ← py_getitem dataset "dataset_name";
    _ ← py_getitem dataset "sub_dataset_name";
    _ ← py_getitem dataset "dataset_split";
    Raise ValueError
  else
    ms ← py_iter dataset_metrics;
    st ← foldM (emit_metric (py_len dataset_metrics) sys_info)
               (column_dict, df_input) ms;
    Ok st.2.

(** The body of [for sys_name, sys_infos in system_dataset_results.items()]. *)
Definition emit_system (config : BenchmarkConfig)
    (df_input : list (string * list value))
    (entry : value * list (option dict))
  : result (list (string * list value)) :=
  let '(sys_name, sys_infos) := entry in
  foldM (emit_dataset config sys_name) df_input
        (zip (datasets config) sys_infos).

Definition generate_dataframe_from_sys_infos (config : BenchmarkConfig)
    (systems : list dict) : result DataFrame :=
  dataset_to_id ← dataset_to_id config;
  system_dataset_results ← system_dataset_results config dataset_to_id systems;
  df_input ← foldM (emit_system config) (df_input_init config)
                   system_dataset_results;
  pd_DataFrame df_input.

(** ** View aggregator: [aggregate_view] and [generate_view_dataframes] *)

(** Data frames are mutable objects: [output_df["score"] = ...] and
    [reset_index(inplace=True)] update a frame in place, and two
    variables can name the same frame. The store maps a reference to
    the frame it currently holds; [next] is the first unused reference. *)
Record store : Type := {
  cell : nat → DataFrame;
  next : nat
}.

Definition M (A : Type) : Type := store → result A * store.

#[global] Instance M_ret : MRet M := λ A a h, (Ok a, h).
#[global] Instance M_bind : MBind M := λ A B f m h,
  match m h with
  | (Ok a, h') => f a h'
  | (Raise e, h') => (Raise e, h')
  end.

(** A computation without effect on the store. *)
Definition lift {A : Type} (r : result A) : M A := λ h, (r, h).

(** A new object. *)
Definition alloc (df : DataFrame) : M nat := λ h,
  (Ok (next h),
   {| cell := λ r, if bool_decide (r = next h) then df else cell h r;
      next := S (next h) |}).

Definition load (r : nat) : M DataFrame := λ h, (Ok (cell h r), h).

(** An update in place of the object at [r]. *)
Definition update (r : nat) (df : DataFrame) : M () := λ h,
  (Ok (),
   {| cell := λ r', if bool_decide (r' = r) then df else cell h r';
      next := next h |}).

Fixpoint foldMs {A B : Type} (f : B → A → M B) (b : B) (l : list A) : M B :=
  match l with
  | [] => mret b
  | a :: l' => b' ← f b a; foldMs f b' l'
  end.

(** [df[key]]: the column labelled [key]. A list-valued [key], which
    pandas reads as a selection of several columns, is outside the
    model and is reported as a [TypeError]. *)
Definition df_getitem (df : DataFrame) (key : value)
  : result (list value) :=
  match key with
  | VStr s =>
      match pd_get String.eqb s (df_columns df) with
      | Some c => Ok c
      | None => Raise KeyError
      end
  | VList _ | VDict _ => Raise TypeError
  | _ => Raise KeyError
  end.

(** [df[k] = c] for a column [c] of the frame's length. *)
Definition df_setitem (df : DataFrame) (k : string) (c : list value)
  : DataFrame :=
  {| df_index := df_index df;
     df_columns := pd_set String.eqb k c (df_columns df) |}.

(** [a * b] on two cells. *)
Definition cell_mul (a b : value) : result value :=
  match a, b with
  | VNum x, VNum y => Ok (VNum (x * y)%float)
  | _, _ => Raise TypeError
  end.

(** [s * o] on two columns of one frame, cell by cell. *)
Fixpoint column_mul (s o : list value) : result (list value) :=
  match s, o with
  | a :: s', b :: o' =>
      c ← cell_mul a b; cs ← column_mul s' o'; Ok (c :: cs)
  | _, _ => Ok []
  end.

(** [df.reset_index()]: the row labels become the first column, named
    after the index, or ["index"] (["level_0"] when that is taken) for an
    unnamed index; inserting a label that is already a column fails. *)
Definition reset_index (df : DataFrame) : result DataFrame :=
  let '(iname, labels) :=
    match df_index df with
    | RangeIndex n => (None, map (λ i, VNum (float_of_nat i)) (seq 0 n))
    | Index iname labels => (iname, labels)
    end in
  let col :=
    match iname with
    | Some s => s
    | None => if pd_mem String.eqb "index" (df_columns df)
              then "level_0" else "index"
    end in
  if pd_mem String.eqb col (df_columns df) then Raise ValueError
  else Ok {| df_index := RangeIndex (length labels);
             df_columns := (col, labels) :: df_columns df |}.

Inductive agg : Type := Mean | Sum.

Section view_aggregator.
(** [df.groupby(["system_name"]).mean()] and [.sum()] are computed by
    pandas; they build a new frame from the contents of [df] and may
    raise. *)
Variable groupby_agg : agg → DataFrame → result DataFrame.

(** The body of [for operation in view_spec.operations]: three [if]s
    in a row, each reading [operation["op"]]. The local variable
    [output_df] is a reference; [mean] and [sum] rebind it to a new
    frame, [multiply] updates the frame it names. *)
Definition apply_operation (output_df : nat) (operation : dict) : M nat :=
  op ← lift (py_getitem operation "op");
  output_df ←
    (if value_eqb op (VStr "mean") then
       df ← load output_df;
       df' ← lift (groupby_agg Mean df);
       alloc df'
     else mret output_df);
  op ← lift (py_getitem operation "op");
  _ ←
    (if value_eqb op (VStr "multiply") then
       df ← load output_df;
       score ← lift (df_getitem df (VStr "score"));
       other ← lift (py_getitem operation "other");
       other_col ← lift (df_getitem df other);
       product ← lift (column_mul score other_col);
       update output_df (df_setitem df "score" product)
     else mret ());
  op ← lift (py_getitem operation "op");
  if value_eqb op (VStr "sum") then
    df ← load output_df;
    df' ← lift (groupby_agg Sum df);
    alloc df'
  else mret output_df.

Definition aggregate_view (input_df : nat) (view_spec : BenchmarkViewConfig)
  : M nat :=
  df ← load input_df;
  output_df ← alloc df;
  output_df ← foldMs apply_operation output_df (operations view_spec);
  df ← load output_df;
  df' ← lift (reset_index df);
  _ ← update output_df df';
  mret output_df.

(** The body of [for view_spec in config.views]. *)
Definition add_view (orig_df : nat) (view_dfs : list (string * nat))
    (view_spec : BenchmarkViewConfig) : M (list (string * nat)) :=
  df ← aggregate_view orig_df view_spec;
  mret (pd_set String.eqb (name view_spec) df view_dfs).

Definition generate_view_dataframes (config : BenchmarkConfig)
    (systems : list dict) : M (list (string * nat)) :=
  df ← lift (generate_dataframe_from_sys_infos config systems);
  orig_df ← alloc df;
  let view_dfs := [("orig", orig_df)] in
  foldMs (add_view orig_df) view_dfs (views config).
End view_aggregator.

(** ** Table renderer: [_col_name] and [dataframe_to_table] *)

Record BenchmarkTable : Type := {
  system_names : list value;
  column_names : list string;
  scores : list (list float)
}.

(** [df[k]] for a string literal [k]. *)
Definition df_column (df : DataFrame) (k : string) : result (list value) :=
  df_getitem df (VStr k).

(** The rows that [df.iterrows()] yields: row [i] maps every column
    label to the cell of that column at position [i]. *)
Definition df_row (df : DataFrame) (i : nat) : dict :=
  map (λ c, (c.1, nth i c.2 VNone)) (df_columns df).

Definition iterrows (df : DataFrame) : list dict :=
  map (df_row df) (seq 0 (nrows df)).

(** The elements of a Python [set] built from [l]: one representative
    per class of equal elements. *)
Fixpoint dedupe {A : Type} (eqb : A → A → bool) (l : list A) : list A :=
  match l with
  | [] => []
  | x :: l' => x :: filter (λ y, negb (eqb x y)) (dedupe eqb l')
  end.

(** [{v: i for i, v in enumerate(l)}] for distinct [v]. *)
Definition enumerate {A : Type} (l : list A) : list (A * nat) :=
  imap (λ i v, (v, i)) l.

(** [scores[row_id][col_id] = val] on a matrix stored as rows. *)
Definition set_score (scores : list (list float)) (row_id col_id : nat)
    (val : float) : result (list (list float)) :=
  match scores !! row_id with
  | Some row =>
      if bool_decide (col_id < length row)
      then Ok (<[row_id := <[col_id := val]> row]> scores)
      else Raise IndexError
  | None => Raise IndexError
  end.

(** What numpy stores in a float array for a cell: a number as it is.
    Other cells are rejected ([None] with a [TypeError], the rest with a
    [ValueError]); the parsing of numeric strings that numpy attempts is
    outside the model. *)
Definition np_float (v : value) : result float :=
  match v with
  | VNum f => Ok f
  | VNone => Raise TypeError
  | _ => Raise ValueError
  end.

Section table_renderer.
(** [str(v)] for a cell that is not a string is Python's [repr]
    (shortest round-trip decimals for floats, quoting for containers). *)
Variable py_repr : value → string.

(** The order in which a [set] is iterated is decided by the hash
    table: some rearrangement of its elements. *)
Variable set_order : ∀ A : Type, list A → list A.

(** [f"{v}"]. *)
Definition py_str (v : value) : string :=
  match v with
  | VStr s => s
  | _ => py_repr v
  end.

(** [[f"{elem}={df_entry[elem]}" for elem in elem_names if df_entry[elem]]]. *)
Fixpoint col_name_parts (elem_names : list string) (df_entry : dict)
  : result (list string) :=
  match elem_names with
  | [] => Ok []
  | elem :: elem_names' =>
      v ← py_getitem df_entry elem;
      parts ← col_name_parts elem_names' df_entry;
      if truthy v
      then Ok ((elem ++ "=" ++ py_str v) :: parts)
      else Ok parts
  end.

Definition _col_name (elem_names : list string) (df_entry : dict)
  : result string :=
  parts ← col_name_parts elem_names df_entry;
  Ok (String.concat ", " parts).

(** [set(l)], iterated. *)
Definition py_set {A : Type} (eqb : A → A → bool) (l : list A) : list A :=
  set_order A (dedupe eqb l).

(** The body of the loop that fills [scores]. *)
Definition fill_score (system_map : list (value * nat))
    (column_map : list (string * nat)) (scores : list (list float))
    (it : dict * string) : result (list (list float)) :=
  let '(df_data, df_col_name) := it in
  sys_name ← py_getitem df_data "system_name";
  if negb (hashable sys_name) then Raise TypeError else
  match pd_get value_eqb sys_name system_map with
  | None => Raise KeyError
  | Some row_id =>
      match pd_get String.eqb df_col_name column_map with
      | None => Raise KeyError
      | Some col_id =>
          val ← py_getitem df_data "score";
          val ← np_float val;
          set_score scores row_id col_id val
      end
  end.

Definition dataframe_to_table (input_df : DataFrame)
  : result BenchmarkTable :=
  let elem_names :=
    filter (λ x, x ∉ ["score"; "system_name"])
           (map fst (df_columns input_df)) in
  names ← df_column input_df "system_name";
  if negb (forallb hashable names) then Raise TypeError else
  let system_map := enumerate (py_set value_eqb names) in
  row_col_names ← mapM (_col_name elem_names) (iterrows input_df);
  let column_map := enumerate (py_set String.eqb row_col_names) in
  let scores :=
    replicate (length system_map)
              (replicate (length column_map) 0%float) in
  scores ← foldM (fill_score system_map column_map) scores
                 (zip (iterrows input_df) row_col_names);
  Ok {| system_names := map fst system_map;
        column_names := map fst column_map;
        scores := scores |}.
End table_renderer.

(** ** Benchmark composer: the loop of [benchmark_benchmark_id_get] *)

Module Controllers.

(** One entry of [bm_config.record_configs]. *)
Record RecordConfig : Type := {
  dataset_name : value;
  sub_dataset_name : value;
  dataset_split : value;
  metrics : list string;
  metric_weights : value;
  op_metric : value
}.

(** [explainaboard_web.impl.benchmark.BenchmarkConfig], as far as the
    controller reads it. *)
Record BenchmarkConfig : Type := {
  record_configs : list RecordConfig;
  aggregation_configs : dict
}.

(** A [LeaderboardRecord]: the attributes the controller assigns, and
    [info] for everything else that [from_dict] copies from the system. *)
Record LeaderboardRecord (B : Type) : Type := {
  info : B;
  lr_metrics : list (value * value);
  lr_metric_weights : value;
  lr_op_metric : value;
  dataset_weight : value;
  task_weight : value;
  target_language_weight : value;
  source_language_weight : value
}.
Arguments info {B} _.
Arguments lr_metrics {B} _.
Arguments lr_metric_weights {B} _.
Arguments lr_op_metric {B} _.
Arguments dataset_weight {B} _.
Arguments task_weight {B} _.
Arguments target_language_weight {B} _.
Arguments source_language_weight {B} _.

(** [v[k]] for a computed key [k]. *)
Definition subscript_key (v : value) (k : value) : result value :=
  match v with
  | VDict d =>
      if hashable k then
        match k with
        | VStr s => py_getitem d s
        | _ => Raise KeyError
        end
      else Raise TypeError
  | _ => Raise TypeError
  end.

(** [k not in v.keys()]. *)
Definition not_in_keys (k : value) (v : value) : result bool :=
  match v with
  | VDict d =>
      if hashable k then
        match k with
        | VStr s => Ok (negb (pd_mem String.eqb s d))
        | _ => Ok true
        end
      else Raise TypeError
  | _ => Raise AttributeError
  end.

(** [1.0 if k not in cfgs[dim]["weights"].keys()
     else cfgs[dim]["weights"][k]]. *)
Definition resolve_weight (cfgs : dict) (dim : string) (k : value)
  : result value :=
  c ← py_getitem cfgs dim;
  w ← subscript c "weights";
  absent ← not_in_keys k w;
  if (absent : bool) then Ok (VNum 1%float)
  else
    c ← py_getitem cfgs dim;
    w ← subscript c "weights";
    subscript_key w k.

(** [{metric: sys_info["results"]["overall"][metric]["value"]
     for metric in common_metrics}]. *)
Definition leaderboard_metric (sys_info : dict)
    (acc : list (value * value)) (metric : value)
  : result (list (value * value)) :=
  results ← py_getitem sys_info "results";
  overall ← subscript results "overall";
  performance ← subscript_key overall metric;
  v ← subscript performance "value";
  Ok (pd_set value_eqb metric v acc).

Section composer.
Context {B T : Type}.
Variable set_order : ∀ A : Type, list A → list A.

(** Collaborators outside [src/]: the config loader, the system
    query (already mapped through [system_info.to_dict()]),
    [LeaderboardRecord.from_dict] and [bm_config.compose]. *)
Variable from_json_file : string → result BenchmarkConfig.
Variable systems_get : value → value → value → result (list dict).
Variable from_dict : dict → result (LeaderboardRecord B).
Variable compose :
  BenchmarkConfig → list (LeaderboardRecord B) → result T.

(** [list(set(sys_metrics) & set(record.metrics))]. *)
Definition common_metrics (sys_metrics : list value)
    (record : RecordConfig) : list value :=
  set_order value
    (filter (λ v, existsb (value_eqb v) (map VStr (metrics record)))
            (dedupe value_eqb sys_metrics)).

(** The body of [for system in systems], from
    [sys_info = system.system_info.to_dict()] on. *)
Definition add_system (bm_config : BenchmarkConfig)
    (record : RecordConfig) (leaderboard : list (LeaderboardRecord B))
    (sys_info : dict) : result (list (LeaderboardRecord B)) :=
  metric_configs ← py_getitem sys_info "metric_configs";
  metric_configs ← py_iter metric_configs;
  sys_metrics ← mapM (λ metric_config, subscript metric_config "name")
                     metric_configs;
  task_name ← py_getitem sys_info "task_name";
  target_language ← py_getitem sys_info "target_language";
  source_language ← py_getitem sys_info "source_language";
  if negb (forallb hashable sys_metrics) then Raise TypeError else
  let common_metrics := common_metrics sys_metrics record in
  if bool_decide (length common_metrics = 0) then Ok leaderboard
  else
    leaderboard_metrics ←
      foldM (leaderboard_metric sys_info) [] common_metrics;
    leaderboard_record ← from_dict sys_info;
    dataset_weight ←
      resolve_weight (aggregation_configs bm_config) "dataset"
                     (dataset_name record);
    task_weight ←
      resolve_weight (aggregation_configs bm_config) "task" task_name;
    target_language_weight ←
      resolve_weight (aggregation_configs bm_config) "target_language"
                     target_language;
    source_language_weight ←
      resolve_weight (aggregation_configs bm_config) "source_language"
                     source_language;
    Ok (leaderboard ++
        [{| info := info leaderboard_record;
            lr_metrics := leaderboard_metrics;
            lr_metric_weights := metric_weights record;
            lr_op_metric := op_metric record;
            dataset_weight := dataset_weight;
            task_weight := task_weight;
            target_language_weight := target_language_weight;
            source_language_weight := source_language_weight |}])%list.

(** The body of [for record in bm_config.record_configs]. *)
Definition add_record (bm_config : BenchmarkConfig)
    (leaderboard : list (LeaderboardRecord B)) (record : RecordConfig)
  : result (list (LeaderboardRecord B)) :=
  systems ← systems_get (dataset_name record) (sub_dataset_name record)
                        (dataset_split record);
  foldM (add_system bm_config record) leaderboard systems.

Definition benchmark_benchmark_id_get (benchmark_id : string)
  : result T :=
  bm_config ← from_json_file
    ("./benchmark_configs/config_" ++ benchmark_id ++ ".json");
  leaderboard ← foldM (add_record bm_config) []
                      (record_configs bm_config);
  compose bm_config leaderboard.
End composer.
End Controllers.

(** ** Shapes of well-formed inputs *)

(** A string or [None]: what the identity fields and the system names
    of the documents hold. On such values [==] is equality. *)
Definition is_name (v : value) : bool :=
  match v with VNone | VStr _ => true | _ => false end.

Definition ident_name (k : ident) : bool :=
  is_name k.1.1 && is_name k.1.2 && is_name k.2.

(** A configured dataset whose index key is made of names. *)
Definition dataset_ok (x : dict) : bool :=
  match dataset_key x with
  | Ok k => ident_name k
  | Raise _ => false
  end.

(** [dataset.get("metrics", config.metrics)]. *)
Definition effective_metrics (config : BenchmarkConfig) (dataset : dict)
  : value :=
  py_get dataset "metrics" (metrics config).

(** A metric description: a dict with a hashable ["name"]. *)
Definition metric_ok (m : value) : bool :=
  match m with
  | VDict d =>
      match dict_lookup "name" d with
      | Some n => hashable n
      | None => false
      end
  | _ => false
  end.

(** The effective metric list of a dataset is a list of [M] metric
    descriptions. *)
Definition metrics_ok (config : BenchmarkConfig) (M : nat) (dataset : dict)
  : bool :=
  match effective_metrics config dataset with
  | VList ms => bool_decide (length ms = M) && forallb metric_ok ms
  | _ => false
  end.

(** An entry of a results map: empty, or a dict with a ["value"]. *)
Definition performance_ok (p : value) : bool :=
  negb (truthy p) ||
  match p with
  | VDict d => bool_decide (is_Some (dict_lookup "value" d))
  | _ => false
  end.

(** [sys["results"]["overall"]] is a map from metric names to
    performances. *)
Definition results_ok (sys : dict) : bool :=
  match dict_lookup "results" sys with
  | Some (VDict results) =>
      match dict_lookup "overall" results with
      | Some (VDict overall) => forallb (λ kv, performance_ok kv.2) overall
      | _ => false
      end
  | _ => false
  end.

(** The system name of a raw info, when it is a string. *)
Definition sys_name_of (sys : dict) : option string :=
  match dict_lookup "system_name" sys with
  | Some (VStr s) => Some s
  | _ => None
  end.

(** The raw info [sys] names a dataset that the index knows: its key is
    the index key of some configured dataset. *)
Definition resolves (config : BenchmarkConfig) (sys : dict) : bool :=
  match sys_key sys with
  | Ok k =>
      ident_name k &&
      existsb (λ x, match dataset_key x with
                    | Ok k' => ident_eqb k' k
                    | Raise _ => false
                    end) (datasets config)
  | Raise _ => false
  end.

Definition sys_ok (config : BenchmarkConfig) (sys : dict) : bool :=
  bool_decide (is_Some (sys_name_of sys)) && resolves config sys
  && results_ok sys.

(** The distinct system names of a collection of raw infos. *)
Definition distinct_system_names (systems : list dict) : list string :=
  remove_dups (omap sys_name_of systems).

(** ** Reference functions for the statements *)

(** The position the index holds for a key [k] after the entries [ds],
    numbered from [i], have been added: the last entry with that key. *)
Fixpoint last_index (k : ident) (i : nat) (ds : list dict)
    (found : option nat) : option nat :=
  match ds with
  | [] => found
  | x :: ds' =>
      last_index k (S i) ds'
        (match dataset_key x with
         | Ok k' => if ident_eqb k' k then Some i else found
         | Raise _ => found
         end)
  end.

(** The raw info [sys] is a submission of system [n] to the dataset at
    position [j] of the index. *)
Definition submits_to (dataset_to_id : list (ident * nat)) (n : string)
    (j : nat) (sys : dict) : bool :=
  bool_decide (sys_name_of sys = Some n) &&
  match sys_key sys with
  | Ok k => bool_decide (pd_get ident_eqb k dataset_to_id = Some j)
  | Raise _ => false
  end.

(** The last submission of system [n] to position [j] among [systems],
    or [found] when there is none. *)
Fixpoint last_submission (dataset_to_id : list (ident * nat)) (n : string)
    (j : nat) (systems : list dict) (found : option dict) : option dict :=
  match systems with
  | [] => found
  | sys :: systems' =>
      last_submission dataset_to_id n j systems'
        (if submits_to dataset_to_id n j sys then Some sys else found)
  end.

(** What the grouping loop has built after the infos [pre]: one entry
    per system name, in the order in which the names were first seen,
    with one slot per configured dataset that holds the last submission
    seen for it. *)
Definition grouped (config : BenchmarkConfig) (idx : list (ident * nat))
    (pre : list dict) (sdr : list (value * list (option dict))) : Prop :=
  sdr.*1 = VStr <$> dedupe String.eqb (omap sys_name_of pre)
  ∧ ∀ n slots, pd_get value_eqb (VStr n) sdr = Some slots →
      length slots = length (datasets config)
      ∧ ∀ j, j < length (datasets config) →
          slots !! j = Some (last_submission idx n j pre None).

(** The rows that the builder emits, as the list of the successive
    states of [column_dict]: the loops of the builder without the
    arrays they fill. *)
Definition append_rows (column_dicts : list dict)
    (df_input : list (string * list value)) : list (string * list value) :=
  fold_left (λ df_input column_dict, append_row column_dict df_input)
            column_dicts df_input.

Fixpoint metric_dicts (n : nat) (sys_info : option dict) (column_dict : dict)
    (ms : list value) : result (list dict) :=
  match ms with
  | [] => Ok []
  | m :: ms' =>
      column_dict ← update_column_dict n sys_info column_dict m;
      rest ← metric_dicts n sys_info column_dict ms';
      Ok (column_dict :: rest)
  end.

Fixpoint concatM {A B : Type} (f : A → result (list B)) (l : list A)
  : result (list B) :=
  match l with
  | [] => Ok []
  | a :: l' => x ← f a; rest ← concatM f l'; Ok (x ++ rest)%list
  end.

Definition dataset_dicts (config : BenchmarkConfig) (sys_name : value)
    (slot : dict * option dict) : result (list dict) :=
  let dataset_metrics := effective_metrics config slot.1 in
  if is_None dataset_metrics then
    _ ← py_getitem slot.1 "dataset_name";
    _ ← py_getitem slot.1 "sub_dataset_name";
    _ ← py_getitem slot.1 "dataset_split";
    Raise ValueError
  else
    ms ← py_iter dataset_metrics;
    metric_dicts (py_len dataset_metrics) slot.2
                 (dict_store "system_name" sys_name slot.1) ms.

Definition system_dicts (config : BenchmarkConfig)
    (entry : value * list (option dict)) : result (list dict) :=
  concatM (dataset_dicts config entry.1) (zip (datasets config) entry.2).

Definition all_dicts (config : BenchmarkConfig)
    (sdr : list (value * list (option dict))) : result (list dict) :=
  concatM (system_dicts config) sdr.

(** The row that a state of [column_dict] leaves in arrays with the
    labels [keys]. *)
Definition row_of (keys : list string) (column_dict : dict) : dict :=
  map (λ k, (k, py_get column_dict k VNone)) keys.

(** The row that the frame holds for a state of [column_dict], when
    the arrays have the labels [keys] and were filled from the states
    [column_dicts]: a cell is stored with the type of its column. *)
Definition stored_cell (column_dicts : list dict) (k : string) (v : value)
  : value :=
  if float_column (map (λ cd, py_get cd k VNone) column_dicts)
  then pd_cell v else v.

Definition stored_row (keys : list string) (column_dicts : list dict)
    (column_dict : dict) : dict :=
  map (λ k, (k, stored_cell column_dicts k (py_get column_dict k VNone)))
      keys.

(** All arrays of [df_input] have [n] cells. *)
Definition cols_len (n : nat) (df_input : list (string * list value))
  : Prop :=
  Forall (λ c, length c.2 = n) df_input.

(** The dictionary that the grouping loop builds from the infos [pre]. *)
Definition grouping_of (config : BenchmarkConfig) (idx : list (ident * nat))
    (pre : list dict) : list (value * list (option dict)) :=
  map (λ s, (VStr s,
             map (λ j, last_submission idx s j pre None)
                 (seq 0 (length (datasets config)))))
      (dedupe String.eqb (omap sys_name_of pre)).

(** [sys_info["results"]["overall"]], the results map of a raw info. *)
Definition overall_of (sys_info : dict) : option dict :=
  match dict_lookup "results" sys_info with
  | Some (VDict results) =>
      match dict_lookup "overall" results with
      | Some (VDict overall) => Some overall
      | _ => None
      end
  | _ => None
  end.

(** The character [c] occurs in [s]. *)
Fixpoint has_char (c : Ascii.ascii) (s : string) : bool :=
  match s with
  | EmptyString => false
  | String a s' => Ascii.eqb a c || has_char c s'
  end.

(** Two rows agree on every descriptor column in which one of them has
    a truthy value. *)
Definition agree_on_truthy (elem_names : list string) (r1 r2 : dict) : Prop :=
  ∀ e v1 v2, e ∈ elem_names →
    dict_lookup e r1 = Some v1 → dict_lookup e r2 = Some v2 →
    truthy v1 || truthy v2 = true → v1 = v2.

(** The same, for the text that the label shows of a value. *)
Definition same_text_on_truthy (py_repr : value → string)
    (elem_names : list string) (r1 r2 : dict) : Prop :=
  ∀ e v1 v2, e ∈ elem_names →
    dict_lookup e r1 = Some v1 → dict_lookup e r2 = Some v2 →
    truthy v1 || truthy v2 = true →
    truthy v1 = true ∧ truthy v2 = true
    ∧ py_str py_repr v1 = py_str py_repr v2.

(** No column label contains a comma or an equals sign. *)
Definition plain_names (elem_names : list string) : Prop :=
  Forall (λ e, has_char ","%char e = false ∧ has_char "="%char e = false) elem_names.

(** No truthy descriptor of the row shows a comma in the label. *)
Definition plain_texts (py_repr : value → string) (elem_names : list string)
    (r : dict) : Prop :=
  ∀ e v, e ∈ elem_names → dict_lookup e r = Some v → truthy v = true →
    has_char ","%char (py_str py_repr v) = false.

(** The cell of a rendered table for a system and a column label. *)
Definition table_cell (tbl : BenchmarkTable) (sys : value) (col : string)
  : option float :=
  i ← pd_get value_eqb sys (enumerate (system_names tbl));
  j ← pd_get String.eqb col (enumerate (column_names tbl));
  row ← scores tbl !! i;
  row !! j.

(** The score that the rows [its] (each with its label) write last for
    the system [sys] and the label [col], or [found] when none does. *)
Fixpoint last_write (sys : value) (col : string) (its : list (dict * string))
    (found : option float) : option float :=
  match its with
  | [] => found
  | (row, label) :: its' =>
      last_write sys col its'
        (match dict_lookup "system_name" row, dict_lookup "score" row with
         | Some v, Some (VNum f) =>
             if value_eqb v sys && String.eqb label col then Some f
             else found
         | _, _ => found
         end)
  end.

Definition is_str (v : value) : bool :=
  match v with VStr _ => true | _ => false end.

Definition is_num (v : value) : bool :=
  match v with VNum _ => true | _ => false end.

(** A frame whose columns all have as many cells as the frame has
    rows, with strings in [system_name] and numbers in [score]. *)
Definition frame_ok (df : DataFrame) : Prop :=
  cols_len (nrows df) (df_columns df)
  ∧ (∃ names, df_column df "system_name" = Ok names
              ∧ forallb is_str names = true)
  ∧ (∃ vals, df_column df "score" = Ok vals ∧ forallb is_num vals = true).

(** The descriptor columns of a frame: all but [score] and
    [system_name]. *)
Definition descriptor_names (input_df : DataFrame) : list string :=
  filter (λ x, x ∉ ["score"; "system_name"]) (map fst (df_columns input_df)).

(** The matrix of scores after the rows [pre] (each with its label)
    have been written, for the systems [SL] and the labels [CL]. *)
Definition filled (SL : list value) (CL : list string)
    (pre : list (dict * string)) (M : list (list float)) : Prop :=
  length M = length SL
  ∧ Forall (λ r, length r = length CL) M
  ∧ ∀ i j v c, SL !! i = Some v → CL !! j = Some c →
      M !! i ≫= (λ r, r !! j)
        = Some (default 0%float (last_write v c pre None)).

(** The store [h] extends [h0]: the objects of [h0] are still there,
    with the contents they had. *)
Definition extends (h0 h : store) : Prop :=
  (next h0 ≤ next h)%nat ∧ ∀ r, (r < next h0)%nat → cell h r = cell h0 r.

(** A computation that, whether it returns or raises, leaves the
    objects of [h0] as they were, and whose result satisfies [Q]. *)
Definition framed (h0 : store) {A : Type} (m : M A) (Q : A → Prop) : Prop :=
  ∀ h, extends h0 h →
    extends h0 (m h).2 ∧ ∀ a, (m h).1 = Ok a → Q a.

(** [sys_info["results"]["overall"][s]["value"]], when every step is
    there. *)
Definition overall_value (sys_info : dict) (s : string) : option value :=
  overall ← overall_of sys_info;
  performance ← dict_lookup s overall;
  match performance with
  | VDict d => dict_lookup "value" d
  | _ => None
  end.

(** The weight table of the dimension [dim] is there:
    [cfgs[dim]["weights"]] is a dict. *)
Definition weights_ok (cfgs : dict) (dim : string) : Prop :=
  ∃ c w, dict_lookup dim cfgs = Some (VDict c)
         ∧ dict_lookup "weights" c = Some (VDict w).

(** ** Example documents *)

(** The scenario of the specification: one dataset [("SST2", None,
    "test")], one metric ["accuracy"] with default [0.0], and system
    ["A"] with accuracy [0.9]. [sst2_system] is the info exactly as the
    scenario writes it, without a ["sub_dataset_name"] entry;
    [sst2_system_full] carries [sub_dataset_name = None], as
    [SystemInfo.to_dict()] produces it. *)
Definition sst2_config : BenchmarkConfig := {|
  datasets := [[("dataset_name", VStr "SST2"); ("sub_dataset_name", VNone);
                ("dataset_split", VStr "test")]];
  metrics := VList [VDict [("name", VStr "accuracy");
                           ("default", VNum 0%float)]];
  views := []
|}.

Definition sst2_system : dict :=
  [("system_name", VStr "A"); ("dataset_name", VStr "SST2");
   ("dataset_split", VStr "test");
   ("results", VDict [("overall",
      VDict [("accuracy", VDict [("value", VNum 0.9%float)])])])].

Definition sst2_system_full : dict :=
  [("system_name", VStr "A"); ("dataset_name", VStr "SST2");
   ("sub_dataset_name", VNone); ("dataset_split", VStr "test");
   ("results", VDict [("overall",
      VDict [("accuracy", VDict [("value", VNum 0.9%float)])])])].

(** A raw info of system [n] for dataset [(d, None, split)] with one
    accuracy score. *)
Definition info (n d split : string) (accuracy : float) : dict :=
  [("system_name", VStr n); ("dataset_name", VStr d);
   ("sub_dataset_name", VNone); ("dataset_split", VStr split);
   ("results", VDict [("overall",
      VDict [("accuracy", VDict [("value", VNum accuracy)])])])].

(** Two datasets, two metrics (the second with an explicit weight and
    default), no views. *)
Definition two_config : BenchmarkConfig := {|
  datasets := [[("dataset_name", VStr "SST2")];
               [("dataset_name", VStr "MNLI"); ("sub_dataset_name", VNone);
                ("dataset_split", VStr "test"); ("task", VStr "nli")]];
  metrics := VList [VDict [("name", VStr "accuracy")];
                    VDict [("name", VStr "f1"); ("weight", VNum 2%float);
                           ("default", VNum 0.5%float)]];
  views := []
|}.

Definition two_systems : list dict :=
  [info "A" "SST2" "test" 0.8%float; info "B" "SST2" "test" 0.4%float;
   info "A" "MNLI" "test" 0.6%float].

(** A configuration that lists the same dataset twice. *)
Definition dup_config : BenchmarkConfig := {|
  datasets := [[("dataset_name", VStr "SST2"); ("sub_dataset_name", VNone);
                ("dataset_split", VStr "test")];
               [("dataset_name", VStr "SST2"); ("sub_dataset_name", VNone);
                ("dataset_split", VStr "test")]];
  metrics := VList [VDict [("name", VStr "accuracy")]];
  views := []
|}.

(** A configuration whose only dataset is a validation split. *)
Definition validation_config : BenchmarkConfig := {|
  datasets := [[("dataset_name", VStr "SST2"); ("sub_dataset_name", VNone);
                ("dataset_split", VStr "validation")]];
  metrics := VList [VDict [("name", VStr "accuracy")]];
  views := []
|}.

(** Two rows with the descriptor columns [a] and [b]: the first has the
    value ["x, b=y"] in [a] and nothing in [b], the second ["x"] in [a]
    and ["y"] in [b]. *)
Definition row_ab_1 : dict :=
  [("system_name", VStr "A"); ("a", VStr "x, b=y"); ("b", VStr "");
   ("score", VNum 1%float)].

Definition row_ab_2 : dict :=
  [("system_name", VStr "A"); ("a", VStr "x"); ("b", VStr "y");
   ("score", VNum 2%float)].

(** A frame with a repeated (system, label) pair and a missing one. *)
Definition demo_frame : DataFrame := {|
  df_index := RangeIndex 4;
  df_columns :=
    [("system_name", [VStr "A"; VStr "B"; VStr "A"; VStr "A"]);
     ("metric", [VStr "acc"; VStr "acc"; VStr "acc"; VStr "f1"]);
     ("score", [VNum 0.8%float; VNum 0.4%float; VNum 0.6%float;
                VNum 0.5%float])]
|}.

(** A configuration with one view that is itself named ["orig"], and
    the same configuration with one view named ["weighted"]; both views
    multiply the score by the metric weight. *)
Definition orig_view_config : BenchmarkConfig := {|
  datasets := datasets sst2_config;
  metrics := metrics sst2_config;
  views := [{| name := "orig";
               operations := [[("op", VStr "multiply");
                               ("other", VStr "metric_weight")]] |}]
|}.

Definition weighted_view_config : BenchmarkConfig := {|
  datasets := datasets sst2_config;
  metrics := metrics sst2_config;
  views := [{| name := "weighted";
               operations := [[("op", VStr "multiply");
                               ("other", VStr "metric_weight")]] |}]
|}.

(** A store without objects. *)
Definition empty_store : store :=
  {| cell := λ _, {| df_index := RangeIndex 0; df_columns := [] |};
     next := 0 |}.

(** A benchmark record that requires accuracy and f1, a system that
    reports accuracy and bleu, and one that reports bleu only. *)
Definition glue_record : Controllers.RecordConfig := {|
  Controllers.dataset_name := VStr "SST2";
  Controllers.sub_dataset_name := VNone;
  Controllers.dataset_split := VStr "test";
  Controllers.metrics := ["accuracy"; "f1"];
  Controllers.metric_weights := VNone;
  Controllers.op_metric := VStr "mean"
|}.

Definition glue_config : Controllers.BenchmarkConfig := {|
  Controllers.record_configs := [glue_record];
  Controllers.aggregation_configs :=
    [("dataset", VDict [("weights", VDict [("SST2", VNum 2%float)])]);
     ("task", VDict [("weights", VDict [])]);
     ("target_language", VDict [("weights", VDict [])]);
     ("source_language", VDict [("weights", VDict [])])]
|}.

Definition glue_system : dict :=
  [("system_name", VStr "A");
   ("metric_configs", VList [VDict [("name", VStr "accuracy")];
                             VDict [("name", VStr "bleu")]]);
   ("task_name", VStr "text-classification");
   ("target_language", VStr "en"); ("source_language", VStr "en");
   ("results", VDict [("overall",
      VDict [("accuracy", VDict [("value", VNum 0.9%float)]);
             ("bleu", VDict [("value", VNum 0.3%float)])])])].

Definition bleu_system : dict :=
  [("system_name", VStr "B");
   ("metric_configs", VList [VDict [("name", VStr "bleu")]]);
   ("task_name", VStr "text-classification");
   ("target_language", VStr "en"); ("source_language", VStr "en");
   ("results", VDict [("overall",
      VDict [("bleu", VDict [("value", VNum 0.3%float)])])])].

(** A stand-in for [LeaderboardRecord.from_dict]: it keeps the system
    info as the base of the record. *)
Definition keep_info (sys_info : dict)
  : result (Controllers.LeaderboardRecord dict) :=
  Ok {| Controllers.info := sys_info;
        Controllers.lr_metrics := [];
        Controllers.lr_metric_weights := VNone;
        Controllers.lr_op_metric := VNone;
        Controllers.dataset_weight := VNone;
        Controllers.task_weight := VNone;
        Controllers.target_language_weight := VNone;
        Controllers.source_language_weight := VNone |}.

(** ** Reference functions for the layout of the builder's table *)

(** The effective metric list of a dataset is a list of metric
    descriptions, of any length. *)
Definition metric_list_ok (config : BenchmarkConfig) (dataset : dict)
  : bool :=
  match effective_metrics config dataset with
  | VList ms => forallb metric_ok ms
  | _ => false
  end.

(** The metric descriptions of a dataset, when its effective metric
    list is a list. *)
Definition metric_descriptions (config : BenchmarkConfig) (dataset : dict)
  : list value :=
  match effective_metrics config dataset with
  | VList ms => ms
  | _ => []
  end.

(** The rows that one system gets: one per configured dataset and
    metric of its effective list. *)
Definition rows_per_system (config : BenchmarkConfig) : nat :=
  sum_list (map (λ dataset, length (metric_descriptions config dataset))
                (datasets config)).

(** The system names in the order in which the raw infos first mention
    them. *)
Definition system_names_in_order (systems : list dict) : list string :=
  dedupe String.eqb (omap sys_name_of systems).

(** The column labels of the builder's table: the four fixed columns,
    the keys of the configured datasets other than ["metrics"], and the
    three metric columns, each label once, at its first position. *)
Definition builder_columns (config : BenchmarkConfig) : list string :=
  dedupe String.eqb
    (["system_name"; "dataset_name"; "sub_dataset_name"; "dataset_split"]
     ++ filter (λ k, k ∉ exclude_keys)
               (concat (map (map fst) (datasets config)))
     ++ ["metric"; "metric_weight"; "score"])%list.

(** The columns that the metric loop writes, with [system_name]. *)
Definition written_columns : list string :=
  ["system_name"; "metric"; "metric_weight"; "score"].

(** The (system, dataset, metric description) triples in the order of
    the three nested loops of the builder. *)
Definition row_triples (config : BenchmarkConfig) (systems : list dict)
  : list (string * dict * value) :=
  s ← system_names_in_order systems;
  dataset ← datasets config;
  m ← metric_descriptions config dataset;
  [(s, dataset, m)].

(** The raw info [sys] cannot be grouped: it has no ["system_name"], or
    its name is a string and one of its identity fields is missing or
    its key is not in the index. *)
Definition unlisted (dataset_to_id : list (ident * nat)) (sys : dict)
  : Prop :=
  dict_lookup "system_name" sys = None
  ∨ (is_Some (sys_name_of sys)
     ∧ (sys_key sys = Raise KeyError
        ∨ ∃ k, sys_key sys = Ok k ∧ pd_get ident_eqb k dataset_to_id = None)).

(** A configuration without a global metric list, whose first dataset
    brings its own and whose second dataset has none. *)
Definition no_metrics_config : BenchmarkConfig := {|
  datasets := [[("dataset_name", VStr "SST2"); ("sub_dataset_name", VNone);
                ("dataset_split", VStr "test");
                ("metrics", VList [VDict [("name", VStr "accuracy")]])];
               [("dataset_name", VStr "MNLI"); ("sub_dataset_name", VNone);
                ("dataset_split", VStr "test")]];
  metrics := VNone;
  views := []
|}.

(** Two datasets with metric lists of different lengths: the first
    brings one metric of its own, the second uses the two global ones. *)
Definition mixed_config : BenchmarkConfig := {|
  datasets := [[("dataset_name", VStr "SST2"); ("task", VStr "sentiment");
                ("metrics", VList [VDict [("name", VStr "f1")]])];
               [("dataset_name", VStr "MNLI"); ("language", VStr "en")]];
  metrics := VList [VDict [("name", VStr "accuracy")];
                    VDict [("name", VStr "f1")]];
  views := []
|}.

(** The row [row] is the row of the triple [t]: it carries the system
    name, the name of the metric, and under every other label of
    [columns] that the metric loop does not write, the entry of the
    dataset. Where that entry is [None], or the dataset has none, the
    cell is [None] or [NaN], as the type of the column has it. *)
Definition row_matches (columns : list string) (row : dict)
    (t : string * dict * value) : Prop :=
  let '(s, dataset, m) := t in
  dict_lookup "system_name" row = Some (VStr s)
  ∧ (∃ d nm, m = VDict d ∧ dict_lookup "name" d = Some nm
             ∧ (nm ≠ VNone → dict_lookup "metric" row = Some nm))
  ∧ ∀ k, k ∈ columns → k ∉ written_columns →
      match py_get dataset k VNone with
      | VNone => dict_lookup k row = Some VNone
                 ∨ dict_lookup k row = Some (VNum nan)
      | v => dict_lookup k row = Some v
      end.

(** The same for a state of [column_dict], from which the row is
    taken. *)
Definition column_dict_matches (column_dict : dict)
    (t : string * dict * value) : Prop :=
  let '(s, dataset, m) := t in
  dict_lookup "system_name" column_dict = Some (VStr s)
  ∧ (∃ d nm, m = VDict d ∧ dict_lookup "name" d = Some nm
             ∧ dict_lookup "metric" column_dict = Some nm)
  ∧ ∀ k, k ∉ written_columns →
      dict_lookup k column_dict = dict_lookup k dataset.

(** Two raw infos for [mixed_config], and the table that the builder
    returns for them. *)
Definition mixed_systems : list dict :=
  [info "A" "SST2" "test" 0.8%float; info "B" "MNLI" "test" 0.4%float].

Definition mixed_table : DataFrame :=
  Eval vm_compute in
    match generate_dataframe_from_sys_infos mixed_config mixed_systems with
    | Ok df => df
    | Raise _ => {| df_index := RangeIndex 0; df_columns := [] |}
    end.

(** ** Reference functions for the views *)

(** An operation whose ["op"] is none of the three that
    [aggregate_view] acts on. *)
Definition unknown_op (operation : dict) : Prop :=
  ∃ op, dict_lookup "op" operation = Some op
        ∧ value_eqb op (VStr "mean") = false
        ∧ value_eqb op (VStr "multiply") = false
        ∧ value_eqb op (VStr "sum") = false.

(** A view without operations, one whose operation has a misspelt
    name, and a store that holds [demo_frame]. *)
Definition plain_view : BenchmarkViewConfig :=
  {| name := "plain"; operations := [] |}.

Definition median_view : BenchmarkViewConfig :=
  {| name := "median"; operations := [[("op", VStr "median")]] |}.

Definition demo_store : store := (alloc demo_frame empty_store).2.

(** A configuration with three views, two of them under one name. *)
Definition three_views_config : BenchmarkConfig := {|
  datasets := datasets sst2_config;
  metrics := metrics sst2_config;
  views := [{| name := "weighted";
               operations := [[("op", VStr "multiply");
                               ("other", VStr "metric_weight")]] |};
            plain_view;
            {| name := "weighted"; operations := [] |}]
|}.

(** ** Documents with numeric scores *)

(** A metric description whose default, when it has one, is a number. *)
Definition metric_num_ok (m : value) : bool :=
  metric_ok m &&
  match m with
  | VDict d =>
      match dict_lookup "default" d with
      | Some v => is_num v
      | None => true
      end
  | _ => false
  end.

Definition metric_list_num_ok (config : BenchmarkConfig) (dataset : dict)
  : bool :=
  match effective_metrics config dataset with
  | VList ms => forallb metric_num_ok ms
  | _ => false
  end.

(** An entry of a results map: empty, or a dict with a numeric
    ["value"]. *)
Definition performance_num_ok (p : value) : bool :=
  negb (truthy p) ||
  match p with
  | VDict d =>
      match dict_lookup "value" d with
      | Some v => is_num v
      | None => false
      end
  | _ => false
  end.

Definition results_num_ok (sys : dict) : bool :=
  match dict_lookup "results" sys with
  | Some (VDict results) =>
      match dict_lookup "overall" results with
      | Some (VDict overall) =>
          forallb (λ kv, performance_num_ok kv.2) overall
      | _ => false
      end
  | _ => false
  end.

Definition sys_num_ok (config : BenchmarkConfig) (sys : dict) : bool :=
  sys_ok config sys && results_num_ok sys.

(** ** Configured identities and the scores of the rows *)

(** The identity of a configured dataset, as [load_sys_infos] reads it
    from the configuration:
    [(record["dataset_name"], record.get("sub_dataset_name", None),
      record.get("dataset_split", "test"))]. *)
Definition dataset_identity (x : dict) : result ident :=
  n ← py_getitem x "dataset_name";
  Ok (n, py_get x "sub_dataset_name" VNone,
      py_get x "dataset_split" (VStr "test")).

(** The builder indexes the dataset under its identity: the key that
    the index comprehension reads is the identity. *)
Definition indexed_by_identity (x : dict) : bool :=
  match dataset_key x, dataset_identity x with
  | Ok k, Ok k' => ident_eqb k k'
  | _, _ => false
  end.

(** Two configured datasets with one index key. *)
Definition same_key (x y : dict) : bool :=
  match dataset_key x, dataset_key y with
  | Ok k, Ok k' => ident_eqb k k'
  | _, _ => false
  end.

(** No two configured datasets have the same index key. *)
Fixpoint distinct_datasets (ds : list dict) : bool :=
  match ds with
  | [] => true
  | x :: ds' => forallb (λ y, negb (same_key x y)) ds' && distinct_datasets ds'
  end.

(** A metric description with a string for its name and, where it has
    them, numbers for its weight and its default. *)
Definition metric_plain (m : value) : bool :=
  match m with
  | VDict d =>
      match dict_lookup "name" d with
      | Some (VStr _) => true
      | _ => false
      end
      && match dict_lookup "weight" d with
         | Some v => is_num v
         | None => true
         end
      && match dict_lookup "default" d with
         | Some v => is_num v
         | None => true
         end
  | _ => false
  end.

Definition metric_list_plain (config : BenchmarkConfig) (dataset : dict)
  : bool :=
  match effective_metrics config dataset with
  | VList ms => forallb metric_plain ms
  | _ => false
  end.

(** The name of a metric description, when it is a string. *)
Definition metric_name (m : value) : option string :=
  match m with
  | VDict d =>
      match dict_lookup "name" d with
      | Some (VStr s) => Some s
      | _ => None
      end
  | _ => None
  end.

(** The metric descriptions of the dataset have different names. *)
Definition distinct_metric_names (config : BenchmarkConfig) (dataset : dict)
  : bool :=
  bool_decide (NoDup (metric_name <$> metric_descriptions config dataset)).

(** The raw info [sys] is a submission of the system [s] for the
    dataset [dataset]: it carries the name of the system and the
    identity of the dataset. *)
Definition submitted_to (s : string) (dataset : dict) (sys : dict) : bool :=
  bool_decide (sys_name_of sys = Some s) &&
  match sys_key sys, dataset_identity dataset with
  | Ok k, Ok k' => ident_eqb k k'
  | _, _ => false
  end.

(** The last submission of the system [s] for the dataset [dataset]
    among [systems], or [found] when there is none. *)
Fixpoint submission_for (s : string) (dataset : dict) (systems : list dict)
    (found : option dict) : option dict :=
  match systems with
  | [] => found
  | sys :: systems' =>
      submission_for s dataset systems'
        (if submitted_to s dataset sys then Some sys else found)
  end.

(** The score of the metric description [d] for a system whose
    submission for the dataset is [submission]: without a submission
    the default of the metric ([0.0] if it has none); with one, the
    ["value"] of the entry that its results map has for the metric, and
    the default when the map has no entry for the metric or an empty
    one. *)
Definition expected_score (submission : option dict) (d : dict)
  : option value :=
  match submission with
  | None => Some (py_get d "default" (VNum 0%float))
  | Some sys_info =>
      match overall_of sys_info, dict_lookup "name" d with
      | Some overall, Some (VStr nm) =>
          match dict_lookup nm overall with
          | Some (VDict p) =>
              if truthy (VDict p) then dict_lookup "value" p
              else Some (py_get d "default" (VNum 0%float))
          | Some p =>
              if truthy p then None
              else Some (py_get d "default" (VNum 0%float))
          | None => Some (py_get d "default" (VNum 0%float))
          end
      | _, _ => None
      end
  end.

(** The row [row] is the row of the triple [t]: it carries the name of
    the system, the three identity entries of the dataset, the name of
    the metric, the weight of the metric (its own, or one over the
    length of the dataset's metric list) and the score that the
    system's last submission for the dataset gives for the metric. *)
Definition scored_row (config : BenchmarkConfig) (systems : list dict)
    (row : dict) (t : string * dict * value) : Prop :=
  let '(s, dataset, m) := t in
  dict_lookup "system_name" row = Some (VStr s)
  ∧ dict_lookup "dataset_name" row
    = Some (py_get dataset "dataset_name" VNone)
  ∧ dict_lookup "sub_dataset_name" row
    = Some (py_get dataset "sub_dataset_name" VNone)
  ∧ dict_lookup "dataset_split" row
    = Some (py_get dataset "dataset_split" VNone)
  ∧ ∃ d nm,
      m = VDict d ∧ dict_lookup "name" d = Some (VStr nm)
      ∧ dict_lookup "metric" row = Some (VStr nm)
      ∧ dict_lookup "metric_weight" row
        = Some (py_get d "weight"
                  (VNum (1 / float_of_nat
                           (length (metric_descriptions config dataset)))))
      ∧ ∃ score,
          dict_lookup "score" row = Some score
          ∧ expected_score (submission_for s dataset systems None) d
            = Some score.

(** The same for a state of [column_dict]. *)
Definition column_dict_scored (config : BenchmarkConfig)
    (systems : list dict) (column_dict : dict)
    (t : string * dict * value) : Prop :=
  let '(s, dataset, m) := t in
  dict_lookup "system_name" column_dict = Some (VStr s)
  ∧ (∀ k, k ∉ written_columns →
       dict_lookup k column_dict = dict_lookup k dataset)
  ∧ ∃ d nm,
      m = VDict d ∧ dict_lookup "name" d = Some (VStr nm)
      ∧ dict_lookup "metric" column_dict = Some (VStr nm)
      ∧ dict_lookup "metric_weight" column_dict
        = Some (py_get d "weight"
                  (VNum (1 / float_of_nat
                           (length (metric_descriptions config dataset)))))
      ∧ ∃ score,
          dict_lookup "score" column_dict = Some score
          ∧ expected_score (submission_for s dataset systems None) d
            = Some score.

(** What identifies a row: the system, the identity of the dataset
    and the name of the metric. *)
Definition triple_key (t : string * dict * value)
  : string * result ident * option string :=
  let '(s, dataset, m) := t in (s, dataset_identity dataset, metric_name m).
(** * Properties *)

Local Open Scope list_scope.
Local Open Scope nat_scope.

(** ** The exception monad and its loops *)

Lemma bind_Ok {A B : Type} (m : result A) (f : A → result B) (b : B) :
  m ≫= f = Ok b ↔ ∃ a, m = Ok a ∧ f a = Ok b.
Proof.
  destruct m as [a|e]; simpl; split.
  - eauto.
  - intros (a' & Ha & Hf). by injection Ha as ->.
  - discriminate.
  - intros (a' & Ha & _). discriminate.
Qed.

Lemma foldM_app {A B : Type} (f : B → A → result B) (b : B) (l k : list A) :
  foldM f b (l ++ k) = foldM f b l ≫= λ b', foldM f b' k.
Proof.
  revert b. induction l as [|a l IH]; intros b; simpl; [done|].
  destruct (f b a) as [b'|e]; simpl; [apply IH|done].
Qed.

(** Preservation of an invariant by a loop that returns. *)
Lemma foldM_invariant {A B : Type} (f : B → A → result B) (I : B → Prop)
    (l : list A) (b b' : B) :
  (∀ a b b', a ∈ l → I b → f b a = Ok b' → I b') →
  I b → foldM f b l = Ok b' → I b'.
Proof.
  revert b. induction l as [|a l IH]; intros b Hstep Hb; simpl.
  - by intros [= <-].
  - intros (b1 & H1 & H2)%bind_Ok.
    apply (IH b1); [|by eapply Hstep; [left| |]|done].
    intros a' c c' Ha'. apply Hstep. by right.
Qed.

(** A loop whose every round returns does return; the invariant follows
    the rounds done so far. *)
Lemma foldM_total {A B : Type} (f : B → A → result B)
    (I : list A → B → Prop) (l pre : list A) (b : B) :
  (∀ pre a b, a ∈ l → I pre b → ∃ b', f b a = Ok b' ∧ I (pre ++ [a]) b') →
  I pre b → ∃ b', foldM f b l = Ok b' ∧ I (pre ++ l) b'.
Proof.
  revert b pre. induction l as [|a l IH]; intros b pre Hstep Hb; simpl.
  - exists b. by rewrite app_nil_r.
  - destruct (Hstep pre a b) as (b1 & -> & H1); [by left|done|]. simpl.
    replace (pre ++ a :: l) with ((pre ++ [a]) ++ l) by by rewrite <- app_assoc.
    apply IH; [|done]. intros k a' c Ha'. apply Hstep. by right.
Qed.

Lemma forallb_Forall {A : Type} (f : A → bool) (l : list A) :
  forallb f l = true ↔ Forall (λ x, f x = true) l.
Proof.
  rewrite forallb_forall, Forall_forall.
  split; intros H x Hx; apply H; by apply list_elem_of_In.
Qed.

Lemma map_eq_fmap {A B : Type} (f : A → B) (l : list A) : map f l = f <$> l.
Proof. induction l as [|a l IH]; [done|]. simpl. by rewrite IH. Qed.

Lemma fmap_Permutation_inv {A B : Type} (f : A → B) (l : list B)
    (k : list A) :
  l ≡ₚ f <$> k → ∃ k', l = f <$> k' ∧ k ≡ₚ k'.
Proof.
  rewrite <- map_eq_fmap. intros (k' & -> & Hk)%Permutation_map_inv.
  exists k'. by rewrite map_eq_fmap.
Qed.

(** ** Names and keys *)

Lemma value_eqb_name (a b : value) :
  is_name a = true → value_eqb a b = true ↔ a = b.
Proof.
  destruct a, b; simpl; try done; intros _.
  rewrite String.eqb_eq. split; congruence.
Qed.

Lemma ident_eqb_name (a b : ident) :
  ident_name a = true → ident_eqb a b = true ↔ a = b.
Proof.
  destruct a as [[a1 a2] a3], b as [[b1 b2] b3].
  unfold ident_name, ident_eqb. simpl.
  rewrite !andb_true_iff. intros [[H1 H2] H3].
  rewrite (value_eqb_name _ _ H1), (value_eqb_name _ _ H2),
    (value_eqb_name _ _ H3).
  split; [intros [[-> ->] ->]; done | intros [= -> -> ->]; done].
Qed.

#[local] Instance VStr_inj : Inj (=) (=) VStr.
Proof. by intros a b [= ->]. Qed.

Lemma is_name_hashable (v : value) : is_name v = true → hashable v = true.
Proof. by destruct v. Qed.

(** ** Insertion-ordered dictionaries *)

Section pydict_facts.
Context {K V : Type} (eqb : K → K → bool) (P : K → Prop).
Hypothesis eqb_eq : ∀ a b, P a → eqb a b = true ↔ a = b.

Lemma pd_get_set (k k' : K) (v : V) (d : list (K * V)) :
  Forall P d.*1 → P k' →
  pd_get eqb k (pd_set eqb k' v d) =
    if eqb k' k then Some v else pd_get eqb k d.
Proof.
  intros Hd Hk'. induction d as [|[k0 v0] d IH]; simpl; [done|].
  apply Forall_cons in Hd as [Hk0 Hd]. specialize (IH Hd).
  destruct (eqb k0 k') eqn:E0; simpl.
  - apply eqb_eq in E0 as ->; [|done]. by destruct (eqb k' k).
  - rewrite IH. destruct (eqb k0 k) eqn:E1; [|done].
    apply eqb_eq in E1 as ->; [|done].
    destruct (eqb k' k) eqn:E2; [|done].
    apply eqb_eq in E2 as ->; [|done].
    assert (eqb k k = true) by by apply eqb_eq. congruence.
Qed.

Lemma pd_set_keys (k : K) (v : V) (d : list (K * V)) :
  (pd_set eqb k v d).*1 =
    if pd_mem eqb k d then d.*1 else d.*1 ++ [k].
Proof.
  unfold pd_mem. induction d as [|[k0 v0] d IH]; simpl; [done|].
  destruct (eqb k0 k); [done|]. rewrite fmap_cons, IH.
  by destruct (pd_get eqb k d).
Qed.

Lemma pd_get_Some (k : K) (v : V) (d : list (K * V)) :
  Forall P d.*1 → pd_get eqb k d = Some v → (k, v) ∈ d.
Proof.
  induction d as [|[k0 v0] d IH]; simpl; [done|].
  intros [Hk0 Hd]%Forall_cons. destruct (eqb k0 k) eqn:E.
  - apply eqb_eq in E as ->; [|done]. intros [= ->]. by left.
  - intros H. right. by apply IH.
Qed.

Lemma pd_get_None (k : K) (d : list (K * V)) :
  Forall P d.*1 → pd_get eqb k d = None ↔ k ∉ d.*1.
Proof.
  induction d as [|[k0 v0] d IH]; simpl.
  - intros _. split; [intros _ H; inversion H|done].
  - intros [Hk0 Hd]%Forall_cons. rewrite not_elem_of_cons.
    destruct (eqb k0 k) eqn:E.
    + apply eqb_eq in E as ->; [|done]. split; [done|]. by intros [? _].
    + rewrite (IH Hd). split; [|by intros [_ ?]].
      intros H. split; [|done]. intros ->.
      assert (eqb k0 k0 = true) by by apply eqb_eq. congruence.
Qed.

Lemma pd_set_None (k : K) (v : V) (d : list (K * V)) :
  pd_get eqb k d = None → pd_set eqb k v d = d ++ [(k, v)].
Proof.
  induction d as [|[k0 v0] d IH]; simpl; [done|].
  destruct (eqb k0 k); [done|]. intros H. by rewrite IH.
Qed.

Lemma pd_set_Forall (Q : K * V → Prop) (k : K) (v : V) (d : list (K * V)) :
  Forall Q d → (∀ k0, eqb k0 k = true → Q (k0, v)) → Q (k, v) →
  Forall Q (pd_set eqb k v d).
Proof.
  intros Hd Hq Hk. induction d as [|[k0 v0] d IH]; simpl.
  - by constructor.
  - apply Forall_cons in Hd as [H0 Hd]. destruct (eqb k0 k) eqn:E.
    + constructor; [by apply Hq|done].
    + constructor; [done|by apply IH].
Qed.
End pydict_facts.

(** ** The dataset index *)

Lemma dataset_to_id_from_spec (i : nat) (ds : list dict)
    (acc : list (ident * nat)) :
  Forall (λ x, dataset_ok x = true) ds →
  Forall (λ k, ident_name k = true) acc.*1 →
  ∃ idx, dataset_to_id_from i ds acc = Ok idx
    ∧ Forall (λ k, ident_name k = true) idx.*1
    ∧ ∀ k, pd_get ident_eqb k idx = last_index k i ds (pd_get ident_eqb k acc).
Proof.
  revert i acc. induction ds as [|x ds IH]; intros i acc Hds Hacc; simpl.
  - by exists acc.
  - apply Forall_cons in Hds as [Hx Hds]. unfold dataset_ok in Hx.
    destruct (dataset_key x) as [kx|] eqn:Ex; [simpl|done].
    destruct (IH (S i) (pd_set ident_eqb kx i acc) Hds)
      as (idx & Hidx & Hnames & Hget).
    { rewrite pd_set_keys. destruct (pd_mem _ _ _); [done|].
      apply Forall_app. split; [done|]. by repeat constructor. }
    exists idx. split; [done|]. split; [done|]. intros k.
    rewrite Hget.
    by rewrite (pd_get_set ident_eqb _ ident_eqb_name k kx i acc Hacc Hx).
Qed.

Lemma last_index_found (k : ident) (i : nat) (ds : list dict)
    (found : option nat) (j : nat) :
  last_index k i ds found = Some j →
  found = Some j ∨
  (i ≤ j < i + length ds ∧
   ∃ x k', ds !! (j - i) = Some x ∧ dataset_key x = Ok k'
           ∧ ident_eqb k' k = true).
Proof.
  revert i found. induction ds as [|x ds IH]; intros i found; simpl.
  - by left.
  - intros [H|(Hj & x' & k' & Hx' & Hk')]%IH.
    + destruct (dataset_key x) as [kx|] eqn:Ex; [|by left].
      destruct (ident_eqb kx k) eqn:E; [|by left].
      injection H as <-. right. split; [lia|].
      exists x, kx. by rewrite Nat.sub_diag.
    + right. split; [lia|]. exists x', k'.
      replace (j - i) with (S (j - S i)) by lia. done.
Qed.

Lemma last_index_last (k : ident) (i : nat) (ds : list dict)
    (found : option nat) (j : nat) (x : dict) (k' : ident) :
  ds !! j = Some x → dataset_key x = Ok k' → ident_eqb k' k = true →
  (∀ j' y ky, j < j' → ds !! j' = Some y → dataset_key y = Ok ky →
              ident_eqb ky k = false) →
  last_index k i ds found = Some (i + j).
Proof.
  revert i j found. induction ds as [|y ds IH]; intros i j found; [done|].
  destruct j as [|j]; simpl.
  - intros [= ->] Hk' E Hlater. rewrite Hk', E, Nat.add_0_r.
    clear IH Hk' E. revert Hlater. generalize (S i) as i'. generalize i as r.
    induction ds as [|z ds IH]; intros r i' Hlater; simpl; [done|].
    destruct (dataset_key z) as [kz|] eqn:Ez.
    + rewrite (Hlater 1 z kz); [|lia|done|done].
      apply IH. intros j' y' ky Hj'. destruct j' as [|j']; [lia|].
      intros Hy'. apply (Hlater (S (S j')) y' ky); [lia|done].
    + apply IH. intros j' y' ky Hj'. destruct j' as [|j']; [lia|].
      intros Hy'. apply (Hlater (S (S j')) y' ky); [lia|done].
  - intros Hx Hk' E Hlater. replace (i + S j) with (S i + j) by lia.
    apply (IH (S i) j _ Hx Hk' E).
    intros j' y' ky Hj' Hy'. apply (Hlater (S j') y' ky); [lia|done].
Qed.

Lemma last_index_some (k : ident) (i : nat) (ds : list dict)
    (found : option nat) :
  is_Some found → is_Some (last_index k i ds found).
Proof.
  revert i found. induction ds as [|x ds IH]; intros i found Hf; simpl.
  - done.
  - apply IH. destruct (dataset_key x); [|done].
    by destruct (ident_eqb _ _).
Qed.

Lemma last_index_exists (k : ident) (i : nat) (ds : list dict)
    (found : option nat) :
  existsb (λ x, match dataset_key x with
                | Ok k' => ident_eqb k' k
                | Raise _ => false
                end) ds = true →
  is_Some (last_index k i ds found).
Proof.
  revert i found. induction ds as [|x ds IH]; intros i found; simpl.
  - done.
  - intros [H|H]%orb_true_iff; [|by apply IH].
    apply last_index_some. destruct (dataset_key x); [|done]. by rewrite H.
Qed.

(** The index that the builder makes from a well-formed configuration. *)
Lemma dataset_to_id_spec (config : BenchmarkConfig) :
  Forall (λ x, dataset_ok x = true) (datasets config) →
  ∃ idx, dataset_to_id config = Ok idx
    ∧ ∀ k, pd_get ident_eqb k idx = last_index k 0 (datasets config) None.
Proof.
  intros Hds. unfold dataset_to_id.
  destruct (dataset_to_id_from_spec 0 (datasets config) [] Hds)
    as (idx & Hidx & _ & Hget); [constructor|].
  exists idx. split; [done|]. intros k. by rewrite Hget.
Qed.

Lemma dataset_to_id_bound (config : BenchmarkConfig)
    (idx : list (ident * nat)) (k : ident) (j : nat) :
  Forall (λ x, dataset_ok x = true) (datasets config) →
  dataset_to_id config = Ok idx →
  pd_get ident_eqb k idx = Some j → j < length (datasets config).
Proof.
  intros Hds Hidx Hj.
  destruct (dataset_to_id_spec config Hds) as (idx' & Hidx' & Hget).
  assert (idx' = idx) as -> by congruence.
  rewrite Hget in Hj.
  apply last_index_found in Hj as [?|[? _]]; [done|lia].
Qed.

Lemma NoDup_fst_unique {A B : Type} (l : list (A * B)) (x : A) (y1 y2 : B) :
  NoDup l.*1 → (x, y1) ∈ l → (x, y2) ∈ l → y1 = y2.
Proof.
  induction l as [|[a b] l IH]; [by intros _ ?%elem_of_nil|].
  rewrite fmap_cons. intros [Ha Hnd]%NoDup_cons.
  intros [[= ??]|H1]%elem_of_cons [[= ??]|H2]%elem_of_cons; subst.
  - done.
  - destruct Ha. apply list_elem_of_fmap. by exists (a, y2).
  - destruct Ha. apply list_elem_of_fmap. by exists (a, y1).
  - by apply IH.
Qed.

(** ** Sets as lists without repetition *)

Section dedupe_facts.
Context {A : Type} `{EqDecision A} (eqb : A → A → bool).
Hypothesis eqb_eq : ∀ a b, eqb a b = true ↔ a = b.

Lemma negb_eqb_True (a x : A) : negb (eqb a x) ↔ a ≠ x.
Proof.
  rewrite negb_True, Is_true_true, eqb_eq. done.
Qed.

Lemma elem_of_dedupe (l : list A) (x : A) : x ∈ dedupe eqb l ↔ x ∈ l.
Proof.
  induction l as [|a l IH]; simpl; [done|].
  rewrite !elem_of_cons, list_elem_of_filter, IH, negb_eqb_True.
  destruct (decide (x = a)) as [->|Hne]; [tauto|].
  split; [tauto|]. intros [?|?]; [done|]. right. split; [|done].
  by intros ->.
Qed.

Lemma NoDup_dedupe (l : list A) : NoDup (dedupe eqb l).
Proof.
  induction l as [|a l IH]; simpl; constructor.
  - rewrite list_elem_of_filter, negb_eqb_True. by intros [? _].
  - by apply NoDup_filter.
Qed.

Lemma dedupe_snoc (l : list A) (x : A) :
  dedupe eqb (l ++ [x]) =
    if bool_decide (x ∈ l) then dedupe eqb l else dedupe eqb l ++ [x].
Proof.
  induction l as [|a l IH]; simpl; [done|]. rewrite IH.
  destruct (decide (x = a)) as [->|Hne].
  - rewrite (bool_decide_eq_true_2 (a ∈ a :: l)) by by left.
    destruct (bool_decide (a ∈ l)); [done|].
    rewrite filter_app, filter_cons_False, filter_nil, app_nil_r; [done|].
    rewrite negb_eqb_True. by intros ?.
  - destruct (bool_decide (x ∈ l)) eqn:E.
    + apply bool_decide_eq_true in E.
      by rewrite (bool_decide_eq_true_2 (x ∈ a :: l)) by by right.
    + apply bool_decide_eq_false in E.
      rewrite (bool_decide_eq_false_2 (x ∈ a :: l))
        by (rewrite elem_of_cons; tauto).
      rewrite filter_app, filter_cons_True, filter_nil; [done|].
      rewrite negb_eqb_True. by intros ->.
Qed.
End dedupe_facts.

(** ** Grouping the raw infos by system *)

Section grouping.
Variable config : BenchmarkConfig.
Variable idx : list (ident * nat).
Hypothesis datasets_ok : Forall (λ x, dataset_ok x = true) (datasets config).
Hypothesis idx_ok : dataset_to_id config = Ok idx.

Let N := length (datasets config).

Lemma sys_ok_inv (sys : dict) :
  sys_ok config sys = true →
  ∃ n k j, sys_name_of sys = Some n
    ∧ py_getitem sys "system_name" = Ok (VStr n)
    ∧ sys_key sys = Ok k
    ∧ pd_get ident_eqb k idx = Some j ∧ j < N
    ∧ results_ok sys = true.
Proof.
  unfold sys_ok, resolves. rewrite !andb_true_iff, bool_decide_eq_true.
  intros [[[n Hn] Hres] Hok].
  destruct (sys_key sys) as [k|] eqn:Ek; [|done].
  apply andb_true_iff in Hres as [Hk Hex].
  destruct (dataset_to_id_spec config datasets_ok) as (idx' & Hidx' & Hget).
  assert (idx' = idx) as -> by congruence.
  destruct (last_index_exists k 0 (datasets config) None Hex) as [j Hj].
  exists n, k, j. split; [done|]. split.
  { unfold sys_name_of in Hn. unfold py_getitem.
    destruct (dict_lookup "system_name" sys) as [[]|]; naive_solver. }
  split; [done|]. rewrite Hget. split; [done|]. split; [|done].
  apply (dataset_to_id_bound config idx k j); [done..|]. by rewrite Hget.
Qed.

(** One round of the grouping loop, as a function of the dictionary. *)
Lemma group_system_spec (sdr : list (value * list (option dict)))
    (sys : dict) (n : string) (k : ident) (j : nat) :
  Forall (λ v, is_name v = true) sdr.*1 →
  Forall (λ e, length e.2 = N) sdr →
  py_getitem sys "system_name" = Ok (VStr n) →
  sys_key sys = Ok k → pd_get ident_eqb k idx = Some j → j < N →
  group_system config idx sdr sys =
    Ok (pd_set value_eqb (VStr n)
          (<[j := Some sys]>
             (default (replicate N None) (pd_get value_eqb (VStr n) sdr)))
          sdr).
Proof.
  intros Hnames Hlen Hn Hk Hj HjN. unfold group_system.
  rewrite Hn. simpl. rewrite Hk. simpl. rewrite Hj.
  unfold pd_mem. destruct (pd_get value_eqb (VStr n) sdr) as [sl|] eqn:E.
  - simpl. rewrite E. simpl. rewrite bool_decide_eq_true_2; [done|].
    apply (pd_get_Some value_eqb _ value_eqb_name) in E; [|done].
    rewrite Forall_forall in Hlen. specialize (Hlen _ E). simpl in Hlen.
    lia.
  - simpl.
    rewrite (pd_get_set value_eqb _ value_eqb_name); [|done..].
    assert (value_eqb (VStr n) (VStr n) = true) as Hrefl
      by apply String.eqb_refl.
    rewrite Hrefl, length_replicate.
    rewrite bool_decide_eq_true_2; [|done]. f_equal. fold N.
    clear -E Hrefl. induction sdr as [|[k0 v0] d IH]; simpl in *.
    + by rewrite Hrefl.
    + destruct (value_eqb k0 (VStr n)) eqn:E0; [done|]. simpl.
      by rewrite E0, IH.
Qed.

Lemma grouped_keys (pre : list dict)
    (sdr : list (value * list (option dict))) :
  grouped config idx pre sdr →
  ∃ ks, sdr.*1 = VStr <$> ks ∧ NoDup ks
        ∧ ∀ s, s ∈ ks ↔ s ∈ omap sys_name_of pre.
Proof.
  intros [Hks _]. eexists. split; [done|]. split.
  - apply (NoDup_dedupe String.eqb String.eqb_eq).
  - intros s. apply (elem_of_dedupe String.eqb String.eqb_eq).
Qed.

Lemma grouped_names (pre : list dict)
    (sdr : list (value * list (option dict))) :
  grouped config idx pre sdr → Forall (λ v, is_name v = true) sdr.*1.
Proof.
  intros [-> _]. apply Forall_fmap, Forall_forall. done.
Qed.

Lemma grouped_lengths (pre : list dict)
    (sdr : list (value * list (option dict))) :
  grouped config idx pre sdr → Forall (λ e, length e.2 = N) sdr.
Proof.
  intros Hg. pose proof (grouped_names _ _ Hg) as Hnames.
  destruct (grouped_keys _ _ Hg) as (ks & Hks & Hnd & _).
  destruct Hg as [_ Hslots].
  apply Forall_forall. intros [v sl] Hin.
  assert (v ∈ sdr.*1) as Hv by (apply list_elem_of_fmap; by exists (v, sl)).
  rewrite Hks in Hv. apply list_elem_of_fmap in Hv as (s & -> & Hs).
  destruct (pd_get value_eqb (VStr s) sdr) as [sl'|] eqn:E.
  - destruct (Hslots _ _ E) as [Hl _].
    assert (sl' = sl) as ->; [|done].
    apply (pd_get_Some value_eqb _ value_eqb_name) in E; [|done].
    assert (NoDup sdr.*1) as Hnd'.
    { rewrite Hks. apply (NoDup_fmap_2 _). done. }
    by eapply NoDup_fst_unique.
  - apply (pd_get_None value_eqb _ value_eqb_name) in E; [|done].
    destruct E. apply list_elem_of_fmap. by exists (VStr s, sl).
Qed.

Lemma last_submission_app (n : string) (j : nat) (l k : list dict)
    (found : option dict) :
  last_submission idx n j (l ++ k) found =
    last_submission idx n j k (last_submission idx n j l found).
Proof.
  revert found. induction l as [|x l IH]; intros found; simpl; [done|].
  apply IH.
Qed.

Lemma last_submission_None (n : string) (j : nat) (l : list dict) :
  n ∉ omap sys_name_of l → last_submission idx n j l None = None.
Proof.
  induction l as [|x l IH]; simpl; [done|]. intros Hn.
  unfold submits_to at 1. destruct (sys_name_of x) as [s|] eqn:E.
  - apply not_elem_of_cons in Hn as [Hs Hn].
    rewrite bool_decide_eq_false_2; [by apply IH|congruence].
  - rewrite bool_decide_eq_false_2; [by apply IH|congruence].
Qed.

Lemma last_submission_in (n : string) (j : nat) (l : list dict)
    (found : option dict) (sys : dict) :
  last_submission idx n j l found = Some sys →
  found = Some sys ∨ (sys ∈ l ∧ submits_to idx n j sys = true).
Proof.
  revert found. induction l as [|x l IH]; intros found; simpl; [by left|].
  intros [H|[H1 H2]]%IH.
  - destruct (submits_to idx n j x) eqn:E; [|by left].
    injection H as <-. right. split; [by left|done].
  - right. split; [by right|done].
Qed.

Lemma grouped_nil : grouped config idx [] [].
Proof. done. Qed.

Lemma grouped_step (pre : list dict)
    (sdr : list (value * list (option dict))) (sys : dict) :
  grouped config idx pre sdr → sys_ok config sys = true →
  ∃ sdr', group_system config idx sdr sys = Ok sdr'
    ∧ grouped config idx (pre ++ [sys]) sdr'.
Proof.
  intros Hg Hsys.
  pose proof (grouped_names _ _ Hg) as Hnames.
  pose proof (grouped_lengths _ _ Hg) as Hlen.
  destruct (sys_ok_inv sys Hsys) as (n & k & j & Hn & Hgn & Hk & Hj & HjN & _).
  eexists. split; [by apply (group_system_spec sdr sys n k j)|].
  destruct (grouped_keys _ _ Hg) as (ks & Hks & Hnd & Hmem).
  destruct Hg as [Hded Hslots].
  assert (omap sys_name_of (pre ++ [sys]) = omap sys_name_of pre ++ [n])
    as Hpre by (rewrite omap_app; simpl; by rewrite Hn).
  split.
  - rewrite pd_set_keys, Hpre, (dedupe_snoc String.eqb String.eqb_eq).
    unfold pd_mem.
    destruct (pd_get value_eqb (VStr n) sdr) as [sl|] eqn:E.
    + rewrite bool_decide_eq_true_2; [done|].
      apply (pd_get_Some value_eqb _ value_eqb_name) in E; [|done].
      assert (VStr n ∈ sdr.*1) as Hv
        by (apply list_elem_of_fmap; by exists (VStr n, sl)).
      rewrite Hks in Hv. apply list_elem_of_fmap in Hv as (s & [= ->] & Hs).
      by apply Hmem.
    + apply (pd_get_None value_eqb _ value_eqb_name) in E; [|done].
      rewrite bool_decide_eq_false_2; [by rewrite Hded, fmap_app|].
      intros Hin%Hmem. apply E. rewrite Hks. apply list_elem_of_fmap. eauto.
  - intros n' slots.
    rewrite (pd_get_set value_eqb _ value_eqb_name); [|done..].
    simpl. destruct (String.eqb n n') eqn:En.
    + apply String.eqb_eq in En as <-. intros [= <-].
      assert (length (default (replicate N None)
                        (pd_get value_eqb (VStr n) sdr)) = N) as Hl0.
      { destruct (pd_get value_eqb (VStr n) sdr) as [sl|] eqn:E; simpl.
        - by destruct (Hslots _ _ E).
        - apply length_replicate. }
      split; [by rewrite length_insert|]. intros j' Hj'.
      rewrite last_submission_app. simpl. unfold submits_to.
      rewrite Hn, Hk, Hj, bool_decide_eq_true_2; [simpl|done].
      destruct (decide (j = j')) as [<-|Hne].
      * rewrite bool_decide_eq_true_2; [|done].
        apply list_lookup_insert_eq. by rewrite Hl0.
      * rewrite bool_decide_eq_false_2; [|congruence].
        rewrite list_lookup_insert_ne; [|done].
        destruct (pd_get value_eqb (VStr n) sdr) as [sl|] eqn:E; simpl.
        -- destruct (Hslots _ _ E) as [_ Hs]. by apply Hs.
        -- rewrite lookup_replicate_2; [|done].
           rewrite last_submission_None; [done|].
           apply (pd_get_None value_eqb _ value_eqb_name) in E; [|done].
           rewrite <- Hmem. intros Hin. apply E. rewrite Hks.
           apply list_elem_of_fmap. eauto.
    + intros E. destruct (Hslots _ _ E) as [Hl Hs]. split; [done|].
      intros j' Hj'. rewrite last_submission_app. simpl.
      unfold submits_to. rewrite Hn.
      rewrite bool_decide_eq_false_2; [by apply Hs|].
      intros [= ->]. by rewrite String.eqb_refl in En.
Qed.

Lemma system_dataset_results_ok (systems : list dict) :
  Forall (λ sys, sys_ok config sys = true) systems →
  ∃ sdr, system_dataset_results config idx systems = Ok sdr
    ∧ grouped config idx systems sdr.
Proof.
  intros Hsys. unfold system_dataset_results.
  apply (foldM_total _ (grouped config idx) systems [] []);
    [|apply grouped_nil].
  intros pre sys sdr Hin Hg. apply grouped_step; [done|].
  rewrite Forall_forall in Hsys. by apply Hsys.
Qed.

Lemma grouped_count (systems : list dict)
    (sdr : list (value * list (option dict))) :
  grouped config idx systems sdr →
  length sdr = length (distinct_system_names systems).
Proof.
  intros (ks & Hks & Hnd & Hmem)%grouped_keys.
  rewrite <- (length_fmap fst sdr), Hks, length_fmap.
  apply Permutation_length, NoDup_Permutation.
  - done.
  - apply NoDup_remove_dups.
  - intros s. unfold distinct_system_names.
    by rewrite elem_of_remove_dups.
Qed.
End grouping.

(** ** The emission loops and the rows they append *)

Lemma append_row_keys (cd : dict) (df : list (string * list value)) :
  (append_row cd df).*1 = df.*1.
Proof.
  unfold append_row. induction df as [|c df IH]; [done|].
  rewrite map_cons, !fmap_cons. by f_equal.
Qed.

Lemma append_rows_keys (cds : list dict) (df : list (string * list value)) :
  (append_rows cds df).*1 = df.*1.
Proof.
  unfold append_rows. revert df.
  induction cds as [|cd cds IH]; intros df; simpl; [done|].
  by rewrite IH, append_row_keys.
Qed.

Lemma append_row_len (cd : dict) (df : list (string * list value)) (n : nat) :
  cols_len n df → cols_len (S n) (append_row cd df).
Proof.
  unfold cols_len, append_row. intros H. apply Forall_map.
  eapply Forall_impl; [exact H|]. intros c Hc. simpl in *.
  rewrite length_app. simpl. lia.
Qed.

Lemma append_rows_len (cds : list dict) (df : list (string * list value))
    (n : nat) :
  cols_len n df → cols_len (n + length cds) (append_rows cds df).
Proof.
  unfold append_rows. revert df n.
  induction cds as [|cd cds IH]; intros df n H; simpl.
  - by rewrite Nat.add_0_r.
  - replace (n + S (length cds)) with (S n + length cds) by lia.
    by apply IH, append_row_len.
Qed.

Lemma append_rows_app (cds cds' : list dict)
    (df : list (string * list value)) :
  append_rows (cds ++ cds') df = append_rows cds' (append_rows cds df).
Proof. unfold append_rows. by rewrite fold_left_app. Qed.

(** A loop that appends the rows of each round is the list of all the
    rows, appended. *)
Lemma foldM_concatM {A : Type}
    (f : list (string * list value) → A → result (list (string * list value)))
    (g : A → result (list dict)) (l : list A)
    (df : list (string * list value)) :
  (∀ a df, f df a = g a ≫= λ x, Ok (append_rows x df)) →
  foldM f df l = concatM g l ≫= λ x, Ok (append_rows x df).
Proof.
  intros Hf. revert df. induction l as [|a l IH]; intros df; simpl; [done|].
  rewrite Hf. destruct (g a) as [x|e]; simpl; [|done].
  rewrite IH. destruct (concatM g l) as [r|e]; simpl; [|done].
  by rewrite append_rows_app.
Qed.

Lemma emit_metric_dicts (n : nat) (sys_info : option dict) (ms : list value)
    (cd : dict) (df : list (string * list value)) :
  snd <$> foldM (emit_metric n sys_info) (cd, df) ms =
    metric_dicts n sys_info cd ms ≫= λ x, Ok (append_rows x df).
Proof.
  revert cd df. induction ms as [|m ms IH]; intros cd df; [done|].
  cbn [foldM metric_dicts].
  change (emit_metric n sys_info (cd, df) m) with
    (update_column_dict n sys_info cd m
       ≫= λ column_dict, Ok (column_dict, append_row column_dict df)).
  destruct (update_column_dict n sys_info cd m) as [cd'|e]; simpl; [|done].
  rewrite IH.
  by destruct (metric_dicts n sys_info cd' ms) as [r|e].
Qed.

Lemma emit_dataset_dicts (config : BenchmarkConfig) (sys_name : value)
    (slot : dict * option dict) (df : list (string * list value)) :
  emit_dataset config sys_name df slot =
    dataset_dicts config sys_name slot ≫= λ x, Ok (append_rows x df).
Proof.
  destruct slot as [dataset sys_info].
  unfold emit_dataset, dataset_dicts, effective_metrics. simpl.
  destruct (is_None (py_get dataset "metrics" (metrics config))).
  - destruct (py_getitem dataset "dataset_name"); simpl; [|done].
    destruct (py_getitem dataset "sub_dataset_name"); simpl; [|done].
    by destruct (py_getitem dataset "dataset_split").
  - destruct (py_iter (py_get dataset "metrics" (metrics config)))
      as [ms|e]; simpl; [|done].
    rewrite <- emit_metric_dicts.
    by destruct (foldM _ _ ms).
Qed.

Lemma emit_system_dicts (config : BenchmarkConfig)
    (entry : value * list (option dict)) (df : list (string * list value)) :
  emit_system config df entry =
    system_dicts config entry ≫= λ x, Ok (append_rows x df).
Proof.
  destruct entry as [sys_name sys_infos]. unfold emit_system, system_dicts.
  apply foldM_concatM. intros slot df'. apply emit_dataset_dicts.
Qed.

(** The builder, with its loops read as the list of the rows. *)
Lemma generate_dataframe_dicts (config : BenchmarkConfig)
    (systems : list dict) :
  generate_dataframe_from_sys_infos config systems =
    dataset_to_id config ≫= λ idx,
    system_dataset_results config idx systems ≫= λ sdr,
    all_dicts config sdr ≫= λ cds,
    pd_DataFrame (append_rows cds (df_input_init config)).
Proof.
  unfold generate_dataframe_from_sys_infos.
  destruct (dataset_to_id config) as [idx|e]; simpl; [|done].
  destruct (system_dataset_results config idx systems) as [sdr|e];
    simpl; [|done].
  rewrite (foldM_concatM _ (system_dicts config)).
  - unfold all_dicts. by destruct (concatM _ sdr).
  - intros entry df. apply emit_system_dicts.
Qed.

Lemma concatM_length {A B : Type} (g : A → result (list B)) (l : list A)
    (c : nat) :
  (∀ a, a ∈ l → ∃ x, g a = Ok x ∧ length x = c) →
  ∃ r, concatM g l = Ok r ∧ length r = length l * c.
Proof.
  induction l as [|a l IH]; intros Hg; simpl.
  - by exists [].
  - destruct (Hg a) as (x & -> & Hx); [by left|].
    destruct IH as (r & -> & Hr); [intros a' Ha'; apply Hg; by right|].
    exists (x ++ r). split; [done|]. rewrite length_app. lia.
Qed.

Lemma concatM_elem {A B : Type} (g : A → result (list B)) (l : list A)
    (r : list B) (x : B) :
  concatM g l = Ok r → x ∈ r →
  ∃ i a xa, l !! i = Some a ∧ g a = Ok xa ∧ x ∈ xa.
Proof.
  revert r. induction l as [|a l IH]; intros r; simpl.
  - intros [= <-] H. by apply elem_of_nil in H.
  - intros (xa & Ha & (rest & Hrest & [= <-])%bind_Ok)%bind_Ok.
    intros [Hx|Hx]%elem_of_app.
    + by exists 0, a, xa.
    + destruct (IH rest Hrest Hx) as (i & a' & xa' & ? & ? & ?).
      by exists (S i), a', xa'.
Qed.

Lemma metric_dicts_length (n : nat) (sys_info : option dict) (cd : dict)
    (ms : list value) (r : list dict) :
  metric_dicts n sys_info cd ms = Ok r → length r = length ms.
Proof.
  revert cd r. induction ms as [|m ms IH]; intros cd r; simpl.
  - by intros [= <-].
  - intros (cd' & _ & (rest & Hrest & [= <-])%bind_Ok)%bind_Ok.
    simpl. f_equal. by eapply IH.
Qed.

(** Every row of a dataset comes from one metric of its list, applied
    to a state of [column_dict] that the earlier metrics left. *)
Lemma metric_dicts_elem (P : dict → Prop) (n : nat) (sys_info : option dict)
    (cd : dict) (ms : list value) (r : list dict) (x : dict) :
  (∀ c m c', P c → update_column_dict n sys_info c m = Ok c' → P c') →
  P cd → metric_dicts n sys_info cd ms = Ok r → x ∈ r →
  ∃ t m cd0, ms !! t = Some m ∧ P cd0
    ∧ update_column_dict n sys_info cd0 m = Ok x.
Proof.
  intros HP. revert cd r. induction ms as [|m ms IH]; intros cd r Hcd; simpl.
  - intros [= <-] H. by apply elem_of_nil in H.
  - intros (cd' & Hcd' & (rest & Hrest & [= <-])%bind_Ok)%bind_Ok.
    intros [->|Hx]%elem_of_cons.
    + by exists 0, m, cd.
    + destruct (IH cd' rest) as (t & m' & cd0 & ? & ? & ?); [by eapply HP|done..|].
      by exists (S t), m', cd0.
Qed.

(** The metric loop returns on well-formed metrics and results. *)
Lemma metric_score_ok (sys_info : option dict) (m : value) :
  metric_ok m = true →
  (∀ si, sys_info = Some si → results_ok si = true) →
  ∃ v, metric_score sys_info m = Ok v.
Proof.
  destruct m as [| | | |d]; try done. unfold metric_ok.
  destruct (dict_lookup "name" d) as [nm|] eqn:Enm; [|done].
  intros Hh Hres. unfold metric_score.
  destruct sys_info as [si|]; [|by eexists].
  specialize (Hres si eq_refl). unfold results_ok in Hres.
  unfold subscript, py_getitem. rewrite Enm.
  destruct (dict_lookup "results" si) as [[| | | |results]|]; try done.
  simpl.
  destruct (dict_lookup "overall" results) as [[| | | |overall]|]; try done.
  simpl. rewrite Hh.
  assert (∀ s, performance_ok (py_get overall s VNone) = true) as Hperf.
  { intros s. unfold py_get, dict_lookup.
    induction overall as [|[k p] o IH]; simpl; [done|].
    simpl in Hres. apply andb_true_iff in Hres as [Hp Ho].
    destruct (String.eqb k s); [done|by apply IH]. }
  assert (∀ p, performance_ok p = true →
            ∃ v, (if truthy p
                  then match p with
                       | VDict d0 =>
                           match dict_lookup "value" d0 with
                           | Some v0 => Ok v0
                           | None => Raise KeyError
                           end
                       | _ => Raise TypeError
                       end
                  else attr_get (VDict d) "default" (VNum 0)) = Ok v) as Hp.
  { intros p. unfold performance_ok.
    destruct (truthy p); simpl; [|by eexists].
    destruct p as [| | | |pd]; try done.
    intros [v Hv]%bool_decide_eq_true. exists v. by rewrite Hv. }
  destruct nm; simpl; try done; try (by eexists). by apply Hp.
Qed.

Lemma update_column_dict_ok (n : nat) (sys_info : option dict) (cd : dict)
    (m : value) :
  metric_ok m = true →
  (∀ si, sys_info = Some si → results_ok si = true) →
  ∃ cd', update_column_dict n sys_info cd m = Ok cd'.
Proof.
  intros Hm Hres. destruct (metric_score_ok sys_info m Hm Hres) as [v Hv].
  unfold update_column_dict. rewrite Hv.
  destruct m as [| | | |d]; try done. unfold metric_ok in Hm. simpl.
  unfold py_getitem. destruct (dict_lookup "name" d); [|done]. simpl.
  by eexists.
Qed.

Lemma metric_dicts_ok (n : nat) (sys_info : option dict) (cd : dict)
    (ms : list value) :
  forallb metric_ok ms = true →
  (∀ si, sys_info = Some si → results_ok si = true) →
  ∃ r, metric_dicts n sys_info cd ms = Ok r ∧ length r = length ms.
Proof.
  intros Hms Hres. revert cd.
  induction ms as [|m ms IH]; intros cd; simpl; [by exists []|].
  simpl in Hms. apply andb_true_iff in Hms as [Hm Hms].
  destruct (update_column_dict_ok n sys_info cd m Hm Hres) as [cd' ->].
  simpl. destruct (IH Hms cd') as (r & -> & Hr). simpl.
  exists (cd' :: r). by rewrite <- Hr.
Qed.

Lemma dataset_dicts_ok (config : BenchmarkConfig) (M : nat) (sys_name : value)
    (slot : dict * option dict) :
  metrics_ok config M slot.1 = true →
  (∀ si, slot.2 = Some si → results_ok si = true) →
  ∃ r, dataset_dicts config sys_name slot = Ok r ∧ length r = M.
Proof.
  unfold metrics_ok, dataset_dicts.
  destruct (effective_metrics config slot.1) as [| | |ms|]; try done.
  intros [HM Hms]%andb_true_iff Hres. apply bool_decide_eq_true in HM.
  simpl. destruct (metric_dicts_ok (length ms) slot.2
    (dict_store "system_name" sys_name slot.1) ms Hms Hres) as (r & -> & Hr).
  exists r. split; [done|lia].
Qed.

(** ** The arrays of [df_input] *)

Lemma pd_set_elem_of {V : Type} (k k' : string) (v : V)
    (d : list (string * V)) :
  k' ∈ (pd_set String.eqb k v d).*1 ↔ k' = k ∨ k' ∈ d.*1.
Proof.
  rewrite pd_set_keys. unfold pd_mem.
  destruct (pd_get String.eqb k d) as [v0|] eqn:E.
  - split; [by right|]. intros [->|?]; [|done].
    apply (pd_get_Some String.eqb (λ _, True)) in E.
    + apply list_elem_of_fmap. by exists (k, v0).
    + intros a b _. apply String.eqb_eq.
    + by apply Forall_forall.
  - rewrite elem_of_app, list_elem_of_singleton. tauto.
Qed.

Lemma pd_set_cols_len (n : nat) (k : string) (arr : list value)
    (df : list (string * list value)) :
  cols_len n df → length arr = n → cols_len n (pd_set String.eqb k arr df).
Proof. intros Hdf Harr. by apply pd_set_Forall. Qed.

Lemma df_input_init_len (config : BenchmarkConfig) :
  cols_len 0 (df_input_init config).
Proof.
  unfold df_input_init. do 3 (apply pd_set_cols_len; [|done]).
  assert (cols_len 0 [("system_name", []); ("dataset_name", []);
                      ("sub_dataset_name", []); ("dataset_split", [])]) as H
    by by repeat constructor.
  revert H. generalize [("system_name", @nil value); ("dataset_name", []);
                        ("sub_dataset_name", []); ("dataset_split", [])].
  induction (datasets config) as [|x ds IH]; intros df Hdf; simpl; [done|].
  apply IH. clear IH. revert df Hdf.
  induction (map fst x) as [|k ks IH]; intros df Hdf; simpl; [done|].
  apply IH. unfold add_dataset_key.
  destruct (negb _); [|done]. by apply pd_set_cols_len.
Qed.

Lemma df_input_init_keys (config : BenchmarkConfig) (k : string) :
  k ∈ ["system_name"; "metric"; "metric_weight"; "score"] →
  k ∈ (df_input_init config).*1.
Proof.
  unfold df_input_init. rewrite !pd_set_elem_of.
  intros [->|[->|[->|[->|[]%elem_of_nil]%elem_of_cons]%elem_of_cons
    ]%elem_of_cons]%elem_of_cons; [|tauto..].
  right. right. right.
  assert ("system_name" ∈ [("system_name", @nil value); ("dataset_name", []);
            ("sub_dataset_name", []); ("dataset_split", [])].*1) as H
    by by left.
  revert H. generalize [("system_name", @nil value); ("dataset_name", []);
                        ("sub_dataset_name", []); ("dataset_split", [])].
  induction (datasets config) as [|x ds IH]; intros df Hdf; simpl; [done|].
  apply IH. clear IH. revert df Hdf.
  induction (map fst x) as [|k ks IH]; intros df Hdf; simpl; [done|].
  apply IH. unfold add_dataset_key.
  destruct (negb _); [|done]. apply pd_set_elem_of. by right.
Qed.

(** The inferred type of a column changes neither its label nor its
    length, and no cell other than [None]. *)
Lemma pd_columns_keys (df : list (string * list value)) :
  (pd_columns df).*1 = df.*1.
Proof.
  unfold pd_columns. induction df as [|c df IH]; [done|].
  rewrite map_cons, !fmap_cons. by f_equal.
Qed.

Lemma pd_column_length (arr : list value) :
  length (pd_column arr) = length arr.
Proof.
  unfold pd_column. destruct (float_column arr); [|done].
  by rewrite length_map.
Qed.

Lemma pd_columns_len (df : list (string * list value)) (n : nat) :
  cols_len n df → cols_len n (pd_columns df).
Proof.
  unfold cols_len, pd_columns. intros H. apply Forall_map.
  eapply Forall_impl; [exact H|]. intros c Hc. simpl.
  by rewrite pd_column_length.
Qed.

Lemma pd_column_id (arr : list value) :
  Forall (λ v, v ≠ VNone) arr → pd_column arr = arr.
Proof.
  intros H. unfold pd_column. destruct (float_column arr); [|done].
  induction H as [|v arr Hv _ IH]; simpl; [done|]. rewrite IH.
  by destruct v.
Qed.

Lemma float_column_no_number (arr : list value) :
  Forall (λ v, match v with VNum _ => False | _ => True end) arr →
  float_column arr = false.
Proof.
  intros H. unfold float_column. apply andb_false_iff. right.
  induction H as [|v arr Hv _ IH]; simpl; [done|]. rewrite IH.
  by destruct v.
Qed.

(** [pd.DataFrame] accepts arrays of one length. *)
Lemma pd_DataFrame_ok (df : list (string * list value)) (n : nat) :
  df ≠ [] → cols_len n df →
  pd_DataFrame df
  = Ok {| df_index := RangeIndex n; df_columns := pd_columns df |}.
Proof.
  destruct df as [|[k arr] df]; [done|]. intros _ Hlen. unfold pd_DataFrame.
  pose proof Hlen as [Harr _]%Forall_cons. simpl in Harr. subst n.
  rewrite (proj2 (forallb_forall _ _)); [done|].
  intros c Hc. apply bool_decide_eq_true.
  unfold cols_len in Hlen. rewrite Forall_forall in Hlen.
  apply Hlen. by apply list_elem_of_In.
Qed.

Lemma append_rows_cols (cds : list dict) (df : list (string * list value)) :
  append_rows cds df =
    map (λ c, (c.1, c.2 ++ map (λ cd, py_get cd c.1 VNone) cds)) df.
Proof.
  unfold append_rows. revert df.
  induction cds as [|cd cds IH]; intros df; simpl.
  - induction df as [|[k arr] df IHdf]; simpl; [done|].
    by rewrite app_nil_r, <- IHdf.
  - rewrite IH. unfold append_row. rewrite map_map. apply map_ext.
    intros [k arr]. simpl. by rewrite <- app_assoc.
Qed.

Lemma map_seq_lookup {A B : Type} (g : nat → B) (h : A → B) (l : list A) :
  (∀ i x, l !! i = Some x → g i = h x) →
  map g (seq 0 (length l)) = map h l.
Proof.
  revert g. induction l as [|a l IH]; intros g Hg; simpl; [done|].
  rewrite (Hg 0 a eq_refl). f_equal.
  rewrite <- seq_shift, map_map. apply IH.
  intros i x Hx. by apply (Hg (S i)).
Qed.

(** The rows of the frame that is built from arrays filled by
    [append_rows]. *)
Lemma iterrows_append_rows (cds : list dict)
    (df : list (string * list value)) :
  cols_len 0 df →
  iterrows {| df_index := RangeIndex (length cds);
              df_columns := pd_columns (append_rows cds df) |} =
    map (stored_row df.*1 cds) cds.
Proof.
  intros Hlen. unfold iterrows, nrows. simpl.
  apply map_seq_lookup. intros i cd Hcd.
  unfold df_row, stored_row, pd_columns. simpl.
  rewrite append_rows_cols, !map_map.
  unfold cols_len in Hlen. induction Hlen as [|[k arr] df Harr Hdf IH].
  - done.
  - rewrite fmap_cons, !map_cons. simpl in *. f_equal; [|apply IH].
    f_equal. destruct arr; [|done]. simpl.
    unfold stored_cell, pd_column.
    destruct (float_column _); apply nth_lookup_Some.
    + by rewrite map_eq_fmap, !list_lookup_fmap, Hcd.
    + by rewrite list_lookup_fmap, Hcd.
Qed.

Lemma dict_lookup_stored_row (keys : list string) (cds : list dict)
    (cd : dict) (k : string) :
  k ∈ keys →
  dict_lookup k (stored_row keys cds cd)
  = Some (stored_cell cds k (py_get cd k VNone)).
Proof.
  unfold dict_lookup, stored_row. induction keys as [|k0 keys IH]; simpl.
  - by intros ?%elem_of_nil.
  - destruct (String.eqb k0 k) eqn:E.
    + by apply String.eqb_eq in E as ->.
    + intros [->|H]%elem_of_cons; [|by apply IH].
      by rewrite String.eqb_refl in E.
Qed.

(** A cell other than [None] is stored as it is. *)
Lemma stored_cell_value (cds : list dict) (k : string) (v : value) :
  v ≠ VNone → stored_cell cds k v = v.
Proof.
  intros Hv. unfold stored_cell. destruct (float_column _); [|done].
  by destruct v.
Qed.

Lemma stored_cell_none (cds : list dict) (k : string) :
  stored_cell cds k VNone = VNone ∨ stored_cell cds k VNone = VNum nan.
Proof. unfold stored_cell. destruct (float_column _); [by right|by left]. Qed.

(** So is every cell of a column that holds no number. *)
Lemma stored_cell_object (cds : list dict) (k : string) (v : value) :
  Forall (λ cd, match py_get cd k VNone with
                | VNum _ => False
                | _ => True
                end) cds →
  stored_cell cds k v = v.
Proof.
  intros H. unfold stored_cell.
  rewrite float_column_no_number; [done|]. by apply Forall_map.
Qed.

(** ** The table builder *)

Lemma generate_of_dicts (config : BenchmarkConfig) (systems : list dict)
    (idx : list (ident * nat)) (sdr : list (value * list (option dict)))
    (cds : list dict) :
  dataset_to_id config = Ok idx →
  system_dataset_results config idx systems = Ok sdr →
  all_dicts config sdr = Ok cds →
  generate_dataframe_from_sys_infos config systems =
    Ok {| df_index := RangeIndex (length cds);
          df_columns :=
            pd_columns (append_rows cds (df_input_init config)) |}.
Proof.
  intros Hidx Hsdr Hcds. rewrite generate_dataframe_dicts, Hidx. simpl.
  rewrite Hsdr. simpl. rewrite Hcds. simpl. apply pd_DataFrame_ok.
  - intros Hnil.
    pose proof (df_input_init_keys config "score") as Hk.
    rewrite <- (append_rows_keys cds), Hnil in Hk.
    apply elem_of_nil in Hk; [done|]. repeat constructor.
  - apply (append_rows_len cds _ 0), df_input_init_len.
Qed.

Lemma generate_inv (config : BenchmarkConfig) (systems : list dict)
    (df : DataFrame) :
  generate_dataframe_from_sys_infos config systems = Ok df →
  ∃ idx sdr cds,
    dataset_to_id config = Ok idx
    ∧ system_dataset_results config idx systems = Ok sdr
    ∧ all_dicts config sdr = Ok cds
    ∧ df = {| df_index := RangeIndex (length cds);
              df_columns :=
                pd_columns (append_rows cds (df_input_init config)) |}.
Proof.
  intros Hdf. pose proof Hdf as Hdf'. rewrite generate_dataframe_dicts in Hdf'.
  apply bind_Ok in Hdf' as (idx & Hidx & Hdf').
  apply bind_Ok in Hdf' as (sdr & Hsdr & Hdf').
  apply bind_Ok in Hdf' as (cds & Hcds & _).
  exists idx, sdr, cds. repeat split; try done.
  rewrite (generate_of_dicts config systems idx sdr cds) in Hdf; [|done..].
  by injection Hdf.
Qed.

Lemma grouped_entry (config : BenchmarkConfig) (idx : list (ident * nat))
    (pre : list dict) (sdr : list (value * list (option dict)))
    (v : value) (slots : list (option dict)) :
  grouped config idx pre sdr → (v, slots) ∈ sdr →
  ∃ s, v = VStr s ∧ pd_get value_eqb (VStr s) sdr = Some slots.
Proof.
  intros Hg Hin. pose proof (grouped_names _ _ _ _ Hg) as Hnames.
  destruct (grouped_keys _ _ _ _ Hg) as (ks & Hks & Hnd & _).
  assert (v ∈ sdr.*1) as Hv
    by (apply list_elem_of_fmap; by exists (v, slots)).
  rewrite Hks in Hv. apply list_elem_of_fmap in Hv as (s & -> & Hs).
  exists s. split; [done|].
  destruct (pd_get value_eqb (VStr s) sdr) as [sl'|] eqn:E.
  - apply (pd_get_Some value_eqb _ value_eqb_name) in E; [|done].
    f_equal. eapply NoDup_fst_unique; [|done..].
    rewrite Hks. by apply (NoDup_fmap_2 _).
  - apply (pd_get_None value_eqb _ value_eqb_name) in E; [|done].
    destruct E. apply list_elem_of_fmap. by exists (VStr s, slots).
Qed.

Lemma grouped_unique (config : BenchmarkConfig) (idx : list (ident * nat))
    (pre : list dict) (sdr : list (value * list (option dict))) :
  grouped config idx pre sdr → sdr = grouping_of config idx pre.
Proof.
  intros Hg. pose proof Hg as [Hks Hslots]. unfold grouping_of.
  apply list_eq. intros i. rewrite list_lookup_fmap.
  assert (sdr.*1 !! i = (VStr <$> dedupe String.eqb (omap sys_name_of pre)) !! i)
    as Hi by by rewrite Hks.
  rewrite !list_lookup_fmap in Hi.
  destruct (sdr !! i) as [[v sl]|] eqn:E; simpl in Hi.
  - destruct (dedupe String.eqb (omap sys_name_of pre) !! i) as [s|];
      [|done]. simpl in *. injection Hi as ->. f_equal. f_equal.
    apply list_elem_of_lookup_2 in E.
    destruct (grouped_entry _ _ _ _ _ _ Hg E) as (s' & [= <-] & Hget).
    destruct (Hslots _ _ Hget) as [Hlen Hsl].
    apply list_eq. intros j. rewrite list_lookup_fmap.
    destruct (decide (j < length (datasets config))) as [Hj|Hj].
    + rewrite (Hsl j Hj), lookup_seq_lt; [done|lia].
    + rewrite lookup_seq_ge, lookup_ge_None_2; [done|lia..].
  - by destruct (dedupe String.eqb (omap sys_name_of pre) !! i).
Qed.

(** Every filled slot holds one of the raw infos. *)
Lemma grouped_slot (config : BenchmarkConfig) (idx : list (ident * nat))
    (pre : list dict) (sdr : list (value * list (option dict)))
    (s : string) (slots : list (option dict)) (j : nat) (si : dict) :
  grouped config idx pre sdr →
  pd_get value_eqb (VStr s) sdr = Some slots →
  slots !! j = Some (Some si) →
  si ∈ pre ∧ submits_to idx s j si = true.
Proof.
  intros [_ Hslots] Hget Hj. destruct (Hslots _ _ Hget) as [Hlen Hsl].
  assert (j < length (datasets config)) as HjN.
  { rewrite <- Hlen. by eapply lookup_lt_Some. }
  rewrite (Hsl j HjN) in Hj. injection Hj as Hj.
  by apply last_submission_in in Hj as [?|?].
Qed.

(** The number of rows of the table that the builder returns on
    well-formed documents. *)
Lemma builder_row_count (config : BenchmarkConfig)
    (systems : list dict) (M : nat) :
  forallb dataset_ok (datasets config) = true →
  forallb (metrics_ok config M) (datasets config) = true →
  forallb (sys_ok config) systems = true →
  ∃ df, generate_dataframe_from_sys_infos config systems = Ok df
    ∧ nrows df = length (distinct_system_names systems)
                 * length (datasets config) * M
    ∧ cols_len (nrows df) (df_columns df).
Proof.
  intros Hds Hms Hsys.
  apply forallb_Forall in Hds, Hms, Hsys.
  destruct (dataset_to_id_spec config Hds) as (idx & Hidx & _).
  destruct (system_dataset_results_ok config idx Hds Hidx systems Hsys)
    as (sdr & Hsdr & Hg).
  assert (∃ cds, all_dicts config sdr = Ok cds
            ∧ length cds = length sdr * (length (datasets config) * M))
    as (cds & Hcds & Hlen).
  { apply concatM_length. intros [v slots] Hin.
    destruct (grouped_entry _ _ _ _ _ _ Hg Hin) as (s & -> & Hget).
    pose proof Hg as [_ Hslots]. destruct (Hslots _ _ Hget) as [Hl _].
    unfold system_dicts. simpl.
    replace (length (datasets config))
      with (length (zip (datasets config) slots))
      by (rewrite length_zip_with; lia).
    apply concatM_length. intros [dataset sys_info] Hslot.
    apply dataset_dicts_ok; simpl.
    - rewrite Forall_forall in Hms. apply Hms. by eapply elem_of_zip_l.
    - intros si ->. apply list_elem_of_lookup in Hslot as [j Hj].
      apply lookup_zip_with_Some in Hj as (d & o & [= <- <-] & _ & Hj).
      destruct (grouped_slot _ _ _ _ _ _ _ _ Hg Hget Hj) as [Hsi _].
      rewrite Forall_forall in Hsys. specialize (Hsys _ Hsi).
      unfold sys_ok in Hsys. by apply andb_true_iff in Hsys as [_ ?]. }
  eexists. split; [by apply (generate_of_dicts config systems idx sdr cds)|].
  unfold nrows. simpl. split.
  - rewrite Hlen, (grouped_count config idx systems sdr Hg). lia.
  - apply pd_columns_len, (append_rows_len cds _ 0), df_input_init_len.
Qed.

(** The index never holds two entries under one key. *)
Lemma pd_set_NoDup_names (k : ident) (i : nat) (acc : list (ident * nat)) :
  Forall (λ k, ident_name k = true) acc.*1 →
  NoDup acc.*1 → NoDup (pd_set ident_eqb k i acc).*1.
Proof.
  intros Hnames Hnd. rewrite pd_set_keys. unfold pd_mem.
  destruct (pd_get ident_eqb k acc) as [v|] eqn:E; [done|].
  apply (pd_get_None ident_eqb _ ident_eqb_name) in E; [|done].
  apply NoDup_app. split; [done|]. split.
  - intros k' Hk' ->%list_elem_of_singleton. done.
  - apply NoDup_singleton.
Qed.

Lemma dataset_to_id_from_NoDup (i : nat) (ds : list dict)
    (acc idx : list (ident * nat)) :
  Forall (λ x, dataset_ok x = true) ds →
  Forall (λ k, ident_name k = true) acc.*1 →
  NoDup acc.*1 →
  dataset_to_id_from i ds acc = Ok idx →
  Forall (λ k, ident_name k = true) idx.*1 ∧ NoDup idx.*1.
Proof.
  revert i acc. induction ds as [|x ds IH]; intros i acc Hds Hacc Hnd; simpl.
  - by intros [= <-].
  - apply Forall_cons in Hds as [Hx Hds]. unfold dataset_ok in Hx.
    destruct (dataset_key x) as [kx|] eqn:Ex; [simpl|done].
    apply IH; [done| |by apply pd_set_NoDup_names].
    rewrite pd_set_keys. destruct (pd_mem _ _ _); [done|].
    apply Forall_app. split; [done|]. by repeat constructor.
Qed.

(** C2, as the code has it. The index is built by a dict comprehension
    and nothing checks for duplicates: when two configured datasets
    (at positions [i < j]) have the same index key, building the index
    raises no error; the index keeps a single entry for that key (no
    key occurs twice in it, and every entry under the key holds the
    same position), and the key is mapped to the position of the last
    dataset that has it. *)
Theorem dataset_to_id_duplicate (config : BenchmarkConfig) (i j : nat)
    (x y : dict) (k : ident) :
  forallb dataset_ok (datasets config) = true →
  i < j →
  datasets config !! i = Some x → datasets config !! j = Some y →
  dataset_key x = Ok k → dataset_key y = Ok k →
  (∀ j' z, j < j' → datasets config !! j' = Some z → dataset_key z ≠ Ok k) →
  ∃ idx, dataset_to_id config = Ok idx
    ∧ pd_get ident_eqb k idx = Some j
    ∧ NoDup idx.*1
    ∧ ∀ j', (k, j') ∈ idx ↔ j' = j.
Proof.
  intros Hds%forallb_Forall Hij Hx Hy Hkx Hky Hlast.
  destruct (dataset_to_id_spec config Hds) as (idx & Hidx & Hget).
  exists idx. split; [done|].
  assert (ident_name k = true) as Hk.
  { rewrite Forall_forall in Hds.
    assert (dataset_ok y = true) as Hok
      by (apply Hds; by eapply list_elem_of_lookup_2).
    unfold dataset_ok in Hok. by rewrite Hky in Hok. }
  assert (pd_get ident_eqb k idx = Some j) as Hj.
  { rewrite Hget. apply (last_index_last k 0 _ None j y k Hy Hky).
    - by apply ident_eqb_name.
    - intros j' z kz Hj' Hz Hkz.
      destruct (ident_eqb kz k) eqn:E; [|done].
      rewrite Forall_forall in Hds.
      assert (dataset_ok z = true) as Hok
        by (apply Hds; by eapply list_elem_of_lookup_2).
      unfold dataset_ok in Hok. rewrite Hkz in Hok.
      apply (ident_eqb_name kz k Hok) in E as ->.
      by destruct (Hlast j' z Hj' Hz). }
  destruct (dataset_to_id_from_NoDup 0 (datasets config) [] idx Hds)
    as [Hnames Hnd]; [constructor|constructor|done|].
  split; [done|]. split; [done|].
  pose proof (pd_get_Some ident_eqb _ ident_eqb_name k j idx Hnames Hj)
    as Hin.
  intros j'. split; [|by intros ->].
  intros Hin'. by apply (NoDup_fst_unique idx k j' j Hnd).
Qed.

Lemma dataset_to_id_duplicate_witness :
  ∃ idx, dataset_to_id dup_config = Ok idx
    ∧ pd_get ident_eqb (VStr "SST2", VNone, VStr "test") idx = Some 1
    ∧ NoDup idx.*1
    ∧ ∀ j', ((VStr "SST2", VNone, VStr "test"), j') ∈ idx ↔ j' = 1.
Proof.
  apply (dataset_to_id_duplicate dup_config 0 1
           [("dataset_name", VStr "SST2"); ("sub_dataset_name", VNone);
            ("dataset_split", VStr "test")]
           [("dataset_name", VStr "SST2"); ("sub_dataset_name", VNone);
            ("dataset_split", VStr "test")]);
    try reflexivity; [lia|].
  intros [|[|j']] z Hj' Hz; [lia|lia|done].
Defined.

(** C2 as stated fails: [dup_config] lists the dataset
    [("SST2", None, "test")] twice, and the builder returns a table
    instead of raising. *)
Lemma duplicate_identity_accepted :
  datasets dup_config !! 0 = datasets dup_config !! 1
  ∧ dataset_to_id dup_config = Ok [((VStr "SST2", VNone, VStr "test"), 1)]
  ∧ ∃ df, generate_dataframe_from_sys_infos dup_config [sst2_system_full]
          = Ok df.
Proof. split; [done|]. split; [done|]. by eexists. Qed.

(** C3 on the code. The index key of a dataset is read from its
    ["sub_dataset"] and ["split"] entries, the key of a raw info from
    ["sub_dataset_name"] and ["dataset_split"]. A raw info whose
    identity fields equal those of the configured validation split is
    rejected with a [KeyError], and a raw info for the test split, which
    is not configured, is accepted and placed in the slot of the
    validation split. *)
Lemma identity_resolution_mismatch :
  generate_dataframe_from_sys_infos validation_config
    [info "A" "SST2" "validation" 0.9] = Raise KeyError
  ∧ ∃ idx sdr,
      dataset_to_id validation_config = Ok idx
      ∧ system_dataset_results validation_config idx
          [info "A" "SST2" "test" 0.9] = Ok sdr
      ∧ pd_get value_eqb (VStr "A") sdr
        = Some [Some (info "A" "SST2" "test" 0.9)].
Proof. split; [done|]. by do 2 eexists. Qed.

(** ** Weights and scores of the emitted rows *)

Lemma dict_lookup_store (k k' : string) (v : value) (d : dict) :
  dict_lookup k (dict_store k' v d) =
    if String.eqb k' k then Some v else dict_lookup k d.
Proof.
  unfold dict_lookup, dict_store.
  apply (pd_get_set String.eqb (λ _, True)); [|by apply Forall_forall|done].
  intros a b _. apply String.eqb_eq.
Qed.

Lemma dict_lookup_row_of (keys : list string) (cd : dict) (k : string) :
  k ∈ keys → dict_lookup k (row_of keys cd) = Some (py_get cd k VNone).
Proof.
  unfold dict_lookup, row_of. induction keys as [|k0 keys IH]; simpl.
  - by intros ?%elem_of_nil.
  - destruct (String.eqb k0 k) eqn:E.
    + by apply String.eqb_eq in E as ->.
    + intros [->|H]%elem_of_cons; [|by apply IH].
      by rewrite String.eqb_refl in E.
Qed.

Lemma length_chars (s : string) : length (chars s) = String.length s.
Proof. induction s as [|c s IH]; simpl; [done|]. by rewrite IH. Qed.

Lemma py_iter_len (v : value) (l : list value) :
  py_iter v = Ok l → py_len v = length l.
Proof.
  destruct v; simpl; try done; intros [= <-]; [|done|].
  - by rewrite length_chars.
  - by rewrite length_map.
Qed.

(** The score clauses, read off [metric_score]. *)
Lemma metric_score_no_submission (d : dict) :
  metric_score None (VDict d) = Ok (py_get d "default" (VNum 0)).
Proof. done. Qed.

Lemma metric_score_absent (si overall d : dict) (s : string) :
  overall_of si = Some overall →
  dict_lookup "name" d = Some (VStr s) →
  dict_lookup s overall = None →
  metric_score (Some si) (VDict d) = Ok (py_get d "default" (VNum 0)).
Proof.
  unfold overall_of, metric_score, subscript, py_getitem.
  destruct (dict_lookup "results" si) as [[| | | |results]|]; try done.
  simpl.
  destruct (dict_lookup "overall" results) as [[| | | |o]|]; try done.
  intros [= ->] -> Hs. simpl. unfold py_get. by rewrite Hs.
Qed.

Lemma metric_score_present (si overall d p : dict) (s : string) (v : value) :
  overall_of si = Some overall →
  dict_lookup "name" d = Some (VStr s) →
  dict_lookup s overall = Some (VDict p) →
  dict_lookup "value" p = Some v →
  metric_score (Some si) (VDict d) = Ok v.
Proof.
  unfold overall_of, metric_score, subscript, py_getitem.
  destruct (dict_lookup "results" si) as [[| | | |results]|]; try done.
  simpl.
  destruct (dict_lookup "overall" results) as [[| | | |o]|]; try done.
  intros [= ->] -> Hs Hv. simpl. unfold py_get. rewrite Hs.
  assert (truthy (VDict p) = true) as -> by by destruct p.
  by rewrite Hv.
Qed.

(** What one round of the metric loop leaves in [column_dict]. *)
Lemma update_column_dict_inv (n : nat) (sys_info : option dict)
    (cd cd' : dict) (m : value) :
  update_column_dict n sys_info cd m = Ok cd' →
  ∃ d nm score,
    m = VDict d ∧ dict_lookup "name" d = Some nm
    ∧ metric_score sys_info (VDict d) = Ok score
    ∧ cd' = dict_store "score" score
              (dict_store "metric_weight"
                 (py_get d "weight" (VNum (1 / float_of_nat n)))
                 (dict_store "metric" nm cd)).
Proof.
  unfold update_column_dict.
  intros (nm & Hnm & (w & Hw & (score & Hscore & [= <-])%bind_Ok)%bind_Ok
    )%bind_Ok.
  destruct m as [| | | |d]; try done. simpl in Hnm, Hw.
  injection Hw as <-. unfold py_getitem in Hnm.
  destruct (dict_lookup "name" d) as [nm'|] eqn:E; [|done].
  injection Hnm as ->. by exists d, nm, score.
Qed.

(** ** Duplicate submissions *)

Lemma submits_to_same (idx : list (ident * nat)) (n : string) (j : nat)
    (a b : dict) :
  sys_name_of a = sys_name_of b → sys_key a = sys_key b →
  submits_to idx n j a = submits_to idx n j b.
Proof. unfold submits_to. by intros -> ->. Qed.

(** An earlier submission that a later one repeats leaves no trace in
    the slots. *)
Lemma last_submission_overwritten (idx : list (ident * nat)) (n : string)
    (j : nat) (pre mid post : list dict) (s1 s1' s2 : dict) :
  sys_name_of s1 = sys_name_of s2 → sys_key s1 = sys_key s2 →
  sys_name_of s1' = sys_name_of s2 → sys_key s1' = sys_key s2 →
  last_submission idx n j (pre ++ s1 :: mid ++ s2 :: post) None =
  last_submission idx n j (pre ++ s1' :: mid ++ s2 :: post) None.
Proof.
  intros Hn1 Hk1 Hn1' Hk1'.
  rewrite !last_submission_app. simpl. rewrite !last_submission_app. simpl.
  rewrite (submits_to_same idx n j s1 s2 Hn1 Hk1),
    (submits_to_same idx n j s1' s2 Hn1' Hk1').
  by destruct (submits_to idx n j s2).
Qed.

Lemma grouping_of_overwritten (config : BenchmarkConfig)
    (idx : list (ident * nat)) (pre mid post : list dict) (s1 s1' s2 : dict) :
  sys_name_of s1 = sys_name_of s2 → sys_key s1 = sys_key s2 →
  sys_name_of s1' = sys_name_of s2 → sys_key s1' = sys_key s2 →
  grouping_of config idx (pre ++ s1 :: mid ++ s2 :: post) =
  grouping_of config idx (pre ++ s1' :: mid ++ s2 :: post).
Proof.
  intros Hn1 Hk1 Hn1' Hk1'. unfold grouping_of.
  assert (omap sys_name_of (pre ++ s1 :: mid ++ s2 :: post) =
          omap sys_name_of (pre ++ s1' :: mid ++ s2 :: post)) as ->.
  { rewrite !omap_app. f_equal. simpl. by rewrite Hn1, Hn1'. }
  apply map_ext. intros s. f_equal. apply map_ext. intros j.
  by apply last_submission_overwritten.
Qed.

(** Two keys that the index sends to one position are one key. *)
Lemma dataset_to_id_inj (config : BenchmarkConfig) (idx : list (ident * nat))
    (k k' : ident) (j : nat) :
  Forall (λ x, dataset_ok x = true) (datasets config) →
  dataset_to_id config = Ok idx →
  pd_get ident_eqb k idx = Some j → pd_get ident_eqb k' idx = Some j →
  k = k'.
Proof.
  intros Hds Hidx Hk Hk'.
  destruct (dataset_to_id_spec config Hds) as (idx' & Hidx' & Hget).
  assert (idx' = idx) as -> by congruence.
  rewrite Hget in Hk, Hk'.
  apply last_index_found in Hk as [?|(_ & x & kx & Hx & Hkx & E)]; [done|].
  apply last_index_found in Hk' as [?|(_ & x' & kx' & Hx' & Hkx' & E')];
    [done|].
  rewrite Hx in Hx'. injection Hx' as <-. rewrite Hkx in Hkx'.
  injection Hkx' as <-.
  assert (ident_name kx = true) as Hname.
  { rewrite Forall_forall in Hds.
    assert (dataset_ok x = true) as Hok
      by (apply Hds; by eapply list_elem_of_lookup_2).
    unfold dataset_ok in Hok. by rewrite Hkx in Hok. }
  apply (ident_eqb_name _ _ Hname) in E, E'. congruence.
Qed.

Lemma last_submission_last (idx : list (ident * nat)) (n : string) (j : nat)
    (pre post : list dict) (s : dict) (found : option dict) :
  submits_to idx n j s = true →
  Forall (λ s', submits_to idx n j s' = false) post →
  last_submission idx n j (pre ++ s :: post) found = Some s.
Proof.
  intros Hs Hpost. rewrite last_submission_app. simpl. rewrite Hs.
  generalize (Some s). intros o.
  induction Hpost as [|s' post Hs' _ IH]; simpl; [done|]. by rewrite Hs'.
Qed.

(** ** Column labels *)

Lemma has_char_app (c : Ascii.ascii) (x y : string) :
  has_char c (x ++ y)%string = has_char c x || has_char c y.
Proof.
  induction x as [|a x IH]; simpl; [done|]. rewrite IH.
  by rewrite orb_assoc.
Qed.

(** A text is cut in one way at the first occurrence of a character. *)
Lemma append_char_inj (c : Ascii.ascii) (x y r r' : string) :
  has_char c x = false → has_char c y = false →
  (x ++ String c r)%string = (y ++ String c r')%string → x = y ∧ r = r'.
Proof.
  revert y. induction x as [|a x IH]; intros [|b y]; simpl.
  - intros _ _ [= ->]. done.
  - intros _ [Hb _]%orb_false_iff [= <- _]. by rewrite Ascii.eqb_refl in Hb.
  - intros [Ha _]%orb_false_iff _ [= -> _]. by rewrite Ascii.eqb_refl in Ha.
  - intros [_ Hx]%orb_false_iff [_ Hy]%orb_false_iff [= -> H].
    destruct (IH y Hx Hy H) as [-> ->]. done.
Qed.

Lemma concat_cons2 (sep x y : string) (l : list string) :
  String.concat sep (x :: y :: l) =
    (x ++ sep ++ String.concat sep (y :: l))%string.
Proof. done. Qed.

Lemma concat_inj (p1 p2 : list string) :
  Forall (λ x, has_char "," x = false ∧ x ≠ "") p1 →
  Forall (λ x, has_char "," x = false ∧ x ≠ "") p2 →
  String.concat ", " p1 = String.concat ", " p2 → p1 = p2.
Proof.
  intros H1. revert p2.
  induction H1 as [|x l1 [Hx Hx0] Hl1 IH]; intros p2 H2.
  - destruct H2 as [|y l2 [_ Hy0] _]; [done|].
    destruct l2 as [|z l2]; [simpl; intros E; by destruct Hy0|].
    rewrite concat_cons2. destruct y; [done|]. discriminate.
  - destruct H2 as [|y l2 [Hy Hy0] Hl2].
    { destruct l1 as [|z l1]; [simpl; intros E; by destruct Hx0|].
      rewrite concat_cons2. destruct x; [done|]. discriminate. }
    destruct l1 as [|z l1], l2 as [|z' l2].
    + simpl. by intros ->.
    + rewrite concat_cons2. simpl. intros E. rewrite E in Hx.
      rewrite has_char_app in Hx. simpl in Hx.
      by rewrite orb_true_r in Hx.
    + rewrite concat_cons2. simpl. intros E. rewrite <- E in Hy.
      rewrite has_char_app in Hy. simpl in Hy.
      by rewrite orb_true_r in Hy.
    + rewrite !concat_cons2. simpl.
      intros [-> [= Hrest]]%append_char_inj; [|done..].
      by rewrite (IH _ Hl2 Hrest).
Qed.

Section labels.
Variable py_repr : value → string.

Lemma col_name_parts_cons (e : string) (names : list string) (r : dict)
    (p : list string) :
  col_name_parts py_repr (e :: names) r = Ok p →
  ∃ v q, dict_lookup e r = Some v
    ∧ col_name_parts py_repr names r = Ok q
    ∧ p = if truthy v then (e ++ "=" ++ py_str py_repr v)%string :: q
          else q.
Proof.
  simpl. intros (v & Hv & (q & Hq & Hp)%bind_Ok)%bind_Ok.
  exists v, q. unfold py_getitem in Hv.
  destruct (dict_lookup e r) as [v'|]; [|done]. injection Hv as ->.
  split; [done|]. split; [done|]. destruct (truthy v); by injection Hp.
Qed.

(** Rows that agree on their truthy descriptors get the same parts. *)
Lemma col_name_parts_agree (names : list string) (r1 r2 : dict)
    (p1 p2 : list string) :
  col_name_parts py_repr names r1 = Ok p1 →
  col_name_parts py_repr names r2 = Ok p2 →
  agree_on_truthy names r1 r2 → p1 = p2.
Proof.
  revert p1 p2. induction names as [|e names IH]; intros p1 p2.
  - by intros [= <-] [= <-].
  - intros (v1 & q1 & Hv1 & Hq1 & ->)%col_name_parts_cons
           (v2 & q2 & Hv2 & Hq2 & ->)%col_name_parts_cons Hagree.
    assert (q1 = q2) as <-.
    { apply IH; [done..|]. intros e' w1 w2 He'. apply Hagree. by right. }
    destruct (truthy v1 || truthy v2) eqn:E.
    + by rewrite (Hagree e v1 v2 ltac:(by left) Hv1 Hv2 E).
    + apply orb_false_iff in E as [-> ->]. done.
Qed.

Lemma col_name_parts_elem (names : list string) (r : dict)
    (p : list string) (x : string) :
  col_name_parts py_repr names r = Ok p → x ∈ p →
  ∃ e v, e ∈ names ∧ dict_lookup e r = Some v ∧ truthy v = true
         ∧ x = (e ++ "=" ++ py_str py_repr v)%string.
Proof.
  revert p. induction names as [|e names IH]; intros p.
  - intros [= <-] H. by apply elem_of_nil in H.
  - intros (v & q & Hv & Hq & ->)%col_name_parts_cons Hx.
    assert (x ∈ q → ∃ e0 v0, e0 ∈ e :: names ∧ dict_lookup e0 r = Some v0
              ∧ truthy v0 = true
              ∧ x = (e0 ++ "=" ++ py_str py_repr v0)%string) as Hrest.
    { intros (e0 & v0 & ? & ? & ? & ?)%(IH q Hq).
      exists e0, v0. split; [by right|done]. }
    destruct (truthy v) eqn:E; [|by apply Hrest].
    apply elem_of_cons in Hx as [->|Hx]; [|by apply Hrest].
    exists e, v. split; [by left|done].
Qed.

Lemma label_part_inj (e e' : string) (v v' : value) :
  has_char "=" e = false → has_char "=" e' = false →
  (e ++ "=" ++ py_str py_repr v)%string
    = (e' ++ "=" ++ py_str py_repr v')%string →
  e = e' ∧ py_str py_repr v = py_str py_repr v'.
Proof. intros He He'. simpl. by apply append_char_inj. Qed.

(** With plain column labels, equal parts mean equal texts. *)
Lemma col_name_parts_same_text (names : list string) (r1 r2 : dict)
    (p : list string) :
  NoDup names → plain_names names →
  col_name_parts py_repr names r1 = Ok p →
  col_name_parts py_repr names r2 = Ok p →
  same_text_on_truthy py_repr names r1 r2.
Proof.
  intros Hnd. revert p. induction Hnd as [|e names He Hnd IH]; intros p.
  - intros _ _ _ e v1 v2 H. by apply elem_of_nil in H.
  - intros [[_ Hpe] Hplain]%Forall_cons
      (v1 & q1 & Hv1 & Hq1 & ->)%col_name_parts_cons
      (v2 & q2 & Hv2 & Hq2 & Hp)%col_name_parts_cons.
    assert (∀ q r v, col_name_parts py_repr names r = Ok q →
              (e ++ "=" ++ py_str py_repr v)%string ∈ q → False) as Hno.
    { intros q r v Hq Hin.
      destruct (col_name_parts_elem names r q _ Hq Hin)
        as (e' & v' & He' & _ & _ & Heq).
      rewrite Forall_forall in Hplain. destruct (Hplain e' He') as [_ Hpe'].
      apply label_part_inj in Heq as [-> _]; done. }
    assert (truthy v1 = truthy v2
            ∧ (truthy v1 = true → py_str py_repr v1 = py_str py_repr v2)
            ∧ q1 = q2) as (Ht & Htext & <-).
    { destruct (truthy v1) eqn:E1, (truthy v2) eqn:E2.
      - injection Hp as Hhd ->.
        apply label_part_inj in Hhd as [_ ->]; done.
      - destruct (Hno q2 r2 v1 Hq2). rewrite <- Hp. by left.
      - destruct (Hno q1 r1 v2 Hq1). rewrite Hp. by left.
      - done. }
    intros e' w1 w2 [->|He']%elem_of_cons Hw1 Hw2 Hor.
    + rewrite Hv1 in Hw1. rewrite Hv2 in Hw2.
      injection Hw1 as <-. injection Hw2 as <-.
      rewrite <- Ht, orb_diag in Hor. rewrite <- Ht. auto.
    + by apply (IH q1 Hplain Hq1 Hq2 e').
Qed.

Lemma col_name_parts_plain (names : list string) (r : dict)
    (p : list string) :
  plain_names names → plain_texts py_repr names r →
  col_name_parts py_repr names r = Ok p →
  Forall (λ x, has_char "," x = false ∧ x ≠ "") p.
Proof.
  intros Hnames Htexts Hp. apply Forall_forall. intros x Hx.
  destruct (col_name_parts_elem names r p x Hp Hx)
    as (e & v & He & Hv & Ht & ->).
  unfold plain_names in Hnames.
  rewrite Forall_forall in Hnames. destruct (Hnames e He) as [Hc _].
  split.
  - rewrite has_char_app, Hc. simpl. by apply (Htexts e v).
  - by destruct e.
Qed.
End labels.

(** C5 on the code. Two rows that agree on every descriptor column in
    which either has a truthy value are assigned the same label. The
    label is a string, so the converse needs the text to be readable
    back: when the column labels are distinct and contain neither a
    comma nor an equals sign, and no truthy descriptor shows a comma,
    two rows with the same label have the same truthy columns, with
    the same text in each. *)
Theorem col_name_same_label (py_repr : value → string) :
  (∀ elem_names r1 r2 l1 l2,
     _col_name py_repr elem_names r1 = Ok l1 →
     _col_name py_repr elem_names r2 = Ok l2 →
     agree_on_truthy elem_names r1 r2 → l1 = l2)
  ∧ (∀ elem_names r1 r2 l,
       NoDup elem_names → plain_names elem_names →
       plain_texts py_repr elem_names r1 →
       plain_texts py_repr elem_names r2 →
       _col_name py_repr elem_names r1 = Ok l →
       _col_name py_repr elem_names r2 = Ok l →
       same_text_on_truthy py_repr elem_names r1 r2).
Proof.
  split.
  - intros names r1 r2 l1 l2 (p1 & Hp1 & [= <-])%bind_Ok
      (p2 & Hp2 & [= <-])%bind_Ok Hagree.
    by rewrite (col_name_parts_agree py_repr names r1 r2 p1 p2).
  - intros names r1 r2 l Hnd Hnames Ht1 Ht2 (p1 & Hp1 & [= <-])%bind_Ok
      (p2 & Hp2 & [= Heq])%bind_Ok.
    apply concat_inj in Heq.
    + subst p2. by apply (col_name_parts_same_text py_repr names r1 r2 p1).
    + by apply (col_name_parts_plain py_repr names r2).
    + by apply (col_name_parts_plain py_repr names r1).
Qed.

Lemma col_name_same_label_witness :
  "a=x, b=y" = "a=x, b=y"
  ∧ same_text_on_truthy (λ _, "") ["a"; "b"] row_ab_2
      [("system_name", VStr "B"); ("a", VStr "x"); ("b", VStr "y");
       ("score", VNum 3)].
Proof.
  split.
  - apply (proj1 (col_name_same_label (λ _, "")) ["a"; "b"] row_ab_2
             [("system_name", VStr "B"); ("a", VStr "x"); ("b", VStr "y");
              ("score", VNum 3)]); [reflexivity..|].
    intros e v1 v2 He H1 H2 _.
    apply elem_of_cons in He as [->|He];
      [vm_compute in H1, H2; congruence|].
    apply elem_of_cons in He as [->|He];
      [vm_compute in H1, H2; congruence|].
    by apply elem_of_nil in He.
  - apply (proj2 (col_name_same_label (λ _, "")) ["a"; "b"] row_ab_2
             [("system_name", VStr "B"); ("a", VStr "x"); ("b", VStr "y");
              ("score", VNum 3)] "a=x, b=y").
    + compute_done.
    + by repeat constructor.
    + intros e v He H1 _.
      apply elem_of_cons in He as [->|He];
        [vm_compute in H1; by injection H1 as <-|].
      apply elem_of_cons in He as [->|He];
        [vm_compute in H1; by injection H1 as <-|].
      by apply elem_of_nil in He.
    + intros e v He H1 _.
      apply elem_of_cons in He as [->|He];
        [vm_compute in H1; by injection H1 as <-|].
      apply elem_of_cons in He as [->|He];
        [vm_compute in H1; by injection H1 as <-|].
      by apply elem_of_nil in He.
    + reflexivity.
    + reflexivity.
Defined.

(** C5 as stated fails: [row_ab_1] and [row_ab_2] are assigned the same
    label ["a=x, b=y"], and differ in both descriptor columns. *)
Lemma col_name_not_injective :
  ¬ (∀ (py_repr : value → string) elem_names r1 r2 l1 l2,
       _col_name py_repr elem_names r1 = Ok l1 →
       _col_name py_repr elem_names r2 = Ok l2 →
       (l1 = l2 ↔ agree_on_truthy elem_names r1 r2)).
Proof.
  intros H.
  destruct (H (λ _, "") ["a"; "b"] row_ab_1 row_ab_2 "a=x, b=y" "a=x, b=y"
              eq_refl eq_refl) as [Hagree _].
  specialize (Hagree eq_refl "a" (VStr "x, b=y") (VStr "x")
                ltac:(by left) eq_refl eq_refl eq_refl).
  discriminate.
Qed.

(** ** The rendered table *)

Section enumerate_facts.
Context {K : Type} (eqb : K → K → bool) (P : K → Prop).
Hypothesis eqb_eq : ∀ a b, P a → eqb a b = true ↔ a = b.

Lemma pd_get_imap_Some (g : nat → nat) (l : list K) (x : K) (n : nat) :
  Forall P l →
  pd_get eqb x (imap (λ i v, (v, g i)) l) = Some n →
  ∃ i, l !! i = Some x ∧ n = g i.
Proof.
  intros Hl. revert g. induction Hl as [|a l Ha Hl IH]; intros g; simpl.
  - done.
  - destruct (eqb a x) eqn:E.
    + apply eqb_eq in E as ->; [|done]. intros [= <-]. by exists 0.
    + intros (i & Hi & ->)%IH. by exists (S i).
Qed.

Lemma pd_get_imap_lookup (g : nat → nat) (l : list K) (x : K) (i : nat) :
  Forall P l → NoDup l → l !! i = Some x →
  pd_get eqb x (imap (λ i v, (v, g i)) l) = Some (g i).
Proof.
  intros Hl. revert g i.
  induction Hl as [|a l Ha Hl IH]; intros g i Hnd; simpl; [done|].
  apply NoDup_cons in Hnd as [Hal Hnd]. destruct i as [|i]; simpl.
  - intros [= ->]. by rewrite (proj2 (eqb_eq x x Ha)).
  - intros Hi. destruct (eqb a x) eqn:E.
    + apply eqb_eq in E as ->; [|done].
      destruct Hal. by eapply list_elem_of_lookup_2.
    + apply (IH (λ i, g (S i)) i Hnd Hi).
Qed.
End enumerate_facts.

Lemma enumerate_map_fst {A : Type} (l : list A) : map fst (enumerate l) = l.
Proof.
  unfold enumerate.
  assert (∀ g : nat → nat, map fst (imap (λ i v, (v, g i)) l) = l) as H;
    [|apply (H (λ i, i))].
  induction l as [|a l IH]; intros g; [done|].
  change ((a :: map fst (imap (λ i v, (v, g (S i))) l)) = a :: l).
  f_equal. apply (IH (λ i, g (S i))).
Qed.

Lemma enumerate_keys {A : Type} (l : list A) : (enumerate l).*1 = l.
Proof.
  unfold enumerate.
  assert (∀ g : nat → nat, (imap (λ i v, (v, g i)) l).*1 = l) as H;
    [|apply (H (λ i, i))].
  induction l as [|a l IH]; intros g; [done|].
  change ((a :: (imap (λ i v, (v, g (S i))) l).*1) = a :: l).
  f_equal. apply (IH (λ i, g (S i))).
Qed.

Lemma mapM_cons {A B : Type} (f : A → result B) (x : A) (l : list A) :
  mapM f (x :: l) = f x ≫= λ y, mapM f l ≫= λ k, Ok (y :: k).
Proof. done. Qed.

Lemma mapM_ok {A B : Type} (f : A → result B) (l : list A) :
  (∀ x, x ∈ l → ∃ y, f x = Ok y) →
  ∃ ys, mapM f l = Ok ys ∧ length ys = length l.
Proof.
  induction l as [|x l IH]; intros Hf.
  - by exists [].
  - destruct (Hf x) as [y Hy]; [by left|].
    destruct IH as (ys & Hys & Hlen); [intros x' Hx'; apply Hf; by right|].
    exists (y :: ys). rewrite mapM_cons, Hy. simpl. rewrite Hys. simpl.
    by rewrite Hlen.
Qed.

Lemma mapM_lookup {A B : Type} (f : A → result B) (l : list A)
    (ys : list B) (i : nat) (x : A) :
  mapM f l = Ok ys → l !! i = Some x → ∃ y, ys !! i = Some y ∧ f x = Ok y.
Proof.
  revert ys i. induction l as [|a l IH]; intros ys i; [done|].
  rewrite mapM_cons.
  intros (y & Hy & (k & Hk & [= <-])%bind_Ok)%bind_Ok.
  destruct i as [|i]; simpl.
  - intros [= <-]. by exists y.
  - by apply IH.
Qed.

Lemma df_row_lookup (df : DataFrame) (i : nat) (k : string) :
  dict_lookup k (df_row df i) =
    (λ col, nth i col VNone) <$> pd_get String.eqb k (df_columns df).
Proof.
  unfold dict_lookup, df_row.
  induction (df_columns df) as [|[k0 col] cols IH]; simpl; [done|].
  by destruct (String.eqb k0 k).
Qed.

Lemma df_column_get (df : DataFrame) (k : string) (col : list value) :
  df_column df k = Ok col ↔ pd_get String.eqb k (df_columns df) = Some col.
Proof.
  unfold df_column, df_getitem.
  destruct (pd_get String.eqb k (df_columns df)); split; congruence.
Qed.

Lemma df_column_len (df : DataFrame) (k : string) (col : list value) :
  cols_len (nrows df) (df_columns df) →
  df_column df k = Ok col → length col = nrows df.
Proof.
  intros Hlen Hcol%df_column_get.
  apply (pd_get_Some String.eqb (λ _, True)) in Hcol.
  - unfold cols_len in Hlen. rewrite Forall_forall in Hlen.
    apply (Hlen _ Hcol).
  - intros a b _. apply String.eqb_eq.
  - by apply Forall_forall.
Qed.

(** The cell of row [i] in a column of a well-formed frame. *)
Lemma df_row_cell (df : DataFrame) (i : nat) (k : string) (col : list value)
    (row : dict) :
  cols_len (nrows df) (df_columns df) →
  df_column df k = Ok col → iterrows df !! i = Some row →
  ∃ v, col !! i = Some v ∧ dict_lookup k row = Some v.
Proof.
  intros Hlen Hcol Hrow. unfold iterrows in Hrow.
  rewrite list_lookup_fmap in Hrow.
  destruct (seq 0 (nrows df) !! i) as [i'|] eqn:Ei; [|done].
  apply lookup_seq in Ei as [-> Hi]. injection Hrow as <-.
  pose proof (df_column_len df k col Hlen Hcol) as Hl.
  destruct (lookup_lt_is_Some_2 col i) as [v Hv]; [lia|].
  exists v. split; [done|]. rewrite df_row_lookup.
  apply df_column_get in Hcol. rewrite Hcol. simpl.
  f_equal. by apply nth_lookup_Some.
Qed.

Lemma df_row_keys (df : DataFrame) (i : nat) (k : string) :
  k ∈ (df_columns df).*1 → is_Some (dict_lookup k (df_row df i)).
Proof.
  intros Hk. rewrite df_row_lookup.
  destruct (pd_get String.eqb k (df_columns df)) eqn:E; [by eexists|].
  apply (pd_get_None String.eqb (λ _, True)) in E; [done| |].
  - intros a b _. apply String.eqb_eq.
  - by apply Forall_forall.
Qed.

Lemma last_write_app (sys : value) (col : string) (l k : list (dict * string))
    (found : option float) :
  last_write sys col (l ++ k) found =
    last_write sys col k (last_write sys col l found).
Proof.
  revert found. induction l as [|[row lab] l IH]; intros found; simpl; [done|].
  apply IH.
Qed.

Lemma value_eqb_name_r (a b : value) :
  is_name b = true → value_eqb a b = true ↔ a = b.
Proof.
  destruct a, b; simpl; try done; intros _.
  rewrite String.eqb_eq. split; congruence.
Qed.

Lemma last_write_last (sys : value) (col : string) (its : list (dict * string))
    (found : option float) (i : nat) (row : dict) (f : float) :
  is_name sys = true →
  its !! i = Some (row, col) →
  dict_lookup "system_name" row = Some sys →
  dict_lookup "score" row = Some (VNum f) →
  (∀ i' row' c', i < i' → its !! i' = Some (row', c') →
     ¬ (dict_lookup "system_name" row' = Some sys ∧ c' = col)) →
  last_write sys col its found = Some f.
Proof.
  intros Hname. revert i found.
  induction its as [|[r0 c0] its IH]; intros i found; [done|].
  destruct i as [|i]; simpl.
  - intros [= -> ->] Hs Hf Hlater. rewrite Hs, Hf.
    rewrite (proj2 (value_eqb_name sys sys Hname)), String.eqb_refl by done.
    simpl. clear IH Hs Hf.
    assert (∀ i' row' c', its !! i' = Some (row', c') →
              ¬ (dict_lookup "system_name" row' = Some sys ∧ c' = col))
      as Hno by (intros i' row' c'; apply (Hlater (S i')); lia).
    clear Hlater. generalize (Some f).
    induction its as [|[r1 c1] its IH]; intros o; simpl; [done|].
    assert (match dict_lookup "system_name" r1, dict_lookup "score" r1 with
            | Some v, Some (VNum f0) =>
                if value_eqb v sys && String.eqb c1 col then Some f0 else o
            | _, _ => o
            end = o) as ->.
    { destruct (dict_lookup "system_name" r1) as [v|] eqn:Ev; [|done].
      destruct (dict_lookup "score" r1) as [[|f0| | |]|]; try done.
      destruct (value_eqb v sys) eqn:E1; [|done].
      destruct (String.eqb c1 col) eqn:E2; [|done].
      apply (value_eqb_name_r v sys Hname) in E1 as ->.
      apply String.eqb_eq in E2 as ->.
      by destruct (Hno 0 r1 col eq_refl). }
    apply IH. intros i' row' c'. apply (Hno (S i')).
  - intros Hi Hs Hf Hlater. apply (IH i); [done..|].
    intros i' row' c' Hlt. apply (Hlater (S i')). lia.
Qed.

Lemma last_write_None (sys : value) (col : string)
    (its : list (dict * string)) :
  is_name sys = true →
  (∀ i row c, its !! i = Some (row, c) →
     ¬ (dict_lookup "system_name" row = Some sys ∧ c = col)) →
  last_write sys col its None = None.
Proof.
  intros Hname. induction its as [|[r1 c1] its IH]; intros Hno; simpl; [done|].
  assert (match dict_lookup "system_name" r1, dict_lookup "score" r1 with
          | Some v, Some (VNum f0) =>
              if value_eqb v sys && String.eqb c1 col then Some f0 else None
          | _, _ => None
          end = None) as ->.
  { destruct (dict_lookup "system_name" r1) as [v|] eqn:Ev; [|done].
    destruct (dict_lookup "score" r1) as [[|f0| | |]|]; try done.
    destruct (value_eqb v sys) eqn:E1; [|done].
    destruct (String.eqb c1 col) eqn:E2; [|done].
    apply (value_eqb_name_r v sys Hname) in E1 as ->.
    apply String.eqb_eq in E2 as ->.
    by destruct (Hno 0 r1 col eq_refl). }
  apply IH. intros i row c. apply (Hno (S i)).
Qed.

Lemma filter_fmap_list {A B : Type} (f : A → B) (p : B → bool) (l : list A) :
  filter (λ y, p y) (f <$> l) = f <$> filter (λ x, p (f x)) l.
Proof.
  induction l as [|a l IH]; [done|]. rewrite fmap_cons.
  destruct (p (f a)) eqn:E.
  - rewrite !filter_cons_True by by rewrite E. by rewrite fmap_cons, IH.
  - rewrite !filter_cons_False by (rewrite E; by intros ?). done.
Qed.

Lemma dedupe_fmap {A B : Type} (f : A → B) (eqbA : A → A → bool)
    (eqbB : B → B → bool) (l : list A) :
  (∀ a a', eqbB (f a) (f a') = eqbA a a') →
  dedupe eqbB (f <$> l) = f <$> dedupe eqbA l.
Proof.
  intros Hf. induction l as [|a l IH]; [done|].
  rewrite fmap_cons. simpl. rewrite IH. f_equal.
  rewrite (filter_fmap_list f (λ y, negb (eqbB (f a) y))).
  f_equal. apply list_filter_iff. intros x. by rewrite Hf.
Qed.

Lemma is_str_fmap (l : list value) :
  forallb is_str l = true → ∃ ss, l = VStr <$> ss.
Proof.
  induction l as [|v l IH]; simpl; [by exists []|].
  intros [Hv Hl]%andb_true_iff. destruct (IH Hl) as [ss ->].
  destruct v; try done. by eexists (_ :: ss).
Qed.

Section renderer.
Variable py_repr : value → string.
Variable set_order : ∀ A : Type, list A → list A.
Hypothesis set_order_perm : ∀ (A : Type) (l : list A), set_order A l ≡ₚ l.

Lemma col_name_ok (elem_names : list string) (row : dict) :
  (∀ e, e ∈ elem_names → is_Some (dict_lookup e row)) →
  ∃ l, _col_name py_repr elem_names row = Ok l.
Proof.
  intros Hrow. unfold _col_name.
  assert (∃ p, col_name_parts py_repr elem_names row = Ok p) as [p ->];
    [|by eexists].
  induction elem_names as [|e names IH]; simpl; [by eexists|].
  destruct (Hrow e) as [v Hv]; [by left|].
  unfold py_getitem. rewrite Hv. simpl.
  destruct IH as [p ->]; [intros e' He'; apply Hrow; by right|]. simpl.
  destruct (truthy v); by eexists.
Qed.

Lemma py_set_elem_of {A : Type} `{EqDecision A} (eqb : A → A → bool)
    (l : list A) (x : A) :
  (∀ a b, eqb a b = true ↔ a = b) →
  x ∈ py_set set_order eqb l ↔ x ∈ l.
Proof.
  intros Heq. unfold py_set. rewrite set_order_perm.
  by apply elem_of_dedupe.
Qed.

Lemma py_set_NoDup {A : Type} `{EqDecision A} (eqb : A → A → bool)
    (l : list A) :
  (∀ a b, eqb a b = true ↔ a = b) → NoDup (py_set set_order eqb l).
Proof.
  intros Heq. unfold py_set. rewrite set_order_perm.
  by apply NoDup_dedupe.
Qed.

Section fill.
Variable SL : list value.
Variable CL : list string.
Hypothesis SL_names : Forall (λ v, is_name v = true) SL.
Hypothesis SL_NoDup : NoDup SL.
Hypothesis CL_NoDup : NoDup CL.

Lemma filled_init :
  filled SL CL [] (replicate (length (enumerate SL))
                       (replicate (length (enumerate CL)) 0%float)).
Proof.
  unfold enumerate. rewrite !length_imap.
  split; [apply length_replicate|]. split.
  - apply Forall_forall. intros r [-> _]%elem_of_replicate.
    apply length_replicate.
  - intros i j v c Hi Hj. simpl.
    rewrite lookup_replicate_2 by by eapply lookup_lt_Some. simpl.
    apply lookup_replicate_2. by eapply lookup_lt_Some.
Qed.

Lemma filled_step (pre : list (dict * string)) (M : list (list float))
    (row : dict) (lab : string) (v : value) (f : float) :
  filled SL CL pre M →
  dict_lookup "system_name" row = Some v → v ∈ SL → lab ∈ CL →
  dict_lookup "score" row = Some (VNum f) →
  ∃ M', fill_score (enumerate SL) (enumerate CL) M (row, lab) = Ok M'
    ∧ filled SL CL (pre ++ [(row, lab)]) M'.
Proof.
  intros (HlenM & HlenR & Hcells) Hv HvSL HlabCL Hf.
  apply list_elem_of_lookup in HvSL as [i0 Hi0].
  apply list_elem_of_lookup in HlabCL as [j0 Hj0].
  assert (is_name v = true) as Hname.
  { rewrite Forall_forall in SL_names. apply SL_names.
    by eapply list_elem_of_lookup_2. }
  unfold fill_score, py_getitem. rewrite Hv, Hf. simpl.
  rewrite (is_name_hashable v Hname). simpl.
  unfold enumerate.
  rewrite (pd_get_imap_lookup value_eqb _ value_eqb_name (λ i, i) SL v i0);
    [|done..].
  rewrite (pd_get_imap_lookup String.eqb (λ _, True) (λ a b _,
             String.eqb_eq a b) (λ i, i) CL lab j0);
    [|by apply Forall_forall|done..].
  unfold set_score.
  destruct (lookup_lt_is_Some_2 M i0) as [r Hr];
    [rewrite HlenM; by eapply lookup_lt_Some|].
  rewrite Hr.
  assert (length r = length CL) as Hlr.
  { rewrite Forall_forall in HlenR. apply HlenR.
    by eapply list_elem_of_lookup_2. }
  rewrite bool_decide_eq_true_2
    by (rewrite Hlr; by eapply lookup_lt_Some).
  eexists. split; [done|]. split; [by rewrite length_insert|]. split.
  { apply Forall_insert; [done|]. by rewrite length_insert. }
  intros i j w c Hi Hj. rewrite last_write_app. simpl.
  rewrite Hv, Hf.
  destruct (decide (i = i0)) as [->|Hne].
  - rewrite list_lookup_insert_eq by by eapply lookup_lt_Some.
    simpl. rewrite Hi0 in Hi. injection Hi as <-.
    rewrite (proj2 (value_eqb_name v v Hname)) by done. simpl.
    destruct (decide (j = j0)) as [->|Hnej].
    + rewrite list_lookup_insert_eq
        by (rewrite Hlr; by eapply lookup_lt_Some).
      rewrite Hj0 in Hj. injection Hj as <-.
      by rewrite String.eqb_refl.
    + rewrite list_lookup_insert_ne by done.
      destruct (String.eqb lab c) eqn:E.
      * apply String.eqb_eq in E as ->. destruct Hnej.
        apply (NoDup_lookup CL j j0 c CL_NoDup Hj Hj0).
      * specialize (Hcells i0 j v c Hi0 Hj). by rewrite Hr in Hcells.
  - rewrite list_lookup_insert_ne by done.
    destruct (value_eqb v w) eqn:E.
    + apply (value_eqb_name v w Hname) in E as ->. destruct Hne.
      apply (NoDup_lookup SL i i0 w SL_NoDup Hi Hi0).
    + simpl. by apply Hcells.
Qed.
End fill.

Lemma system_set_spec (names : list value) :
  forallb is_str names = true →
  Forall (λ v, is_name v = true) (py_set set_order value_eqb names)
  ∧ NoDup (py_set set_order value_eqb names)
  ∧ ∀ v, v ∈ py_set set_order value_eqb names ↔ v ∈ names.
Proof.
  intros [ss ->]%is_str_fmap. unfold py_set.
  rewrite (dedupe_fmap VStr String.eqb value_eqb) by done.
  split; [|split].
  - rewrite set_order_perm. apply Forall_fmap, Forall_forall. done.
  - rewrite set_order_perm.
    apply (NoDup_fmap_2 _), (NoDup_dedupe String.eqb String.eqb_eq).
  - intros v. rewrite set_order_perm, !list_elem_of_fmap.
    split; intros (s & -> & Hs); exists s; split; try done;
      by apply (elem_of_dedupe String.eqb String.eqb_eq).
Qed.

(** C6. Cells of the rendered table. For a frame with strings in
    [system_name] and numbers in [score], [dataframe_to_table]
    returns a table in which the cell of a system and a column label
    holds the score of the last row, in the order of iteration, that
    has this system and is given this label, and [0.0] when the system
    and the label are in the table and no row has both. This holds
    for every order of iteration of the two sets. *)
Theorem dataframe_to_table_cells (input_df : DataFrame) :
  frame_ok input_df →
  ∃ tbl labels,
    dataframe_to_table py_repr set_order input_df = Ok tbl
    ∧ mapM (_col_name py_repr (descriptor_names input_df))
           (iterrows input_df) = Ok labels
    ∧ (∀ i row c s f,
         iterrows input_df !! i = Some row → labels !! i = Some c →
         dict_lookup "system_name" row = Some s →
         dict_lookup "score" row = Some (VNum f) →
         (∀ i' row' c', i < i' →
            iterrows input_df !! i' = Some row' → labels !! i' = Some c' →
            ¬ (dict_lookup "system_name" row' = Some s ∧ c' = c)) →
         table_cell tbl s c = Some f)
    ∧ (∀ s c,
         s ∈ system_names tbl → c ∈ column_names tbl →
         (∀ i row, iterrows input_df !! i = Some row →
            labels !! i = Some c →
            dict_lookup "system_name" row ≠ Some s) →
         table_cell tbl s c = Some 0%float).
Proof.
  intros (Hlen & (names & Hnames & Hstr) & (vals & Hvals & Hnum)).
  destruct (mapM_ok (_col_name py_repr (descriptor_names input_df))
              (iterrows input_df)) as (labels & Hlabels & Hll).
  { intros row (i & -> & _)%list_elem_of_fmap. apply col_name_ok.
    intros e [_ He]%list_elem_of_filter. apply df_row_keys.
    by rewrite <- map_eq_fmap. }
  destruct (system_set_spec names Hstr) as (HSLn & HSLnd & HSLin).
  set (SL := py_set set_order value_eqb names) in *.
  set (CL := py_set set_order String.eqb labels).
  assert (NoDup CL) as HCLnd by apply (py_set_NoDup _ _ String.eqb_eq).
  assert (∀ c, c ∈ CL ↔ c ∈ labels) as HCLin
    by (intros c; apply (py_set_elem_of _ _ _ String.eqb_eq)).
  assert (∀ i row, iterrows input_df !! i = Some row →
            ∃ s f, dict_lookup "system_name" row = Some (VStr s)
                   ∧ VStr s ∈ names
                   ∧ dict_lookup "score" row = Some (VNum f)) as Hrows.
  { intros i row Hrow.
    destruct (df_row_cell _ _ _ _ _ Hlen Hnames Hrow) as (v & Hv & Hs).
    destruct (df_row_cell _ _ _ _ _ Hlen Hvals Hrow) as (w & Hw & Hf).
    rewrite forallb_Forall, Forall_forall in Hstr, Hnum.
    apply list_elem_of_lookup_2 in Hw. pose proof (Hnum w Hw) as Hw'.
    pose proof (list_elem_of_lookup_2 _ _ _ Hv) as Hvin.
    pose proof (Hstr v Hvin) as Hv'.
    destruct v; try done. destruct w; try done. eauto. }
  destruct (foldM_total (fill_score (enumerate SL) (enumerate CL))
              (filled SL CL) (zip (iterrows input_df) labels) []
              (replicate (length (enumerate SL))
                         (replicate (length (enumerate CL)) 0%float)))
    as (M & HM & Hfilled).
  { intros pre [row lab] M' [i Hi]%list_elem_of_lookup HM'.
    apply lookup_zip_with_Some in Hi as (r & l & [= <- <-] & Hr & Hl).
    destruct (Hrows i row Hr) as (s & f & Hs & Hsin & Hf).
    apply (filled_step SL CL HSLn HSLnd HCLnd pre M' row lab (VStr s) f);
      try done.
    - by apply HSLin.
    - apply HCLin. by eapply list_elem_of_lookup_2. }
  { apply filled_init. }
  exists {| system_names := map fst (enumerate SL);
            column_names := map fst (enumerate CL);
            scores := M |}, labels.
  split.
  { unfold dataframe_to_table. rewrite Hnames. simpl.
    assert (forallb hashable names = true) as ->.
    { apply forallb_Forall. apply forallb_Forall in Hstr.
      eapply Forall_impl; [exact Hstr|]. by intros []. }
    simpl. fold (descriptor_names input_df). rewrite Hlabels. simpl.
    fold SL CL. by rewrite HM. }
  split; [done|].
  destruct Hfilled as (_ & _ & Hcells). simpl in Hcells.
  set (tbl := {| system_names := map fst (enumerate SL);
                 column_names := map fst (enumerate CL);
                 scores := M |}).
  assert (∀ s c i j, SL !! i = Some s → CL !! j = Some c →
            table_cell tbl s c
            = Some (default 0%float
                      (last_write s c (zip (iterrows input_df) labels)
                         None))) as Hcell.
  { intros s c i j Hi Hj. unfold table_cell, tbl. simpl.
    rewrite !enumerate_map_fst. unfold enumerate.
    rewrite (pd_get_imap_lookup value_eqb _ value_eqb_name (λ i, i) SL s i);
      [|done..].
    rewrite (pd_get_imap_lookup String.eqb (λ _, True) (λ a b _,
               String.eqb_eq a b) (λ i, i) CL c j);
      [|by apply Forall_forall|done..].
    simpl. by apply Hcells. }
  split.
  - intros i row c s f Hrow Hc Hs Hf Hlater.
    destruct (Hrows i row Hrow) as (s' & f' & Hs' & Hsin & _).
    rewrite Hs in Hs'. injection Hs' as ->.
    apply HSLin, list_elem_of_lookup in Hsin as [i0 Hi0].
    assert (c ∈ CL) as [j0 Hj0]%list_elem_of_lookup
      by (apply HCLin; by eapply list_elem_of_lookup_2).
    rewrite (Hcell _ _ i0 j0 Hi0 Hj0).
    rewrite (last_write_last (VStr s') c _ None i row f); try done.
    + apply lookup_zip_with_Some. by exists row, c.
    + intros i' row' c' Hlt
        (r & l & [= <- <-] & Hr & Hl)%lookup_zip_with_Some.
      by apply (Hlater i').
  - unfold tbl at 1 2. simpl. rewrite !enumerate_map_fst.
    intros s c [i0 Hi0]%list_elem_of_lookup [j0 Hj0]%list_elem_of_lookup
      Hnone.
    rewrite (Hcell _ _ i0 j0 Hi0 Hj0).
    rewrite last_write_None; [done| |].
    + rewrite Forall_forall in HSLn. apply HSLn.
      by eapply list_elem_of_lookup_2.
    + intros i row c'
        (r & l & [= <- <-] & Hr & Hl)%lookup_zip_with_Some [Hs ->].
      by apply (Hnone i row).
Qed.
End renderer.

Lemma dataframe_to_table_cells_witness :
  ∃ tbl labels,
    dataframe_to_table (λ _, "") (λ _ l, reverse l) demo_frame = Ok tbl
    ∧ mapM (_col_name (λ _, "") (descriptor_names demo_frame))
           (iterrows demo_frame) = Ok labels
    ∧ (∀ i row c s f,
         iterrows demo_frame !! i = Some row → labels !! i = Some c →
         dict_lookup "system_name" row = Some s →
         dict_lookup "score" row = Some (VNum f) →
         (∀ i' row' c', i < i' →
            iterrows demo_frame !! i' = Some row' → labels !! i' = Some c' →
            ¬ (dict_lookup "system_name" row' = Some s ∧ c' = c)) →
         table_cell tbl s c = Some f)
    ∧ (∀ s c,
         s ∈ system_names tbl → c ∈ column_names tbl →
         (∀ i row, iterrows demo_frame !! i = Some row →
            labels !! i = Some c →
            dict_lookup "system_name" row ≠ Some s) →
         table_cell tbl s c = Some 0%float).
Proof.
  apply (dataframe_to_table_cells (λ _, "") (λ _ l, reverse l)).
  - intros A l. apply reverse_Permutation.
  - split; [|split].
    + by repeat constructor.
    + by eexists.
    + by eexists.
Defined.

(** ** Frames in the store *)

Lemma extends_refl (h : store) : extends h h.
Proof. by split. Qed.

Lemma framed_ret (h0 : store) {A : Type} (a : A) (Q : A → Prop) :
  Q a → framed h0 (mret a) Q.
Proof. intros Ha h Hh. split; [done|]. by intros a' [= <-]. Qed.

Lemma framed_bind (h0 : store) {A B : Type} (m : M A) (f : A → M B)
    (P : A → Prop) (Q : B → Prop) :
  framed h0 m P → (∀ a, P a → framed h0 (f a) Q) → framed h0 (m ≫= f) Q.
Proof.
  intros Hm Hf h Hh. destruct (Hm h Hh) as [Hext HP].
  unfold mbind, M_bind. destruct (m h) as [[a|e] h1]; simpl in *.
  - by apply (Hf a (HP a eq_refl)).
  - split; [done|]. by intros a.
Qed.

Lemma framed_weaken (h0 : store) {A : Type} (m : M A) (P Q : A → Prop) :
  framed h0 m P → (∀ a, P a → Q a) → framed h0 m Q.
Proof.
  intros Hm HPQ h Hh. destruct (Hm h Hh) as [Hext HP].
  split; [done|]. intros a Ha. by apply HPQ, HP.
Qed.

Lemma framed_lift (h0 : store) {A : Type} (r : result A) :
  framed h0 (lift r) (λ _, True).
Proof. by intros h Hh. Qed.

Lemma framed_load (h0 : store) (r : nat) : framed h0 (load r) (λ _, True).
Proof. by intros h Hh. Qed.

Lemma framed_alloc (h0 : store) (df : DataFrame) :
  framed h0 (alloc df) (λ r, next h0 ≤ r).
Proof.
  intros h [Hnext Hcells]. split.
  - split; simpl; [lia|]. intros r Hr.
    rewrite bool_decide_eq_false_2 by lia. by apply Hcells.
  - simpl. intros a [= <-]. done.
Qed.

Lemma framed_update (h0 : store) (r : nat) (df : DataFrame) :
  next h0 ≤ r → framed h0 (update r df) (λ _, True).
Proof.
  intros Hr h [Hnext Hcells]. split; [|done].
  split; simpl; [done|]. intros r' Hr'.
  rewrite bool_decide_eq_false_2 by lia. by apply Hcells.
Qed.

Lemma framed_foldMs (h0 : store) {A B : Type} (f : B → A → M B)
    (P : B → Prop) (l : list A) (b : B) :
  (∀ b a, a ∈ l → P b → framed h0 (f b a) P) →
  P b → framed h0 (foldMs f b l) P.
Proof.
  revert b. induction l as [|a l IH]; intros b Hf Hb; simpl.
  - by apply framed_ret.
  - eapply framed_bind; [apply Hf; [by left|done]|].
    intros b' Hb'. apply IH; [|done].
    intros b'' a' Ha'. apply Hf. by right.
Qed.

Lemma bind_lift {A B : Type} (r : result A) (f : A → M B) (h : store) :
  (lift r ≫= f) h =
    match r with Ok a => f a h | Raise e => (Raise e, h) end.
Proof. by destruct r. Qed.

Lemma bind_ret {A B : Type} (a : A) (f : A → M B) (h : store) :
  (mret a ≫= f) h = f a h.
Proof. done. Qed.

Lemma bind_assoc {A B C : Type} (m : M A) (k : A → M B) (f : B → M C)
    (h : store) :
  ((m ≫= k) ≫= f) h = (m ≫= λ a, k a ≫= f) h.
Proof.
  unfold mbind, M_bind. by destruct (m h) as [[a|e] h1].
Qed.

Lemma bind_alloc {B : Type} (df : DataFrame) (f : nat → M B) (h : store) :
  (alloc df ≫= f) h = f (next h) (alloc df h).2.
Proof. done. Qed.

Lemma bind_load {B : Type} (r : nat) (f : DataFrame → M B) (h : store) :
  (load r ≫= f) h = f (cell h r) h.
Proof. done. Qed.

Lemma bind_update {B : Type} (r : nat) (df : DataFrame) (f : () → M B)
    (h : store) :
  (update r df ≫= f) h = f () (update r df h).2.
Proof. done. Qed.

(** One step of a computation in the store. *)
Ltac run_store :=
  first [ rewrite bind_assoc | rewrite bind_lift | rewrite bind_ret
        | rewrite bind_load | rewrite bind_update | rewrite bind_alloc ];
  simpl.

Section view_frames.
Variable groupby_agg : agg → DataFrame → result DataFrame.

Lemma apply_operation_framed (h0 : store) (output_df : nat)
    (operation : dict) :
  next h0 ≤ output_df →
  framed h0 (apply_operation groupby_agg output_df operation)
         (λ r, next h0 ≤ r).
Proof.
  intros Hr. unfold apply_operation.
  eapply framed_bind; [apply framed_lift|]. intros op _.
  eapply (framed_bind _ _ _ (λ r, next h0 ≤ r)).
  { destruct (value_eqb op (VStr "mean")); [|by apply framed_ret].
    eapply framed_bind; [apply framed_load|]. intros df _.
    eapply framed_bind; [apply framed_lift|]. intros df' _.
    apply framed_alloc. }
  intros r1 Hr1.
  eapply framed_bind; [apply framed_lift|]. intros op' _.
  eapply (framed_bind _ _ _ (λ _, True)).
  { destruct (value_eqb op' (VStr "multiply")); [|by apply framed_ret].
    eapply framed_bind; [apply framed_load|]. intros df _.
    eapply framed_bind; [apply framed_lift|]. intros score _.
    eapply framed_bind; [apply framed_lift|]. intros other _.
    eapply framed_bind; [apply framed_lift|]. intros other_col _.
    eapply framed_bind; [apply framed_lift|]. intros product _.
    by apply framed_update. }
  intros _ _.
  eapply framed_bind; [apply framed_lift|]. intros op'' _.
  destruct (value_eqb op'' (VStr "sum")); [|by apply framed_ret].
  eapply framed_bind; [apply framed_load|]. intros df _.
  eapply framed_bind; [apply framed_lift|]. intros df' _.
  apply framed_alloc.
Qed.

Lemma aggregate_view_framed (h0 : store) (input_df : nat)
    (view_spec : BenchmarkViewConfig) :
  framed h0 (aggregate_view groupby_agg input_df view_spec)
         (λ r, next h0 ≤ r).
Proof.
  unfold aggregate_view.
  eapply framed_bind; [apply framed_load|]. intros df _.
  eapply framed_bind; [apply framed_alloc|]. intros r Hr. simpl in Hr.
  eapply (framed_bind _ _ _ (λ r, next h0 ≤ r)).
  { apply framed_foldMs; [|done].
    intros r' op _ Hr'. by apply apply_operation_framed. }
  intros r' Hr'.
  eapply framed_bind; [apply framed_load|]. intros df1 _.
  eapply framed_bind; [apply framed_lift|]. intros df2 _.
  eapply framed_bind; [by apply framed_update|]. intros _ _.
  by apply framed_ret.
Qed.
End view_frames.

Lemma generate_dataframe_views (ds : list dict) (ms : value)
    (vs vs' : list BenchmarkViewConfig) (systems : list dict) :
  generate_dataframe_from_sys_infos
    {| datasets := ds; metrics := ms; views := vs |} systems =
  generate_dataframe_from_sys_infos
    {| datasets := ds; metrics := ms; views := vs' |} systems.
Proof. done. Qed.

(** C9 on the code. [aggregate_view] works on a copy: whether it
    returns or raises, the frame that [input_df] names is afterwards
    what it was before. So, in [generate_view_dataframes], the frame
    [orig_df] still holds the table of the builder after any number of
    views have been aggregated from it; and when no view is itself
    named ["orig"], the ["orig"] entry of the result is that table, the
    one of the configuration without views. *)
Theorem aggregate_view_immutable
    (groupby_agg : agg → DataFrame → result DataFrame) :
  (∀ h input_df view_spec,
     input_df < next h →
     cell (aggregate_view groupby_agg input_df view_spec h).2 input_df
       = cell h input_df)
  ∧ (∀ h df vs res h',
       foldMs (add_view groupby_agg (next h)) [("orig", next h)] vs
              (alloc df h).2 = (res, h') →
       cell h' (next h) = df)
  ∧ (∀ ds ms vs systems h view_dfs h',
       generate_view_dataframes groupby_agg
         {| datasets := ds; metrics := ms; views := vs |} systems h
         = (Ok view_dfs, h') →
       Forall (λ v, name v ≠ "orig") vs →
       ∃ orig_df,
         pd_get String.eqb "orig" view_dfs = Some orig_df
         ∧ generate_dataframe_from_sys_infos
             {| datasets := ds; metrics := ms; views := [] |} systems
           = Ok (cell h' orig_df)
         ∧ ∀ r, r < next h → cell h' r = cell h r).
Proof.
  assert (∀ h df vs,
            framed (alloc df h).2
              (foldMs (add_view groupby_agg (next h)) [("orig", next h)] vs)
              (λ view_dfs,
                 Forall (λ v, name v ≠ "orig") vs →
                 pd_get String.eqb "orig" view_dfs = Some (next h)))
    as Hloop.
  { intros h df vs.
    assert (∀ (l : list BenchmarkViewConfig) (b : list (string * nat)),
              (Forall (λ v, name v ≠ "orig") vs →
               pd_get String.eqb "orig" b = Some (next h)) →
              (∀ v, v ∈ l → v ∈ vs) →
              framed (alloc df h).2
                (foldMs (add_view groupby_agg (next h)) b l)
                (λ view_dfs,
                   Forall (λ v, name v ≠ "orig") vs →
                   pd_get String.eqb "orig" view_dfs = Some (next h)))
      as Hgen.
    { induction l as [|v l IH]; intros b Hb Hsub; simpl.
      - by apply framed_ret.
      - eapply framed_bind.
        + unfold add_view. eapply framed_bind;
            [apply aggregate_view_framed|].
          intros r _. apply (framed_ret _ _ (λ b',
            Forall (λ v, name v ≠ "orig") vs →
            pd_get String.eqb "orig" b' = Some (next h))).
          intros Hvs.
          rewrite (pd_get_set String.eqb (λ _, True));
            [|intros a c _; apply String.eqb_eq|by apply Forall_forall|done].
          destruct (String.eqb (name v) "orig") eqn:E; [|by apply Hb].
          apply String.eqb_eq in E. rewrite Forall_forall in Hvs.
          destruct (Hvs v); [|done]. apply Hsub. by left.
        + intros b' Hb'. apply IH; [done|].
          intros v' Hv'. apply Hsub. by right. }
    apply Hgen; [|done]. by intros _. }
  split; [|split].
  - intros h input_df view_spec Hlt.
    destruct (aggregate_view_framed groupby_agg h input_df view_spec h
                (extends_refl h)) as [[_ Hcells] _].
    by apply Hcells.
  - intros h df vs res h' Hrun.
    destruct (Hloop h df vs (alloc df h).2 (extends_refl _)) as [[_ Hcells] _].
    rewrite Hrun in Hcells. simpl in Hcells.
    rewrite Hcells by lia. by rewrite bool_decide_eq_true_2.
  - intros ds ms vs systems h view_dfs h' Hrun Hvs.
    unfold generate_view_dataframes in Hrun. rewrite bind_lift in Hrun.
    rewrite (generate_dataframe_views ds ms vs []) in Hrun.
    destruct (generate_dataframe_from_sys_infos
                {| datasets := ds; metrics := ms; views := [] |} systems)
      as [df|e]; [|done].
    rewrite bind_alloc in Hrun. simpl views in Hrun.
    destruct (Hloop h df vs (alloc df h).2 (extends_refl _))
      as [[_ Hcells] Hdict].
    rewrite Hrun in Hcells, Hdict. simpl in Hcells, Hdict.
    exists (next h). split; [by apply Hdict|]. split.
    + rewrite Hcells by lia. by rewrite bool_decide_eq_true_2.
    + intros r Hr. rewrite Hcells by lia.
      rewrite bool_decide_eq_false_2; [done|lia].
Qed.

Lemma aggregate_view_immutable_witness :
  cell (aggregate_view (λ _ df, Ok df) 0
          {| name := "weighted";
             operations := [[("op", VStr "multiply");
                             ("other", VStr "score")]] |}
          (alloc demo_frame empty_store).2).2 0
  = cell (alloc demo_frame empty_store).2 0
  ∧ ∃ orig_df,
      pd_get String.eqb "orig" [("orig", 0); ("weighted", 1)] = Some orig_df
      ∧ generate_dataframe_from_sys_infos
          {| datasets := datasets sst2_config; metrics := metrics sst2_config;
             views := [] |} [sst2_system_full]
        = Ok (cell (generate_view_dataframes (λ _ df, Ok df)
                      weighted_view_config [sst2_system_full]
                      empty_store).2 orig_df)
      ∧ ∀ r, r < next empty_store →
          cell (generate_view_dataframes (λ _ df, Ok df)
                  weighted_view_config [sst2_system_full] empty_store).2 r
          = cell empty_store r.
Proof.
  split.
  - apply (proj1 (aggregate_view_immutable (λ _ df, Ok df))). simpl. lia.
  - apply (proj2 (proj2 (aggregate_view_immutable (λ _ df, Ok df)))
             (datasets sst2_config) (metrics sst2_config)
             (views weighted_view_config) [sst2_system_full] empty_store
             [("orig", 0); ("weighted", 1)]).
    + reflexivity.
    + by repeat constructor.
Defined.

(** C9 as stated fails in its last part: in [orig_view_config] a view
    is itself named ["orig"], and the ["orig"] entry of the result is the
    frame of that view, with an ["index"] column, not the table of the
    builder; with the same view under another name the entry is the
    table of the builder. *)
Lemma orig_entry_overwritten :
  ∃ df view_dfs h' view_dfs2 h2,
    generate_dataframe_from_sys_infos orig_view_config [sst2_system_full]
      = Ok df
    ∧ generate_view_dataframes (λ _ df, Ok df) orig_view_config
        [sst2_system_full] empty_store = (Ok view_dfs, h')
    ∧ (∃ r, pd_get String.eqb "orig" view_dfs = Some r ∧ cell h' r ≠ df)
    ∧ generate_view_dataframes (λ _ df, Ok df) weighted_view_config
        [sst2_system_full] empty_store = (Ok view_dfs2, h2)
    ∧ (∃ r, pd_get String.eqb "orig" view_dfs2 = Some r ∧ cell h2 r = df).
Proof.
  eexists.
  exists [("orig", 1)],
    (generate_view_dataframes (λ _ df, Ok df) orig_view_config
       [sst2_system_full] empty_store).2,
    [("orig", 0); ("weighted", 1)],
    (generate_view_dataframes (λ _ df, Ok df) weighted_view_config
       [sst2_system_full] empty_store).2.
  split; [reflexivity|]. split; [reflexivity|]. split.
  - exists 1. split; [reflexivity|]. discriminate.
  - split; [reflexivity|]. exists 0. split; reflexivity.
Qed.

(** ** The multiply operation *)

Lemma column_mul_nums (ss os : list float) :
  column_mul (VNum <$> ss) (VNum <$> os)
    = Ok (VNum <$> zip_with PrimFloat.mul ss os).
Proof.
  revert os. induction ss as [|s ss IH]; intros [|o os]; try done.
  rewrite !fmap_cons. simpl. by rewrite IH.
Qed.

(** C7. A [multiply] operation on the frame that [output_df] names.
    When the column that the operation names is absent, the operation
    raises a [KeyError], which is a [LookupError], and the store is as
    before. When it is there, with numbers in it and in [score], the
    operation returns, the frame keeps its index and its columns, the
    cells of [score] are the products of the former score and the other
    column, row by row, every other column is as before, and so is
    every other frame of the store. *)
Theorem multiply_operation
    (groupby_agg : agg → DataFrame → result DataFrame) (h : store)
    (output_df : nat) (operation : dict) (other : string) :
  dict_lookup "op" operation = Some (VStr "multiply") →
  dict_lookup "other" operation = Some (VStr other) →
  (pd_get String.eqb other (df_columns (cell h output_df)) = None →
   ∃ e, apply_operation groupby_agg output_df operation h = (Raise e, h)
        ∧ is_LookupError e = true)
  ∧ (∀ ss os,
       df_column (cell h output_df) "score" = Ok (VNum <$> ss) →
       df_column (cell h output_df) other = Ok (VNum <$> os) →
       ∃ h',
         apply_operation groupby_agg output_df operation h
           = (Ok output_df, h')
         ∧ df_index (cell h' output_df) = df_index (cell h output_df)
         ∧ (df_columns (cell h' output_df)).*1
           = (df_columns (cell h output_df)).*1
         ∧ df_column (cell h' output_df) "score"
           = Ok (VNum <$> zip_with PrimFloat.mul ss os)
         ∧ (∀ k, k ≠ "score" →
              df_column (cell h' output_df) k
              = df_column (cell h output_df) k)
         ∧ (∀ r, r ≠ output_df → cell h' r = cell h r)).
Proof.
  intros Hop Hother.
  assert (∀ (d : list (string * list value)) a b,
            String.eqb a b = true ↔ a = b) as Heqb
    by (intros _ a b; apply String.eqb_eq).
  split.
  - intros Habsent. exists KeyError. split; [|done].
    unfold apply_operation, py_getitem. rewrite Hop, Hother.
    repeat run_store.
    destruct (pd_get String.eqb "score" (df_columns (cell h output_df)));
      [|done].
    repeat run_store. by rewrite Habsent.
  - intros ss os Hscore%df_column_get Hcol%df_column_get.
    eexists. split.
    { unfold apply_operation, py_getitem. rewrite Hop, Hother.
      repeat run_store. rewrite Hscore. repeat run_store. rewrite Hcol.
      repeat run_store. rewrite column_mul_nums. repeat run_store.
      reflexivity. }
    simpl. rewrite bool_decide_eq_true_2 by done. simpl.
    split; [done|]. split.
    { rewrite pd_set_keys. unfold pd_mem. by rewrite Hscore. }
    split.
    { apply df_column_get. simpl.
      rewrite (pd_get_set String.eqb (λ _, True));
        [done|intros a b _; apply String.eqb_eq|by apply Forall_forall|done]. }
    split.
    { intros k Hk. unfold df_column, df_getitem. simpl.
      rewrite (pd_get_set String.eqb (λ _, True));
        [|intros a b _; apply String.eqb_eq|by apply Forall_forall|done].
      destruct (String.eqb "score" k) eqn:E; [|done].
      apply String.eqb_eq in E. by destruct Hk. }
    intros r Hr. by rewrite bool_decide_eq_false_2.
Qed.

Lemma multiply_operation_witness :
  ∃ h',
    apply_operation (λ _ df, Ok df) 0
      [("op", VStr "multiply"); ("other", VStr "score")]
      (alloc demo_frame empty_store).2 = (Ok 0, h')
    ∧ df_index (cell h' 0) = RangeIndex 4
    ∧ (df_columns (cell h' 0)).*1 = ["system_name"; "metric"; "score"]
    ∧ df_column (cell h' 0) "score"
      = Ok (VNum <$> zip_with PrimFloat.mul [0.8; 0.4; 0.6; 0.5]%float
                                            [0.8; 0.4; 0.6; 0.5]%float)
    ∧ (∀ k, k ≠ "score" → df_column (cell h' 0) k = df_column demo_frame k)
    ∧ (∀ r, r ≠ 0 → cell h' r = cell (alloc demo_frame empty_store).2 r).
Proof.
  apply (proj2 (multiply_operation (λ _ df, Ok df)
                  (alloc demo_frame empty_store).2 0
                  [("op", VStr "multiply"); ("other", VStr "score")]
                  "score" eq_refl eq_refl)
           [0.8; 0.4; 0.6; 0.5]%float [0.8; 0.4; 0.6; 0.5]%float);
    reflexivity.
Defined.

(** ** The leaderboard loop *)

Lemma existsb_eqb_elem_of (s : string) (ms : list string) :
  existsb (String.eqb s) ms = true ↔ s ∈ ms.
Proof.
  rewrite existsb_exists. split.
  - intros (x & Hx & ->%String.eqb_eq). by apply list_elem_of_In.
  - intros Hs. exists s. split; [by apply list_elem_of_In|].
    apply String.eqb_refl.
Qed.

Lemma existsb_value_eqb (s : string) (ms : list string) :
  existsb (value_eqb (VStr s)) (map VStr ms) = existsb (String.eqb s) ms.
Proof. induction ms as [|m ms IH]; simpl; [done|]. by rewrite IH. Qed.

Module ControllersFacts.
Import Controllers.

(** A weight is read from the table of its dimension, and is [1.0]
    for a value that the table does not list. *)
Lemma resolve_weight_spec (cfgs : dict) (dim : string) (k : value)
    (c w : dict) :
  dict_lookup dim cfgs = Some (VDict c) →
  dict_lookup "weights" c = Some (VDict w) →
  is_name k = true →
  resolve_weight cfgs dim k =
    Ok (match k with
        | VStr s => default (VNum 1) (dict_lookup s w)
        | _ => VNum 1
        end).
Proof.
  intros Hc Hw Hk.
  unfold resolve_weight, subscript_key, not_in_keys, subscript, py_getitem.
  rewrite Hc. simpl. rewrite Hw. simpl.
  rewrite (is_name_hashable k Hk).
  destruct k as [| |s| |]; try done. simpl. unfold pd_mem.
  fold (dict_lookup s w). by destruct (dict_lookup s w) as [v|] eqn:E.
Qed.

Section composer_facts.
Context {B : Type}.
Variable set_order : ∀ A : Type, list A → list A.
Hypothesis set_order_perm : ∀ (A : Type) (l : list A), set_order A l ≡ₚ l.
Variable from_dict : dict → result (LeaderboardRecord B).

Lemma sys_metrics_names (mcs : list value) (names : list string) :
  Forall2 (λ mc s, ∃ d, mc = VDict d
                        ∧ dict_lookup "name" d = Some (VStr s))
          mcs names →
  mapM (λ metric_config, subscript metric_config "name") mcs
    = Ok (VStr <$> names).
Proof.
  induction 1 as [|mc s mcs names (d & -> & Hd) _ IH]; [done|].
  rewrite mapM_cons, IH. simpl. unfold py_getitem. by rewrite Hd.
Qed.

(** The common metrics are the reported names that the record
    requires, each once, in some order. *)
Lemma common_metrics_spec (names : list string) (record : RecordConfig) :
  ∃ inter,
    common_metrics set_order (VStr <$> names) record = VStr <$> inter
    ∧ NoDup inter
    ∧ ∀ s, s ∈ inter ↔ s ∈ names ∧ s ∈ metrics record.
Proof.
  assert (common_metrics set_order (VStr <$> names) record
          ≡ₚ VStr <$>
               filter (λ s, existsb (String.eqb s) (metrics record))
                      (dedupe String.eqb names)) as Hperm.
  { unfold common_metrics. rewrite set_order_perm.
    rewrite (dedupe_fmap VStr String.eqb value_eqb) by done.
    rewrite (filter_fmap_list VStr
               (λ v, existsb (value_eqb v) (map VStr (metrics record)))).
    match goal with
    | |- ?a ≡ₚ ?b => assert (a = b) as ->; [|done]
    end.
    f_equal. apply list_filter_iff. intros s.
    by rewrite existsb_value_eqb. }
  apply fmap_Permutation_inv in Hperm as (inter & Heq & Hinter).
  exists inter. split; [done|]. split.
  - rewrite <- Hinter.
    apply NoDup_filter, (NoDup_dedupe String.eqb String.eqb_eq).
  - intros s. rewrite <- Hinter.
    rewrite list_elem_of_filter, Is_true_true,
      existsb_eqb_elem_of, (elem_of_dedupe String.eqb String.eqb_eq).
    tauto.
Qed.

(** The metrics map of a record: one entry per common metric, with
    the value of the system's overall results. *)
Lemma leaderboard_metrics_spec (sys_info : dict) (common : list string)
    (acc : list (value * value)) :
  NoDup common →
  (∀ s, s ∈ common → VStr s ∉ acc.*1) →
  (∀ s, s ∈ common → is_Some (overall_value sys_info s)) →
  ∃ lm, foldM (leaderboard_metric sys_info) acc (VStr <$> common) = Ok lm
    ∧ lm.*1 = acc.*1 ++ (VStr <$> common)
    ∧ ∀ k v, (k, v) ∈ lm →
        (k, v) ∈ acc
        ∨ ∃ s, k = VStr s ∧ s ∈ common
               ∧ overall_value sys_info s = Some v.
Proof.
  intros Hnd. revert acc.
  induction Hnd as [|s common Hs Hnd IH]; intros acc Hfresh Hval.
  - exists acc. rewrite app_nil_r. split; [done|]. split; [done|]. auto.
  - destruct (Hval s) as [v Hv]; [by left|].
    assert (leaderboard_metric sys_info acc (VStr s)
            = Ok (acc ++ [(VStr s, v)])) as Hstep.
    { unfold overall_value in Hv.
      unfold leaderboard_metric, overall_of, subscript_key, subscript,
        py_getitem in *.
      destruct (dict_lookup "results" sys_info) as [[| | | |results]|];
        try done. simpl in *.
      destruct (dict_lookup "overall" results) as [[| | | |overall]|];
        try done. simpl in *.
      destruct (dict_lookup s overall) as [[| | | |p]|]; try done.
      simpl in *. rewrite Hv. simpl. f_equal.
      apply pd_set_None.
      destruct (pd_get value_eqb (VStr s) acc) as [v'|] eqn:E; [|done].
      destruct (Hfresh s); [by left|].
      clear -E. induction acc as [|[k0 v0] acc IH]; simpl in *; [done|].
      destruct (value_eqb k0 (VStr s)) eqn:E0.
      - apply (value_eqb_name_r k0 (VStr s)) in E0 as ->; [|done].
        by left.
      - right. by apply IH. }
    destruct (IH (acc ++ [(VStr s, v)])) as (lm & Hlm & Hkeys & Hvals).
    + intros s' Hs'. rewrite fmap_app, elem_of_app. intros [Hin|Hin].
      * apply (Hfresh s'); [by right|done].
      * apply list_elem_of_singleton in Hin. injection Hin as ->. done.
    + intros s' Hs'. apply Hval. by right.
    + exists lm. rewrite fmap_cons. simpl. rewrite Hstep. simpl.
      split; [done|]. split.
      * rewrite Hkeys, fmap_app. simpl. by rewrite <- app_assoc.
      * intros k w [[Hin|Hin]%elem_of_app|(s' & -> & Hs' & Hw)]%Hvals.
        -- by left.
        -- apply list_elem_of_singleton in Hin. injection Hin as -> ->.
           right. exists s. split; [done|]. split; [by left|done].
        -- right. exists s'. split; [done|]. split; [by right|done].
Qed.

(** C8. The record invariant of the composer. For a system whose
    info lists its metric configurations by name, carries its task
    and languages, and has an overall result for every common
    metric, with the four weight tables in the configuration: no
    record is appended when no reported metric is required by the
    record configuration; otherwise one record is appended, whose
    metrics map has the common metrics as its keys, each once, with
    the values of the system's overall results. *)
Theorem add_system_record (bm_config : BenchmarkConfig)
    (record : RecordConfig) (leaderboard : list (LeaderboardRecord B))
    (sys_info : dict) (mcs : list value) (names : list string)
    (task_name target_language source_language : value)
    (base : LeaderboardRecord B) :
  dict_lookup "metric_configs" sys_info = Some (VList mcs) →
  Forall2 (λ mc s, ∃ d, mc = VDict d
                        ∧ dict_lookup "name" d = Some (VStr s))
          mcs names →
  dict_lookup "task_name" sys_info = Some task_name →
  dict_lookup "target_language" sys_info = Some target_language →
  dict_lookup "source_language" sys_info = Some source_language →
  is_name task_name = true → is_name target_language = true →
  is_name source_language = true → is_name (dataset_name record) = true →
  (∀ dim, dim ∈ ["dataset"; "task"; "target_language";
                  "source_language"] →
     weights_ok (aggregation_configs bm_config) dim) →
  (∀ s, s ∈ names → s ∈ metrics record →
     is_Some (overall_value sys_info s)) →
  from_dict sys_info = Ok base →
  ((¬ ∃ s, s ∈ names ∧ s ∈ metrics record) →
   add_system set_order from_dict bm_config record leaderboard sys_info
     = Ok leaderboard)
  ∧ ((∃ s, s ∈ names ∧ s ∈ metrics record) →
     ∃ rec,
       add_system set_order from_dict bm_config record leaderboard
         sys_info = Ok (leaderboard ++ [rec])
       ∧ NoDup (lr_metrics rec).*1
       ∧ (∀ k, k ∈ (lr_metrics rec).*1
            ↔ ∃ s, k = VStr s ∧ s ∈ names ∧ s ∈ metrics record)
       ∧ (∀ s v, (VStr s, v) ∈ lr_metrics rec →
            overall_value sys_info s = Some v)).
Proof.
  intros Hmcs Hnames Htask Htl Hsl Htaskn Htln Hsln Hdsn Hw Hval Hbase.
  destruct (common_metrics_spec names record)
    as (inter & Hcommon & Hnd & Hinter).
  unfold add_system, py_getitem. rewrite Hmcs. simpl.
  rewrite (sys_metrics_names mcs names Hnames). simpl.
  rewrite Htask, Htl, Hsl. simpl.
  assert (forallb hashable (VStr <$> names) = true) as ->.
  { apply forallb_Forall, Forall_fmap, Forall_forall. done. }
  simpl. rewrite Hcommon, length_fmap. split.
  - intros Hnone. destruct inter as [|s inter]; [done|].
    destruct Hnone. exists s. apply Hinter. by left.
  - intros (s0 & Hs0).
    rewrite bool_decide_eq_false_2.
    2:{ destruct inter; [|done].
        apply Hinter in Hs0. by apply elem_of_nil in Hs0. }
    destruct (leaderboard_metrics_spec sys_info inter [] Hnd)
      as (lm & -> & Hkeys & Hvals).
    { intros s _ H. by apply elem_of_nil in H. }
    { intros s Hs. apply Hinter in Hs as [? ?]. by apply Hval. }
    simpl. rewrite Hbase. simpl.
    destruct (Hw "dataset") as (c1 & w1 & Hc1 & Hw1);
      [repeat constructor|].
    destruct (Hw "task") as (c2 & w2 & Hc2 & Hw2); [repeat constructor|].
    destruct (Hw "target_language") as (c3 & w3 & Hc3 & Hw3);
      [repeat constructor|].
    destruct (Hw "source_language") as (c4 & w4 & Hc4 & Hw4);
      [repeat constructor|].
    rewrite (resolve_weight_spec _ _ _ c1 w1 Hc1 Hw1 Hdsn),
      (resolve_weight_spec _ _ _ c2 w2 Hc2 Hw2 Htaskn),
      (resolve_weight_spec _ _ _ c3 w3 Hc3 Hw3 Htln),
      (resolve_weight_spec _ _ _ c4 w4 Hc4 Hw4 Hsln).
    simpl. eexists. split; [done|]. simpl. rewrite Hkeys. simpl.
    split; [by apply (NoDup_fmap_2 _)|]. split.
    + intros k. rewrite list_elem_of_fmap. split.
      * intros (s & -> & Hs). exists s. split; [done|]. by apply Hinter.
      * intros (s & -> & Hs). exists s. split; [done|]. by apply Hinter.
    + intros s v [H|(s' & [= <-] & _ & Hv)]%Hvals; [|done].
      by apply elem_of_nil in H.
Qed.
End composer_facts.

Lemma add_system_record_witness :
  ((¬ ∃ s, s ∈ ["accuracy"; "bleu"] ∧ s ∈ metrics glue_record) →
   add_system (λ _ l, reverse l) keep_info glue_config glue_record []
     glue_system = Ok [])
  ∧ ((∃ s, s ∈ ["accuracy"; "bleu"] ∧ s ∈ metrics glue_record) →
     ∃ rec,
       add_system (λ _ l, reverse l) keep_info glue_config glue_record []
         glue_system = Ok ([] ++ [rec])
       ∧ NoDup (lr_metrics rec).*1
       ∧ (∀ k, k ∈ (lr_metrics rec).*1
            ↔ ∃ s, k = VStr s ∧ s ∈ ["accuracy"; "bleu"]
                   ∧ s ∈ metrics glue_record)
       ∧ (∀ s v, (VStr s, v) ∈ lr_metrics rec →
            overall_value glue_system s = Some v)).
Proof.
  apply (add_system_record (λ _ l, reverse l)
           (λ A l, reverse_Permutation l) keep_info glue_config glue_record
           [] glue_system
           [VDict [("name", VStr "accuracy")];
            VDict [("name", VStr "bleu")]]
           ["accuracy"; "bleu"]
           (VStr "text-classification") (VStr "en") (VStr "en")
           {| info := glue_system; lr_metrics := [];
              lr_metric_weights := VNone; lr_op_metric := VNone;
              dataset_weight := VNone; task_weight := VNone;
              target_language_weight := VNone;
              source_language_weight := VNone |});
    try reflexivity.
  - repeat constructor; by eexists.
  - intros dim Hdim.
    repeat (apply elem_of_cons in Hdim as [->|Hdim];
            [by do 2 eexists|]).
    by apply elem_of_nil in Hdim.
  - intros s Hs _.
    repeat (apply elem_of_cons in Hs as [->|Hs]; [by eexists|]).
    by apply elem_of_nil in Hs.
Defined.
End ControllersFacts.

(** * Further properties of the table builder *)

(** ** The columns of the table *)

Lemma pd_mem_elem_of {V : Type} (k : string) (d : list (string * V)) :
  pd_mem String.eqb k d = bool_decide (k ∈ d.*1).
Proof.
  unfold pd_mem. destruct (pd_get String.eqb k d) as [v|] eqn:E.
  - symmetry. apply bool_decide_eq_true.
    apply (pd_get_Some String.eqb (λ _, True)) in E.
    + apply list_elem_of_fmap. by exists (k, v).
    + intros a b _. apply String.eqb_eq.
    + by apply Forall_forall.
  - symmetry. apply bool_decide_eq_false.
    apply (pd_get_None String.eqb (λ _, True)) in E; [done| |].
    + intros a b _. apply String.eqb_eq.
    + by apply Forall_forall.
Qed.

Lemma pd_set_keys_dedupe {V : Type} (k : string) (v : V)
    (d : list (string * V)) (X : list string) :
  d.*1 = dedupe String.eqb X →
  (pd_set String.eqb k v d).*1 = dedupe String.eqb (X ++ [k]).
Proof.
  intros HX. rewrite pd_set_keys, pd_mem_elem_of, HX.
  rewrite (dedupe_snoc String.eqb String.eqb_eq).
  destruct (decide (k ∈ X)) as [Hk|Hk].
  - rewrite !bool_decide_eq_true_2; [done..|].
    by rewrite (elem_of_dedupe String.eqb String.eqb_eq).
  - rewrite !bool_decide_eq_false_2; [done..|].
    by rewrite (elem_of_dedupe String.eqb String.eqb_eq).
Qed.

Lemma add_dataset_keys_keys (ks : list string)
    (d : list (string * list value)) (X : list string) :
  d.*1 = dedupe String.eqb X →
  (fold_left add_dataset_key ks d).*1 =
    dedupe String.eqb (X ++ filter (λ k, k ∉ exclude_keys) ks).
Proof.
  intros HX. induction ks as [|k ks IH] using rev_ind; simpl.
  - by rewrite app_nil_r.
  - rewrite fold_left_app, filter_app. simpl. unfold add_dataset_key at 1.
    destruct (decide (k ∈ exclude_keys)) as [Hk|Hk].
    + rewrite (bool_decide_eq_true_2 _ Hk), orb_true_r. simpl.
      rewrite filter_cons_False by (by intros ?). simpl.
      by rewrite app_nil_r.
    + rewrite (bool_decide_eq_false_2 _ Hk), orb_false_r.
      rewrite filter_cons_True by done. rewrite filter_nil, app_assoc.
      destruct (pd_mem String.eqb k _) eqn:E; simpl.
      * rewrite (dedupe_snoc String.eqb String.eqb_eq).
        rewrite pd_mem_elem_of, IH in E. apply bool_decide_eq_true in E.
        rewrite (elem_of_dedupe String.eqb String.eqb_eq) in E.
        by rewrite (bool_decide_eq_true_2 _ E).
      * by apply pd_set_keys_dedupe.
Qed.

Lemma fold_left_concat_map {A B C : Type} (f : B → A → B) (h : C → list A)
    (ls : list C) (b : B) :
  fold_left (λ b x, fold_left f (h x) b) ls b
    = fold_left f (concat (map h ls)) b.
Proof.
  revert b. induction ls as [|l ls IH]; intros b; simpl; [done|].
  by rewrite fold_left_app, IH.
Qed.

Lemma df_input_init_columns (config : BenchmarkConfig) :
  (df_input_init config).*1 = builder_columns config.
Proof.
  unfold df_input_init, builder_columns.
  change ["metric"; "metric_weight"; "score"]
    with (["metric"] ++ ["metric_weight"] ++ ["score"]).
  rewrite !app_assoc.
  do 3 apply pd_set_keys_dedupe.
  rewrite (fold_left_concat_map add_dataset_key (map fst)).
  by apply add_dataset_keys_keys.
Qed.

(** The columns of the builder's table are fixed by the configuration
    alone: the four identity columns, the keys of the configured
    datasets other than ["metrics"] in the order in which they first
    occur, and the three metric columns. *)
Theorem builder_schema (config : BenchmarkConfig) (systems : list dict)
    (df : DataFrame) :
  generate_dataframe_from_sys_infos config systems = Ok df →
  (df_columns df).*1 = builder_columns config.
Proof.
  intros (idx & sdr & cds & _ & _ & _ & ->)%generate_inv. simpl.
  by rewrite pd_columns_keys, append_rows_keys, df_input_init_columns.
Qed.

Lemma builder_schema_witness :
  (df_columns mixed_table).*1 =
    ["system_name"; "dataset_name"; "sub_dataset_name"; "dataset_split";
     "task"; "language"; "metric"; "metric_weight"; "score"].
Proof.
  apply (builder_schema mixed_config mixed_systems).
  vm_compute. reflexivity.
Defined.

(** Without raw infos the builder returns the empty table with all its
    columns, whatever the metric lists are: the loop that would reject
    a dataset without metrics is never entered. *)
Theorem builder_no_systems (config : BenchmarkConfig)
    (idx : list (ident * nat)) :
  dataset_to_id config = Ok idx →
  ∃ df, generate_dataframe_from_sys_infos config [] = Ok df
    ∧ nrows df = 0
    ∧ (df_columns df).*1 = builder_columns config
    ∧ Forall (λ c, c.2 = []) (df_columns df).
Proof.
  intros Hidx. eexists. split.
  - by apply (generate_of_dicts config [] idx [] []).
  - split; [done|]. simpl.
    split; [by rewrite pd_columns_keys, df_input_init_columns|].
    eapply Forall_impl; [apply (pd_columns_len _ 0), df_input_init_len|].
    intros [k arr] Harr. simpl in *. by destruct arr.
Qed.

Lemma builder_no_systems_witness :
  ∃ df, generate_dataframe_from_sys_infos no_metrics_config [] = Ok df
    ∧ nrows df = 0
    ∧ (df_columns df).*1 = builder_columns no_metrics_config
    ∧ Forall (λ c, c.2 = []) (df_columns df).
Proof.
  apply (builder_no_systems no_metrics_config
           [((VStr "SST2", VNone, VStr "test"), 0);
            ((VStr "MNLI", VNone, VStr "test"), 1)]).
  reflexivity.
Defined.

(** ** Errors of the builder *)

Lemma concatM_raise {A B : Type} (g : A → result (list B))
    (pre post : list A) (a : A) (e : exn) :
  (∀ a', a' ∈ pre → ∃ x, g a' = Ok x) → g a = Raise e →
  concatM g (pre ++ a :: post) = Raise e.
Proof.
  intros Hpre Ha. induction pre as [|a' pre IH]; simpl.
  - by rewrite Ha.
  - destruct (Hpre a') as [x ->]; [by left|]. simpl.
    rewrite IH; [done|]. intros a'' Ha''. apply Hpre. by right.
Qed.

Lemma dataset_dicts_list_ok (config : BenchmarkConfig) (sys_name : value)
    (slot : dict * option dict) :
  metric_list_ok config slot.1 = true →
  (∀ si, slot.2 = Some si → results_ok si = true) →
  ∃ r, dataset_dicts config sys_name slot = Ok r
    ∧ length r = length (metric_descriptions config slot.1).
Proof.
  unfold metric_list_ok, metric_descriptions, dataset_dicts.
  destruct (effective_metrics config slot.1) as [| | |ms|]; try done.
  intros Hms Hres. simpl.
  by apply metric_dicts_ok.
Qed.

(** The slots of the grouping hold raw infos with a results map. *)
Lemma last_submission_results (config : BenchmarkConfig)
    (idx : list (ident * nat)) (systems : list dict) (s : string) (j : nat)
    (si : dict) :
  Forall (λ sys, sys_ok config sys = true) systems →
  last_submission idx s j systems None = Some si → results_ok si = true.
Proof.
  intros Hsys [?|[Hin _]]%last_submission_in; [done|].
  rewrite Forall_forall in Hsys. specialize (Hsys _ Hin).
  unfold sys_ok in Hsys. by apply andb_true_iff in Hsys as [_ ?].
Qed.

(** What the two outer stages of the builder produce on well-formed
    documents. *)
Lemma builder_grouping (config : BenchmarkConfig) (systems : list dict) :
  forallb dataset_ok (datasets config) = true →
  forallb (sys_ok config) systems = true →
  ∃ idx, dataset_to_id config = Ok idx
    ∧ system_dataset_results config idx systems
      = Ok (grouping_of config idx systems).
Proof.
  intros Hds%forallb_Forall Hsys%forallb_Forall.
  destruct (dataset_to_id_spec config Hds) as (idx & Hidx & _).
  destruct (system_dataset_results_ok config idx Hds Hidx systems Hsys)
    as (sdr & Hsdr & Hg).
  exists idx. split; [done|].
  by rewrite <- (grouped_unique _ _ _ _ Hg).
Qed.

Lemma dataset_ok_name (x : dict) :
  dataset_ok x = true → ∃ v, py_getitem x "dataset_name" = Ok v.
Proof.
  unfold dataset_ok, dataset_key.
  destruct (py_getitem x "dataset_name") as [v|]; [by exists v|done].
Qed.

(** A dataset without a metric list, neither its own nor a global one,
    makes the builder fail as soon as one system is there. The error is
    the [ValueError] of the source when the dataset has the entries
    ["sub_dataset_name"] and ["dataset_split"] that the message of the
    error reads, and the [KeyError] of that read otherwise. *)
Theorem builder_missing_metrics (config : BenchmarkConfig)
    (systems : list dict) (j : nat) (dataset : dict) :
  forallb dataset_ok (datasets config) = true →
  forallb (sys_ok config) systems = true →
  systems ≠ [] →
  datasets config !! j = Some dataset →
  effective_metrics config dataset = VNone →
  forallb (metric_list_ok config) (take j (datasets config)) = true →
  generate_dataframe_from_sys_infos config systems =
    Raise (if bool_decide (is_Some (dict_lookup "sub_dataset_name" dataset)
                           ∧ is_Some (dict_lookup "dataset_split" dataset))
           then ValueError else KeyError).
Proof.
  intros Hds Hsys Hne Hj Hnone Hpre.
  destruct (builder_grouping config systems Hds Hsys) as (idx & Hidx & Hsdr).
  apply forallb_Forall in Hds, Hsys, Hpre.
  rewrite generate_dataframe_dicts, Hidx. simpl. rewrite Hsdr. simpl.
  destruct systems as [|sys systems]; [done|].
  assert (∃ n, sys_name_of sys = Some n) as [n Hn].
  { apply Forall_cons in Hsys as [Hs _]. unfold sys_ok in Hs.
    apply andb_true_iff in Hs as [[Hs _]%andb_true_iff _].
    by apply bool_decide_eq_true in Hs as [n ?]; exists n. }
  unfold grouping_of.
  assert (omap sys_name_of (sys :: systems) = n :: omap sys_name_of systems)
    as -> by (simpl; by rewrite Hn).
  cbn [dedupe map].
  set (slots := map _ (seq 0 (length (datasets config)))).
  unfold all_dicts. cbn [concatM].
  assert (system_dicts config (VStr n, slots) =
            Raise (if bool_decide
                        (is_Some (dict_lookup "sub_dataset_name" dataset)
                         ∧ is_Some (dict_lookup "dataset_split" dataset))
                   then ValueError else KeyError)) as ->; [|done].
  unfold system_dicts. simpl.
  assert (length slots = length (datasets config)) as Hlen
    by (unfold slots; by rewrite length_map, length_seq).
  assert (j < length (datasets config)) as HjN by by eapply lookup_lt_Some.
  destruct (lookup_lt_is_Some_2 slots j) as [sj Hsj]; [lia|].
  assert (zip (datasets config) slots !! j = Some (dataset, sj)) as Hz.
  { apply lookup_zip_with_Some. by exists dataset, sj. }
  rewrite <- (take_drop_middle _ _ _ Hz).
  apply concatM_raise.
  - intros [d' s'] [i Hi]%list_elem_of_lookup.
    apply lookup_take_Some in Hi as [Hi Hij].
    apply lookup_zip_with_Some in Hi as (? & ? & [= <- <-] & Hd' & Hs').
    destruct (dataset_dicts_list_ok config (VStr n) (d', s')) as (r & -> & _);
      [| |by eexists]; simpl.
    + rewrite Forall_forall in Hpre. apply Hpre.
      apply list_elem_of_lookup. exists i. by apply lookup_take_Some.
    + intros si ->. unfold slots in Hs'.
      rewrite map_eq_fmap, list_lookup_fmap in Hs'.
      destruct (seq 0 (length (datasets config)) !! i) as [i'|]; [|done].
      simpl in Hs'. injection Hs' as Hs'.
      by eapply last_submission_results.
  - unfold dataset_dicts. simpl. rewrite Hnone. simpl.
    assert (dataset_ok dataset = true) as Hok.
    { rewrite Forall_forall in Hds. apply Hds.
      by eapply list_elem_of_lookup_2. }
    destruct (dataset_ok_name dataset Hok) as [v ->]. simpl.
    unfold py_getitem.
    destruct (dict_lookup "sub_dataset_name" dataset) as [a|];
      destruct (dict_lookup "dataset_split" dataset) as [b|]; done.
Qed.

Lemma builder_missing_metrics_witness :
  generate_dataframe_from_sys_infos no_metrics_config
    [info "A" "SST2" "test" 0.8] = Raise ValueError.
Proof.
  apply (builder_missing_metrics no_metrics_config
           [info "A" "SST2" "test" 0.8] 1
           [("dataset_name", VStr "MNLI"); ("sub_dataset_name", VNone);
            ("dataset_split", VStr "test")]);
    [reflexivity|reflexivity|discriminate|reflexivity..].
Defined.

(** A raw info that cannot be grouped stops the builder with a
    [KeyError], a [LookupError]: when the infos before it are
    well-formed and it has no ["system_name"], or lacks one of its
    identity fields, or names a dataset whose key is not in the
    index. No table is returned, whatever follows it. *)
Theorem builder_unlisted_system (config : BenchmarkConfig)
    (idx : list (ident * nat)) (pre post : list dict) (sys : dict) :
  forallb dataset_ok (datasets config) = true →
  forallb (sys_ok config) pre = true →
  dataset_to_id config = Ok idx →
  unlisted idx sys →
  generate_dataframe_from_sys_infos config (pre ++ sys :: post)
    = Raise KeyError.
Proof.
  intros Hds%forallb_Forall Hpre%forallb_Forall Hidx Hsys.
  destruct (system_dataset_results_ok config idx Hds Hidx pre Hpre)
    as (sdr & Hsdr & Hg).
  unfold generate_dataframe_from_sys_infos. rewrite Hidx. simpl.
  unfold system_dataset_results in *. rewrite foldM_app, Hsdr. simpl.
  assert (group_system config idx sdr sys = Raise KeyError) as ->; [|done].
  unfold group_system, py_getitem.
  destruct Hsys as [->|[[n Hn] Hkey]]; [done|].
  unfold sys_name_of in Hn.
  destruct (dict_lookup "system_name" sys) as [[| |s| |]|]; try done.
  simpl. destruct Hkey as [->|(k & -> & Hk)]; [done|]. simpl.
  by rewrite Hk.
Qed.

Lemma builder_unlisted_system_witness :
  generate_dataframe_from_sys_infos two_config
    ([info "A" "SST2" "test" 0.8] ++ info "B" "SST3" "test" 0.4
       :: [info "A" "MNLI" "test" 0.6]) = Raise KeyError.
Proof.
  apply (builder_unlisted_system two_config
           [((VStr "SST2", VNone, VStr "test"), 0);
            ((VStr "MNLI", VNone, VStr "test"), 1)]);
    [reflexivity|reflexivity|reflexivity|].
  right. split; [by eexists|]. right. by eexists.
Defined.

(** ** The layout of the rows *)

Lemma concatM_Forall2 {A B C : Type} (g : A → result (list B))
    (h : A → list C) (R : B → C → Prop) (l : list A) :
  (∀ a, a ∈ l → ∃ x, g a = Ok x ∧ Forall2 R x (h a)) →
  ∃ r, concatM g l = Ok r ∧ Forall2 R r (l ≫= h).
Proof.
  induction l as [|a l IH]; intros Hg; simpl.
  - exists []. split; [done|]. constructor.
  - destruct (Hg a) as (x & -> & Hx); [by left|].
    destruct IH as (r & -> & Hr); [intros a' Ha'; apply Hg; by right|].
    exists (x ++ r). split; [done|]. by apply Forall2_app.
Qed.

Lemma concatM_map {A A' B : Type} (g : A' → result (list B)) (F : A → A')
    (l : list A) :
  concatM g (map F l) = concatM (λ a, g (F a)) l.
Proof. induction l as [|a l IH]; simpl; [done|]. by rewrite IH. Qed.

Lemma zip_bind_fst {A B C : Type} (f : A → list C) (l : list A)
    (k : list B) :
  length k = length l → zip l k ≫= (λ p, f p.1) = l ≫= f.
Proof.
  revert k. induction l as [|a l IH]; intros [|b k] Hlen; simpl in *;
    try done.
  f_equal. apply IH. lia.
Qed.

Lemma bind_singleton_map {A B : Type} (f : A → B) (l : list A) :
  l ≫= (λ a, [f a]) = map f l.
Proof. induction l as [|a l IH]; simpl; [done|]. by f_equal. Qed.

Lemma length_bind_const {A B : Type} (f : A → list B) (l : list A) (c : nat) :
  (∀ a, a ∈ l → length (f a) = c) → length (l ≫= f) = length l * c.
Proof.
  induction l as [|a l IH]; intros Hf; [done|].
  rewrite bind_cons, length_app, Hf, IH; [simpl; lia| |by left].
  intros a' Ha'. apply Hf. by right.
Qed.

Lemma length_bind_sum {A B : Type} (f : A → list B) (l : list A) :
  length (l ≫= f) = sum_list (map (λ a, length (f a)) l).
Proof.
  induction l as [|a l IH]; [done|].
  rewrite bind_cons, length_app, IH. done.
Qed.

Lemma row_triples_length (config : BenchmarkConfig) (systems : list dict) :
  length (row_triples config systems)
    = length (system_names_in_order systems) * rows_per_system config.
Proof.
  unfold row_triples. apply length_bind_const. intros s _.
  rewrite length_bind_sum. unfold rows_per_system. f_equal.
  apply map_ext. intros dataset. cbv beta.
  by rewrite (bind_singleton_map (λ m, (s, dataset, m))), length_map.
Qed.

Lemma written_lookup_store (k k' : string) (v : value) (d : dict) :
  k' ∈ written_columns → k ∉ written_columns →
  dict_lookup k (dict_store k' v d) = dict_lookup k d.
Proof.
  intros Hk' Hk. rewrite dict_lookup_store.
  destruct (String.eqb k' k) eqn:E; [|done].
  apply String.eqb_eq in E as ->. done.
Qed.

Lemma metric_dicts_layout (n : nat) (sys_info : option dict) (cd : dict)
    (ms : list value) :
  forallb metric_ok ms = true →
  (∀ si, sys_info = Some si → results_ok si = true) →
  ∃ r, metric_dicts n sys_info cd ms = Ok r
    ∧ Forall2 (λ c m,
        (∃ d nm, m = VDict d ∧ dict_lookup "name" d = Some nm
                 ∧ dict_lookup "metric" c = Some nm)
        ∧ dict_lookup "system_name" c = dict_lookup "system_name" cd
        ∧ ∀ k, k ∉ written_columns → dict_lookup k c = dict_lookup k cd)
        r ms.
Proof.
  intros Hms Hres. revert cd.
  induction ms as [|m ms IH]; intros cd; simpl.
  - exists []. split; [done|]. constructor.
  - simpl in Hms. apply andb_true_iff in Hms as [Hm Hms].
    destruct (update_column_dict_ok n sys_info cd m Hm Hres) as [cd' Hcd'].
    rewrite Hcd'. simpl.
    apply update_column_dict_inv in Hcd'
      as (d & nm & score & -> & Hnm & _ & ->).
    set (cd' := dict_store "score" _ _).
    assert (dict_lookup "system_name" cd' = dict_lookup "system_name" cd)
      as Hname by (unfold cd'; by rewrite !dict_lookup_store).
    assert (∀ k, k ∉ written_columns →
              dict_lookup k cd' = dict_lookup k cd) as Hcd'.
    { intros k Hk. unfold cd'.
      rewrite !written_lookup_store; [done|..]; try done;
        unfold written_columns; repeat constructor. }
    destruct (IH Hms cd') as (r & -> & Hr). simpl.
    exists (cd' :: r). split; [done|]. constructor.
    + split; [|done]. exists d, nm. repeat split; [done|].
      unfold cd'. by rewrite !dict_lookup_store.
    + eapply Forall2_impl; [exact Hr|]. intros c m' (Hm' & Hn & Hk).
      split; [done|]. split; [by rewrite Hn|].
      intros k Hk'. rewrite (Hk k Hk'). by apply Hcd'.
Qed.

Lemma dataset_dicts_layout (config : BenchmarkConfig) (s : string)
    (slot : dict * option dict) :
  metric_list_ok config slot.1 = true →
  (∀ si, slot.2 = Some si → results_ok si = true) →
  ∃ r, dataset_dicts config (VStr s) slot = Ok r
    ∧ Forall2 column_dict_matches r
        (m ← metric_descriptions config slot.1; [(s, slot.1, m)]).
Proof.
  unfold metric_list_ok, metric_descriptions, dataset_dicts.
  destruct (effective_metrics config slot.1) as [| | |ms|]; try done.
  intros Hms Hres. simpl.
  destruct (metric_dicts_layout (length ms) slot.2
              (dict_store "system_name" (VStr s) slot.1) ms Hms Hres)
    as (r & -> & Hr).
  exists r. split; [done|].
  rewrite (bind_singleton_map (λ m, (s, slot.1, m))), map_eq_fmap.
  apply Forall2_fmap_r.
  eapply Forall2_impl; [exact Hr|]. intros c m (Hm & Hn & Hk).
  unfold column_dict_matches. split.
  - rewrite Hn, dict_lookup_store. by rewrite String.eqb_refl.
  - split; [done|]. intros k Hk'. rewrite (Hk k Hk').
    apply written_lookup_store; [|done]. by left.
Qed.

(** The states of [column_dict] that the builder goes through on
    well-formed documents, one per triple. *)
Lemma builder_layout (config : BenchmarkConfig) (systems : list dict) :
  forallb dataset_ok (datasets config) = true →
  forallb (metric_list_ok config) (datasets config) = true →
  forallb (sys_ok config) systems = true →
  ∃ idx cds,
    dataset_to_id config = Ok idx
    ∧ system_dataset_results config idx systems
      = Ok (grouping_of config idx systems)
    ∧ all_dicts config (grouping_of config idx systems) = Ok cds
    ∧ Forall2 column_dict_matches cds (row_triples config systems).
Proof.
  intros Hds Hms Hsys.
  destruct (builder_grouping config systems Hds Hsys) as (idx & Hidx & Hsdr).
  apply forallb_Forall in Hms, Hsys.
  exists idx. unfold all_dicts, grouping_of, row_triples.
  rewrite concatM_map.
  destruct (concatM_Forall2
    (λ s, system_dicts config
            (VStr s, map (λ j, last_submission idx s j systems None)
                         (seq 0 (length (datasets config)))))
    (λ s, dataset ← datasets config;
          m ← metric_descriptions config dataset; [(s, dataset, m)])
    column_dict_matches (system_names_in_order systems))
    as (cds & Hcds & Hall).
  - intros s _. unfold system_dicts. simpl.
    set (slots := map _ (seq 0 (length (datasets config)))).
    assert (length slots = length (datasets config)) as Hlen
      by (unfold slots; by rewrite length_map, length_seq).
    rewrite <- (zip_bind_fst
      (λ dataset, m ← metric_descriptions config dataset; [(s, dataset, m)])
      (datasets config) slots Hlen).
    apply concatM_Forall2. intros [dataset sys_info] [j Hj]%list_elem_of_lookup.
    apply lookup_zip_with_Some in Hj as (? & ? & [= <- <-] & Hd & Hs).
    apply (dataset_dicts_layout config s (dataset, sys_info)); simpl.
    + rewrite Forall_forall in Hms. apply Hms.
      by eapply list_elem_of_lookup_2.
    + intros si ->. unfold slots in Hs.
      rewrite map_eq_fmap, list_lookup_fmap in Hs.
      destruct (seq 0 (length (datasets config)) !! j) as [j'|]; [|done].
      simpl in Hs. injection Hs as Hs.
      by eapply last_submission_results.
  - by exists cds.
Qed.

(** The number of rows when the datasets have metric lists of different
    lengths: every system gets one row per dataset and metric of that
    dataset's effective list, its own list if it has one and the global
    list otherwise. *)
Theorem builder_row_total (config : BenchmarkConfig) (systems : list dict) :
  forallb dataset_ok (datasets config) = true →
  forallb (metric_list_ok config) (datasets config) = true →
  forallb (sys_ok config) systems = true →
  ∃ df, generate_dataframe_from_sys_infos config systems = Ok df
    ∧ nrows df = length (system_names_in_order systems)
                 * rows_per_system config
    ∧ cols_len (nrows df) (df_columns df).
Proof.
  intros Hds Hms Hsys.
  destruct (builder_layout config systems Hds Hms Hsys)
    as (idx & cds & Hidx & Hsdr & Hcds & Hall).
  eexists. split; [by apply (generate_of_dicts config systems idx (grouping_of config idx systems) cds)|].
  unfold nrows. simpl. split.
  - by rewrite (Forall2_length _ _ _ Hall), row_triples_length.
  - apply pd_columns_len, (append_rows_len cds _ 0), df_input_init_len.
Qed.

Lemma builder_row_total_witness :
  ∃ df, generate_dataframe_from_sys_infos mixed_config mixed_systems = Ok df
    ∧ nrows df = length (system_names_in_order mixed_systems)
                 * rows_per_system mixed_config
    ∧ cols_len (nrows df) (df_columns df).
Proof.
  apply (builder_row_total mixed_config mixed_systems);
    vm_compute; reflexivity.
Defined.

(** The rows of the table follow the three nested loops: system by
    system in the order in which the names are first seen, dataset by
    dataset in the order of the configuration, metric by metric in the
    order of the dataset's effective list. Each row carries the name of
    its system, the name of its metric and the entries of its dataset;
    under a label that the dataset does not have, or has with [None],
    the row holds [None] or [NaN]. *)
Theorem builder_row_layout (config : BenchmarkConfig)
    (systems : list dict) :
  forallb dataset_ok (datasets config) = true →
  forallb (metric_list_ok config) (datasets config) = true →
  forallb (sys_ok config) systems = true →
  ∃ df, generate_dataframe_from_sys_infos config systems = Ok df
    ∧ Forall2 (row_matches (builder_columns config)) (iterrows df)
              (row_triples config systems).
Proof.
  intros Hds Hms Hsys.
  destruct (builder_layout config systems Hds Hms Hsys)
    as (idx & cds & Hidx & Hsdr & Hcds & Hall).
  eexists. split; [by apply (generate_of_dicts config systems idx (grouping_of config idx systems) cds)|].
  rewrite iterrows_append_rows by apply df_input_init_len.
  rewrite map_eq_fmap. apply Forall2_fmap_l.
  eapply Forall2_impl; [exact Hall|].
  intros cd [[s dataset] m] (Hs & (d & nm & -> & Hnm & Hm) & Hk).
  unfold row_matches, compose.
  rewrite !dict_lookup_stored_row
    by (apply df_input_init_keys; repeat constructor).
  unfold py_get at 1 2. rewrite Hs, Hm.
  split; [by rewrite stored_cell_value|].
  split.
  { exists d, nm. repeat (split; [done|]). intros Hne.
    by rewrite stored_cell_value. }
  intros k Hk1 Hk2. rewrite dict_lookup_stored_row
    by by rewrite df_input_init_columns.
  assert (py_get cd k VNone = py_get dataset k VNone) as ->
    by (unfold py_get; by rewrite (Hk k Hk2)).
  destruct (py_get dataset k VNone) eqn:E;
    [|by rewrite stored_cell_value..].
  destruct (stored_cell_none cds k) as [->| ->]; [by left|by right].
Qed.

Lemma builder_row_layout_witness :
  ∃ df, generate_dataframe_from_sys_infos mixed_config mixed_systems = Ok df
    ∧ Forall2 (row_matches (builder_columns mixed_config)) (iterrows df)
              (row_triples mixed_config mixed_systems).
Proof.
  apply (builder_row_layout mixed_config mixed_systems);
    vm_compute; reflexivity.
Defined.

(** * Further properties of the views *)

Section view_facts.
Variable groupby_agg : agg → DataFrame → result DataFrame.

Lemma apply_operation_unknown (output_df : nat) (operation : dict)
    (h : store) :
  unknown_op operation →
  apply_operation groupby_agg output_df operation h = (Ok output_df, h).
Proof.
  intros (op & Hop & Hmean & Hmul & Hsum). unfold apply_operation, py_getitem.
  rewrite Hop. repeat run_store. rewrite Hmean. repeat run_store.
  rewrite Hmul. repeat run_store. by rewrite Hsum.
Qed.

Lemma foldMs_unknown (output_df : nat) (ops : list dict) (h : store) :
  Forall unknown_op ops →
  foldMs (apply_operation groupby_agg) output_df ops h = (Ok output_df, h).
Proof.
  induction 1 as [|op ops Hop _ IH]; simpl; [done|].
  unfold mbind, M_bind. by rewrite apply_operation_unknown.
Qed.

(** Operations that [aggregate_view] does not know are skipped without
    an error. With none but such operations, or none at all, the view
    of a frame with the default index and no column named ["index"] is
    a new frame: the columns of the input behind a first column
    ["index"] that numbers the rows, which [reset_index] adds. *)
Theorem aggregate_view_unknown_ops (h : store) (input_df : nat)
    (view_spec : BenchmarkViewConfig) (n : nat) :
  Forall unknown_op (operations view_spec) →
  df_index (cell h input_df) = RangeIndex n →
  pd_mem String.eqb "index" (df_columns (cell h input_df)) = false →
  ∃ h',
    aggregate_view groupby_agg input_df view_spec h = (Ok (next h), h')
    ∧ cell h' (next h) =
        {| df_index := RangeIndex n;
           df_columns :=
             ("index", map (λ i, VNum (float_of_nat i)) (seq 0 n))
               :: df_columns (cell h input_df) |}
    ∧ ∀ r, r ≠ next h → cell h' r = cell h r.
Proof.
  intros Hops Hidx Hcol. unfold aggregate_view.
  eexists. split.
  { repeat run_store.
    unfold mbind at 1, M_bind at 1. rewrite foldMs_unknown by done.
    repeat run_store. rewrite bool_decide_eq_true_2 by done.
    unfold reset_index. rewrite Hidx, Hcol, Hcol. repeat run_store.
    reflexivity. }
  simpl. split.
  - rewrite bool_decide_eq_true_2 by done.
    by rewrite length_map, length_seq.
  - intros r Hr. by rewrite !bool_decide_eq_false_2.
Qed.
End view_facts.

Lemma aggregate_view_unknown_ops_witness :
  ∃ h',
    aggregate_view (λ _ df, Ok df) 0 median_view demo_store
      = (Ok (next demo_store), h')
    ∧ cell h' (next demo_store) =
        {| df_index := RangeIndex 4;
           df_columns :=
             ("index", map (λ i, VNum (float_of_nat i)) (seq 0 4))
               :: df_columns (cell demo_store 0) |}
    ∧ ∀ r, r ≠ next demo_store → cell h' r = cell demo_store r.
Proof.
  apply (aggregate_view_unknown_ops (λ _ df, Ok df) demo_store 0
           median_view 4); [|reflexivity|reflexivity].
  repeat constructor. exists (VStr "median"). repeat split; reflexivity.
Defined.

(** ** The dictionary of views *)

Lemma add_views_keys (groupby_agg : agg → DataFrame → result DataFrame)
    (orig_df : nat) (vs : list BenchmarkViewConfig)
    (view_dfs res : list (string * nat)) (X : list string) (h h' : store) :
  view_dfs.*1 = dedupe String.eqb X →
  foldMs (add_view groupby_agg orig_df) view_dfs vs h = (Ok res, h') →
  res.*1 = dedupe String.eqb (X ++ map name vs).
Proof.
  revert view_dfs X h. induction vs as [|v vs IH]; intros view_dfs X h HX.
  - simpl. intros [= <- <-]. by rewrite app_nil_r.
  - cbn [foldMs map]. unfold mbind at 1, M_bind at 1.
    unfold add_view at 1. unfold mbind at 1, M_bind at 1.
    destruct (aggregate_view groupby_agg orig_df v h) as [[df|e] h1];
      [|done].
    simpl. intros Hres.
    rewrite (IH _ (X ++ [name v]) _ (pd_set_keys_dedupe _ _ _ _ HX) Hres).
    by rewrite <- app_assoc.
Qed.

(** The dictionary that [generate_view_dataframes] returns has the key
    ["orig"] first and then the names of the configured views in their
    order, every name once: a view whose name was used before, by
    another view or by the baseline, takes over that entry. *)
Theorem view_dataframes_keys
    (groupby_agg : agg → DataFrame → result DataFrame)
    (config : BenchmarkConfig) (systems : list dict) (h h' : store)
    (view_dfs : list (string * nat)) :
  generate_view_dataframes groupby_agg config systems h = (Ok view_dfs, h') →
  view_dfs.*1 = dedupe String.eqb ("orig" :: map name (views config)).
Proof.
  unfold generate_view_dataframes. rewrite bind_lift.
  destruct (generate_dataframe_from_sys_infos config systems) as [df|e];
    [|done].
  rewrite bind_alloc. intros Hres.
  by apply (add_views_keys _ _ _ [("orig", next h)] _ ["orig"] _ _ eq_refl)
    in Hres.
Qed.

Lemma view_dataframes_keys_witness :
  [("orig", 0); ("weighted", 3); ("plain", 2)].*1
    = dedupe String.eqb ("orig" :: map name (views three_views_config)).
Proof.
  apply (view_dataframes_keys (λ _ df, Ok df) three_views_config
           [sst2_system_full] empty_store
           (generate_view_dataframes (λ _ df, Ok df) three_views_config
              [sst2_system_full] empty_store).2).
  vm_compute. reflexivity.
Defined.

(** * Further properties of the table renderer *)

Section renderer_facts.
Variable py_repr : value → string.
Variable set_order : ∀ A : Type, list A → list A.
Hypothesis set_order_perm : ∀ (A : Type) (l : list A), set_order A l ≡ₚ l.

(** What [dataframe_to_table] returns on a well-formed frame: the two
    sets in the order of their iteration, and the matrix that the rows
    have filled. *)
Lemma dataframe_to_table_filled (input_df : DataFrame) :
  frame_ok input_df →
  ∃ names labels M,
    df_column input_df "system_name" = Ok names
    ∧ forallb is_str names = true
    ∧ mapM (_col_name py_repr (descriptor_names input_df))
           (iterrows input_df) = Ok labels
    ∧ dataframe_to_table py_repr set_order input_df
      = Ok {| system_names := py_set set_order value_eqb names;
              column_names := py_set set_order String.eqb labels;
              scores := M |}
    ∧ filled (py_set set_order value_eqb names)
             (py_set set_order String.eqb labels)
             (zip (iterrows input_df) labels) M.
Proof.
  intros (Hlen & (names & Hnames & Hstr) & (vals & Hvals & Hnum)).
  destruct (mapM_ok (_col_name py_repr (descriptor_names input_df))
              (iterrows input_df)) as (labels & Hlabels & Hll).
  { intros row (i & -> & _)%list_elem_of_fmap.
    apply (col_name_ok py_repr).
    intros e [_ He]%list_elem_of_filter. apply df_row_keys.
    by rewrite <- map_eq_fmap. }
  destruct (system_set_spec set_order set_order_perm names Hstr)
    as (HSLn & HSLnd & HSLin).
  set (SL := py_set set_order value_eqb names) in *.
  set (CL := py_set set_order String.eqb labels).
  assert (NoDup CL) as HCLnd
    by apply (py_set_NoDup set_order set_order_perm _ _ String.eqb_eq).
  assert (∀ c, c ∈ CL ↔ c ∈ labels) as HCLin
    by (intros c;
        apply (py_set_elem_of set_order set_order_perm _ _ _ String.eqb_eq)).
  destruct (foldM_total (fill_score (enumerate SL) (enumerate CL))
              (filled SL CL) (zip (iterrows input_df) labels) []
              (replicate (length (enumerate SL))
                         (replicate (length (enumerate CL)) 0%float)))
    as (M & HM & Hfilled).
  { intros pre [row lab] M' [i Hi]%list_elem_of_lookup HM'.
    apply lookup_zip_with_Some in Hi as (r & l & [= <- <-] & Hr & Hl).
    destruct (df_row_cell _ _ _ _ _ Hlen Hnames Hr) as (v & Hv & Hs).
    destruct (df_row_cell _ _ _ _ _ Hlen Hvals Hr) as (w & Hw & Hf).
    rewrite forallb_Forall, Forall_forall in Hstr, Hnum.
    pose proof (Hnum w (list_elem_of_lookup_2 _ _ _ Hw)) as Hw'.
    pose proof (list_elem_of_lookup_2 _ _ _ Hv) as Hvin.
    destruct w as [|f| | |]; try done.
    apply (filled_step SL CL HSLn HSLnd HCLnd pre M' row lab v f);
      try done.
    - by apply HSLin.
    - apply HCLin. by eapply list_elem_of_lookup_2. }
  { apply filled_init. }
  exists names, labels, M. repeat split; try done; try apply Hfilled.
  unfold dataframe_to_table. rewrite Hnames. simpl.
  assert (forallb hashable names = true) as ->.
  { apply forallb_Forall. apply forallb_Forall in Hstr.
    eapply Forall_impl; [exact Hstr|]. by intros []. }
  simpl. fold (descriptor_names input_df). rewrite Hlabels. simpl.
  fold SL CL. rewrite HM. simpl.
  by rewrite !enumerate_map_fst.
Qed.

(** The rendered table is a matrix: one row of scores per system name
    and one cell per column label in every row. The system names are
    the distinct values of the [system_name] column and the column
    labels the distinct labels of the rows, each once, in whatever
    order the two sets are iterated. *)
Theorem table_shape (input_df : DataFrame) :
  frame_ok input_df →
  ∃ tbl names labels,
    dataframe_to_table py_repr set_order input_df = Ok tbl
    ∧ df_column input_df "system_name" = Ok names
    ∧ mapM (_col_name py_repr (descriptor_names input_df))
           (iterrows input_df) = Ok labels
    ∧ length (scores tbl) = length (system_names tbl)
    ∧ Forall (λ row, length row = length (column_names tbl)) (scores tbl)
    ∧ NoDup (system_names tbl) ∧ NoDup (column_names tbl)
    ∧ (∀ v, v ∈ system_names tbl ↔ v ∈ names)
    ∧ (∀ c, c ∈ column_names tbl ↔ c ∈ labels).
Proof.
  intros Hok.
  destruct (dataframe_to_table_filled input_df Hok)
    as (names & labels & M & Hnames & Hstr & Hlabels & Htbl & Hfilled).
  destruct (system_set_spec set_order set_order_perm names Hstr)
    as (_ & HSLnd & HSLin).
  destruct Hfilled as (Hrows & Hcols & _).
  eexists _, names, labels. split; [exact Htbl|]. simpl.
  repeat split; try done.
  - apply (py_set_NoDup set_order set_order_perm _ _ String.eqb_eq).
  - by apply HSLin.
  - by apply HSLin.
  - by apply (py_set_elem_of set_order set_order_perm _ _ _ String.eqb_eq).
  - by apply (py_set_elem_of set_order set_order_perm _ _ _ String.eqb_eq).
Qed.
End renderer_facts.

Lemma table_shape_witness :
  ∃ tbl names labels,
    dataframe_to_table (λ _, "") (λ _ l, reverse l) demo_frame = Ok tbl
    ∧ df_column demo_frame "system_name" = Ok names
    ∧ mapM (_col_name (λ _, "") (descriptor_names demo_frame))
           (iterrows demo_frame) = Ok labels
    ∧ length (scores tbl) = length (system_names tbl)
    ∧ Forall (λ row, length row = length (column_names tbl)) (scores tbl)
    ∧ NoDup (system_names tbl) ∧ NoDup (column_names tbl)
    ∧ (∀ v, v ∈ system_names tbl ↔ v ∈ names)
    ∧ (∀ c, c ∈ column_names tbl ↔ c ∈ labels).
Proof.
  apply (table_shape (λ _, "") (λ _ l, reverse l)
           (λ A l, reverse_Permutation l) demo_frame).
  split; [by repeat constructor|].
  split; eexists; (split; [vm_compute; reflexivity|reflexivity]).
Defined.

(** The cell of a system and a label in a filled matrix. *)
Lemma table_cell_filled (SL : list value) (CL : list string)
    (its : list (dict * string)) (M : list (list float)) (s : value)
    (c : string) :
  Forall (λ v, is_name v = true) SL → NoDup SL → NoDup CL →
  filled SL CL its M →
  table_cell {| system_names := SL; column_names := CL; scores := M |} s c
    = match pd_get value_eqb s (enumerate SL),
            pd_get String.eqb c (enumerate CL) with
      | Some _, Some _ => Some (default 0%float (last_write s c its None))
      | _, _ => None
      end.
Proof.
  intros HSLn HSLnd HCLnd (_ & _ & Hcells). unfold table_cell. simpl.
  destruct (pd_get value_eqb s (enumerate SL)) as [i|] eqn:Ei; [|done].
  destruct (pd_get String.eqb c (enumerate CL)) as [j|] eqn:Ej; [|done].
  simpl.
  apply (pd_get_imap_Some value_eqb _ value_eqb_name (λ i, i)) in Ei
    as (i' & Hi & ->); [|done].
  apply (pd_get_imap_Some String.eqb (λ _, True)
           (λ a b _, String.eqb_eq a b) (λ i, i)) in Ej
    as (j' & Hj & ->); [|by apply Forall_forall].
  by apply Hcells.
Qed.

Lemma enumerate_get_Some (SL : list value) (s : value) :
  Forall (λ v, is_name v = true) SL →
  is_Some (pd_get value_eqb s (enumerate SL)) ↔ s ∈ SL.
Proof.
  intros HSL. rewrite <- not_eq_None_Some.
  rewrite (pd_get_None value_eqb _ value_eqb_name)
    by by rewrite enumerate_keys.
  rewrite enumerate_keys. split; [|by intros ? ?].
  intros Hnn. destruct (pd_get value_eqb s (enumerate SL)) as [i|] eqn:E.
  - apply (pd_get_imap_Some value_eqb _ value_eqb_name (λ i, i)) in E
      as (i' & Hi & _); [|done].
    by eapply list_elem_of_lookup_2.
  - apply (pd_get_None value_eqb _ value_eqb_name) in E;
      [|by rewrite enumerate_keys].
    rewrite enumerate_keys in E. by destruct Hnn.
Qed.

Lemma enumerate_get_Some_str (CL : list string) (c : string) :
  is_Some (pd_get String.eqb c (enumerate CL)) ↔ c ∈ CL.
Proof.
  rewrite <- not_eq_None_Some.
  rewrite (pd_get_None String.eqb (λ _, True) (λ a b _, String.eqb_eq a b))
    by by apply Forall_forall.
  rewrite enumerate_keys. split; [|by intros ? ?].
  intros Hnn. by destruct (decide (c ∈ CL)).
Qed.

(** The order in which Python iterates the two sets decides where a
    system and a label are placed in the table and nothing else: two
    runs of [dataframe_to_table] on one frame return the same system
    names and the same labels up to their order, and the same score in
    the cell of every system and label. *)
Theorem table_cells_order_independent (py_repr : value → string)
    (order1 order2 : ∀ A : Type, list A → list A) (input_df : DataFrame) :
  (∀ (A : Type) (l : list A), order1 A l ≡ₚ l) →
  (∀ (A : Type) (l : list A), order2 A l ≡ₚ l) →
  frame_ok input_df →
  ∃ tbl1 tbl2,
    dataframe_to_table py_repr order1 input_df = Ok tbl1
    ∧ dataframe_to_table py_repr order2 input_df = Ok tbl2
    ∧ system_names tbl1 ≡ₚ system_names tbl2
    ∧ column_names tbl1 ≡ₚ column_names tbl2
    ∧ ∀ s c, table_cell tbl1 s c = table_cell tbl2 s c.
Proof.
  intros Hperm1 Hperm2 Hok.
  destruct (dataframe_to_table_filled py_repr order1 Hperm1 input_df Hok)
    as (names & labels & M1 & Hnames & Hstr & Hlabels & Htbl1 & Hfilled1).
  destruct (dataframe_to_table_filled py_repr order2 Hperm2 input_df Hok)
    as (names' & labels' & M2 & Hnames' & _ & Hlabels' & Htbl2 & Hfilled2).
  rewrite Hnames in Hnames'. injection Hnames' as <-.
  rewrite Hlabels in Hlabels'. injection Hlabels' as <-.
  destruct (system_set_spec order1 Hperm1 names Hstr) as (Hn1 & Hnd1 & Hin1).
  destruct (system_set_spec order2 Hperm2 names Hstr) as (Hn2 & Hnd2 & Hin2).
  eexists _, _. split; [exact Htbl1|]. split; [exact Htbl2|]. simpl.
  split; [unfold py_set; by rewrite Hperm1, Hperm2|].
  split; [unfold py_set; by rewrite Hperm1, Hperm2|].
  intros s c.
  rewrite (table_cell_filled _ _ _ _ s c Hn1 Hnd1
             (py_set_NoDup order1 Hperm1 _ _ String.eqb_eq) Hfilled1).
  rewrite (table_cell_filled _ _ _ _ s c Hn2 Hnd2
             (py_set_NoDup order2 Hperm2 _ _ String.eqb_eq) Hfilled2).
  pose proof (enumerate_get_Some _ s Hn1) as Hs1.
  pose proof (enumerate_get_Some _ s Hn2) as Hs2.
  pose proof (enumerate_get_Some_str
                (py_set order1 String.eqb labels) c) as Hc1.
  pose proof (enumerate_get_Some_str
                (py_set order2 String.eqb labels) c) as Hc2.
  rewrite Hin1 in Hs1. rewrite Hin2 in Hs2.
  rewrite (py_set_elem_of order1 Hperm1 _ _ _ String.eqb_eq) in Hc1.
  rewrite (py_set_elem_of order2 Hperm2 _ _ _ String.eqb_eq) in Hc2.
  rewrite <- Hs2 in Hs1. rewrite <- Hc2 in Hc1.
  destruct (pd_get value_eqb s (enumerate (py_set order1 value_eqb names)))
    as [i1|], (pd_get value_eqb s (enumerate (py_set order2 value_eqb names)))
    as [i2|]; try done;
    try (by destruct (proj1 Hs1 (mk_is_Some _ _ eq_refl)));
    try (by destruct (proj2 Hs1 (mk_is_Some _ _ eq_refl))).
  destruct (pd_get String.eqb c (enumerate (py_set order1 String.eqb labels)))
    as [j1|], (pd_get String.eqb c (enumerate (py_set order2 String.eqb labels)))
    as [j2|]; try done;
    try (by destruct (proj1 Hc1 (mk_is_Some _ _ eq_refl)));
    try (by destruct (proj2 Hc1 (mk_is_Some _ _ eq_refl))).
Qed.

Lemma table_cells_order_independent_witness :
  ∃ tbl1 tbl2,
    dataframe_to_table (λ _, "") (λ _ l, l) demo_frame = Ok tbl1
    ∧ dataframe_to_table (λ _, "") (λ _ l, reverse l) demo_frame = Ok tbl2
    ∧ system_names tbl1 ≡ₚ system_names tbl2
    ∧ column_names tbl1 ≡ₚ column_names tbl2
    ∧ ∀ s c, table_cell tbl1 s c = table_cell tbl2 s c.
Proof.
  apply (table_cells_order_independent (λ _, "") (λ _ l, l)
           (λ _ l, reverse l) demo_frame).
  - done.
  - intros A l. apply reverse_Permutation.
  - split; [by repeat constructor|].
    split; eexists; (split; [vm_compute; reflexivity|reflexivity]).
Defined.

(** ** The empty label *)

Lemma concat_empty (sep : string) (parts : list string) :
  Forall (λ x, x ≠ "") parts →
  String.concat sep parts = "" ↔ parts = [].
Proof.
  intros Hne. split; [|by intros ->].
  destruct Hne as [|x parts Hx _]; [done|].
  destruct parts as [|y parts]; simpl; [done|].
  by destruct x.
Qed.

Lemma col_name_parts_nil (py_repr : value → string)
    (elem_names : list string) (row : dict) (parts : list string) :
  col_name_parts py_repr elem_names row = Ok parts →
  parts = [] ↔
  ∀ e v, e ∈ elem_names → dict_lookup e row = Some v → truthy v = false.
Proof.
  revert parts. induction elem_names as [|e names IH]; intros parts.
  - simpl. intros [= <-]. split; [|done]. by intros _ e v ?%elem_of_nil.
  - intros (v & q & Hv & Hq & ->)%col_name_parts_cons.
    specialize (IH q Hq). destruct (truthy v) eqn:Ht.
    + split; [done|]. intros Hall.
      specialize (Hall e v (list_elem_of_here _ _) Hv). congruence.
    + rewrite IH. split.
      * intros Hall e' v' [->|He']%elem_of_cons Hv'; [congruence|].
        by apply (Hall e').
      * intros Hall e' v' He'. apply Hall. by right.
Qed.

(** A row gets the empty label exactly when none of its descriptor
    columns holds a truthy value: the rows of a frame without
    descriptors, or with [None], [0] or [""] in all of them, share the
    one column [""] of the rendered table. *)
Theorem col_name_empty (py_repr : value → string)
    (elem_names : list string) (row : dict) (label : string) :
  _col_name py_repr elem_names row = Ok label →
  label = "" ↔
  ∀ e v, e ∈ elem_names → dict_lookup e row = Some v → truthy v = false.
Proof.
  intros (parts & Hparts & [= <-])%bind_Ok.
  rewrite <- (col_name_parts_nil py_repr elem_names row parts Hparts).
  apply concat_empty. apply Forall_forall. intros x Hx.
  destruct (col_name_parts_elem py_repr _ _ _ _ Hparts Hx)
    as (e & v & _ & _ & _ & ->).
  destruct e; [done|]. done.
Qed.

Lemma col_name_empty_witness :
  "" = "" ↔
  ∀ e v, e ∈ ["a"; "b"] →
    dict_lookup e [("system_name", VStr "A"); ("a", VNum 0); ("b", VStr "");
                   ("score", VNum 1)] = Some v →
    truthy v = false.
Proof.
  apply (col_name_empty (λ _, "") ["a"; "b"]
           [("system_name", VStr "A"); ("a", VNum 0); ("b", VStr "");
            ("score", VNum 1)] "").
  vm_compute. reflexivity.
Defined.

(** * From the raw infos to the rendered table *)

Lemma metric_num_ok_ok (m : value) : metric_num_ok m = true → metric_ok m = true.
Proof. unfold metric_num_ok. by intros [? _]%andb_true_iff. Qed.

Lemma metric_list_num_ok_ok (config : BenchmarkConfig) (dataset : dict) :
  metric_list_num_ok config dataset = true →
  metric_list_ok config dataset = true.
Proof.
  unfold metric_list_num_ok, metric_list_ok.
  destruct (effective_metrics config dataset); try done.
  rewrite !forallb_Forall. intros H. eapply Forall_impl; [exact H|].
  intros m. apply metric_num_ok_ok.
Qed.

(** The score of a metric is a number when the defaults and the
    submitted values are. *)
Lemma metric_score_num (sys_info : option dict) (m score : value) :
  metric_num_ok m = true →
  (∀ si, sys_info = Some si → results_num_ok si = true) →
  metric_score sys_info m = Ok score → is_num score = true.
Proof.
  unfold metric_num_ok. intros [Hok Hdef]%andb_true_iff Hres.
  destruct m as [| | | |d]; try done.
  assert (∀ v, attr_get (VDict d) "default" (VNum 0) = Ok v →
            is_num v = true) as Hdefault.
  { simpl. intros v [= <-]. unfold py_get.
    by destruct (dict_lookup "default" d). }
  unfold metric_score. destruct sys_info as [si|]; [|by apply Hdefault].
  specialize (Hres si eq_refl). unfold results_num_ok in Hres.
  unfold subscript, py_getitem.
  destruct (dict_lookup "results" si) as [[| | | |results]|]; try done.
  simpl.
  destruct (dict_lookup "overall" results) as [[| | | |overall]|]; try done.
  simpl. destruct (dict_lookup "name" d) as [nm|]; [|done]. simpl.
  assert (∀ s, performance_num_ok (py_get overall s VNone) = true) as Hperf.
  { intros s. unfold py_get, dict_lookup.
    induction overall as [|[k p] o IH]; simpl; [done|].
    simpl in Hres. apply andb_true_iff in Hres as [Hp Ho].
    destruct (String.eqb k s); [done|by apply IH]. }
  assert (∀ p, performance_num_ok p = true →
            (if truthy p
             then match p with
                  | VDict d0 =>
                      match dict_lookup "value" d0 with
                      | Some v0 => Ok v0
                      | None => Raise KeyError
                      end
                  | _ => Raise TypeError
                  end
             else attr_get (VDict d) "default" (VNum 0)) = Ok score →
            is_num score = true) as Hp.
  { intros p. unfold performance_num_ok.
    destruct (truthy p); simpl; [|intros _; by apply Hdefault].
    destruct p as [| | | |pd]; try done.
    destruct (dict_lookup "value" pd) as [v|]; [|done].
    by intros Hv [= <-]. }
  destruct (hashable nm) eqn:Hh; [|done].
  destruct nm as [| |s| |]; simpl; try done;
    try (by apply (Hp VNone)).
  apply Hp, Hperf.
Qed.

Lemma df_column_append_rows (cds : list dict)
    (df : list (string * list value)) (k : string) :
  cols_len 0 df → k ∈ df.*1 →
  df_column {| df_index := RangeIndex (length cds);
               df_columns := pd_columns (append_rows cds df) |} k
    = Ok (pd_column (map (λ cd, py_get cd k VNone) cds)).
Proof.
  intros Hlen Hk. unfold df_column, df_getitem, pd_columns. simpl.
  rewrite append_rows_cols, map_map.
  induction Hlen as [|[k' arr] df Harr Hdf IH]; simpl.
  - by apply elem_of_nil in Hk.
  - destruct (String.eqb k' k) eqn:E.
    + apply String.eqb_eq in E as ->. simpl in Harr. by destruct arr.
    + apply IH. rewrite fmap_cons in Hk.
      apply elem_of_cons in Hk as [->|Hk]; [|done].
      simpl in E. by rewrite String.eqb_refl in E.
Qed.

(** Every state of [column_dict] that leaves a row has a numeric
    score, when the defaults and the submitted values are numbers. *)
Lemma builder_scores_numeric (config : BenchmarkConfig)
    (idx : list (ident * nat)) (systems : list dict) (cds : list dict) :
  forallb (metric_list_num_ok config) (datasets config) = true →
  forallb (sys_num_ok config) systems = true →
  all_dicts config (grouping_of config idx systems) = Ok cds →
  Forall (λ cd, is_num (py_get cd "score" VNone) = true) cds.
Proof.
  intros Hms%forallb_Forall Hsys%forallb_Forall Hcds.
  apply Forall_forall. intros cd Hcd.
  destruct (concatM_elem _ _ _ _ Hcds Hcd)
    as (i & [sys_name slots] & xs & Hi & Hxs & Hcdx).
  unfold system_dicts in Hxs. simpl in Hxs.
  destruct (concatM_elem _ _ _ _ Hxs Hcdx)
    as (j & [dataset sys_info] & xd & Hj & Hxd & Hcdd).
  apply lookup_zip_with_Some in Hj as (d0 & o & [= <- <-] & Hdj & Hsj).
  unfold grouping_of in Hi. rewrite map_eq_fmap, list_lookup_fmap in Hi.
  destruct (dedupe String.eqb (omap sys_name_of systems) !! i) as [s|];
    [|done].
  simpl in Hi. injection Hi as <- <-.
  rewrite map_eq_fmap, list_lookup_fmap in Hsj.
  destruct (seq 0 (length (datasets config)) !! j) as [j'|]; [|done].
  simpl in Hsj. injection Hsj as Hsj.
  assert (∀ si, sys_info = Some si → results_num_ok si = true) as Hres.
  { intros si ->.
    apply last_submission_in in Hsj as [?|[Hin _]]; [done|].
    rewrite Forall_forall in Hsys. specialize (Hsys _ Hin).
    unfold sys_num_ok in Hsys. by apply andb_true_iff in Hsys as [_ ?]. }
  rewrite Forall_forall in Hms.
  specialize (Hms dataset (list_elem_of_lookup_2 _ _ _ Hdj)).
  unfold metric_list_num_ok in Hms.
  unfold dataset_dicts in Hxd. simpl in Hxd.
  destruct (effective_metrics config dataset) as [| | |ms|]; try done.
  simpl in Hxd.
  destruct (metric_dicts_elem (λ _, True) _ _ _ _ _ _
              (λ _ _ _ _ _, I) I Hxd Hcdd) as (t & m & cd0 & Ht & _ & Hup).
  pose proof Hup as (d & nm & score & -> & _ & Hscore & ->)%update_column_dict_inv.
  unfold py_get. rewrite dict_lookup_store. simpl.
  apply (metric_score_num sys_info (VDict d) score); [|done..].
  rewrite forallb_Forall, Forall_forall in Hms. apply Hms.
  by eapply list_elem_of_lookup_2.
Qed.

Lemma sum_list_pos {A : Type} (f : A → nat) (l : list A) :
  0 < sum_list (map f l) → ∃ x, x ∈ l ∧ 0 < f x.
Proof.
  induction l as [|a l IH]; simpl; [lia|]. intros H.
  destruct (decide (0 < f a)) as [Ha|Ha].
  - exists a. split; [by left|done].
  - destruct IH as (x & Hx & Hfx); [lia|]. exists x. split; [by right|done].
Qed.

Lemma row_triples_systems (config : BenchmarkConfig) (systems : list dict)
    (s : string) :
  0 < rows_per_system config →
  s ∈ map (λ t : string * dict * value, t.1.1) (row_triples config systems)
  ↔ s ∈ system_names_in_order systems.
Proof.
  intros Hpos. rewrite map_eq_fmap, list_elem_of_fmap. unfold row_triples.
  split.
  - intros ([[s' dataset] m] & -> & Ht). simpl.
    apply list_elem_of_bind in Ht as (s'' & Ht & Hs'').
    apply list_elem_of_bind in Ht as (dataset' & Ht & _).
    apply list_elem_of_bind in Ht as (m' & Ht & _).
    apply list_elem_of_singleton in Ht. by injection Ht as -> _ _.
  - intros Hs.
    destruct (sum_list_pos _ _ Hpos) as (dataset & Hd & Hlen).
    destruct (metric_descriptions config dataset) as [|m ms] eqn:E;
      [simpl in Hlen; lia|].
    exists (s, dataset, m). split; [done|].
    apply list_elem_of_bind. exists s. split; [|done].
    apply list_elem_of_bind. exists dataset. split; [|done].
    apply list_elem_of_bind. exists m. split; [by left|].
    rewrite E. by left.
Qed.

Section pipeline.
Variable py_repr : value → string.
Variable set_order : ∀ A : Type, list A → list A.
Hypothesis set_order_perm : ∀ (A : Type) (l : list A), set_order A l ≡ₚ l.

(** Building the table and rendering it go together: for well-formed
    documents whose defaults and submitted values are numbers, the
    builder's table is rendered without an error, and when the
    configuration yields at least one row per system the rendered
    table has exactly one row of scores for every system name of the
    raw infos. *)
Theorem builder_table_renders (config : BenchmarkConfig)
    (systems : list dict) :
  forallb dataset_ok (datasets config) = true →
  forallb (metric_list_num_ok config) (datasets config) = true →
  forallb (sys_num_ok config) systems = true →
  0 < rows_per_system config →
  ∃ df tbl,
    generate_dataframe_from_sys_infos config systems = Ok df
    ∧ dataframe_to_table py_repr set_order df = Ok tbl
    ∧ system_names tbl ≡ₚ VStr <$> system_names_in_order systems
    ∧ length (scores tbl) = length (system_names_in_order systems).
Proof.
  intros Hds Hms Hsys Hpos.
  assert (forallb (metric_list_ok config) (datasets config) = true) as Hms'.
  { rewrite forallb_Forall in Hms |- *. eapply Forall_impl; [exact Hms|].
    intros d. apply metric_list_num_ok_ok. }
  assert (forallb (sys_ok config) systems = true) as Hsys'.
  { rewrite forallb_Forall in Hsys |- *. eapply Forall_impl; [exact Hsys|].
    intros s. unfold sys_num_ok. by intros [? _]%andb_true_iff. }
  destruct (builder_layout config systems Hds Hms' Hsys')
    as (idx & cds & Hidx & Hsdr & Hcds & Hall).
  pose proof (builder_scores_numeric config idx systems cds Hms Hsys Hcds)
    as Hnum.
  set (df := {| df_index := RangeIndex (length cds);
                df_columns :=
                  pd_columns (append_rows cds (df_input_init config)) |}).
  assert (pd_column (map (λ cd, py_get cd "score" VNone) cds)
          = map (λ cd, py_get cd "score" VNone) cds) as Hscores.
  { apply pd_column_id. rewrite map_eq_fmap. apply Forall_fmap.
    eapply Forall_impl; [exact Hnum|]. intros cd Hcd. simpl in *.
    by destruct (py_get cd "score" VNone). }
  assert (map (λ cd, py_get cd "system_name" VNone) cds
          = VStr <$> map (λ t : string * dict * value, t.1.1)
                         (row_triples config systems)) as Hnames.
  { rewrite !map_eq_fmap, <- list_fmap_compose.
    clear -Hall. induction Hall as [|cd [[s d] m] cds ts Hcd _ IH]; [done|].
    rewrite !fmap_cons, IH. f_equal.
    destruct Hcd as (Hs & _). unfold py_get. by rewrite Hs. }
  assert (pd_column (map (λ cd, py_get cd "system_name" VNone) cds)
          = map (λ cd, py_get cd "system_name" VNone) cds) as Hsystems.
  { apply pd_column_id. rewrite Hnames. apply Forall_fmap.
    by apply Forall_forall. }
  assert (frame_ok df) as Hok.
  { split; [apply pd_columns_len, (append_rows_len cds _ 0),
              df_input_init_len|].
    split.
    - eexists. split.
      + apply df_column_append_rows; [apply df_input_init_len|].
        apply df_input_init_keys. repeat constructor.
      + rewrite Hsystems, Hnames. apply forallb_Forall, Forall_fmap.
        by apply Forall_forall.
    - eexists. split.
      + apply df_column_append_rows; [apply df_input_init_len|].
        apply df_input_init_keys. repeat constructor.
      + rewrite Hscores. apply forallb_Forall. rewrite map_eq_fmap.
        by apply Forall_fmap. }
  destruct (dataframe_to_table_filled py_repr set_order set_order_perm df Hok)
    as (names & labels & M & Hcol & Hstr & Hlabels & Htbl & Hfilled).
  unfold df in Hcol.
  rewrite (df_column_append_rows cds _ "system_name") in Hcol;
    [|apply df_input_init_len|apply df_input_init_keys; repeat constructor].
  rewrite Hsystems in Hcol. injection Hcol as <-.
  assert (py_set set_order value_eqb
            (map (λ cd, py_get cd "system_name" VNone) cds)
          ≡ₚ VStr <$> system_names_in_order systems) as Hperm.
  { unfold py_set. rewrite set_order_perm, Hnames.
    rewrite (dedupe_fmap VStr String.eqb value_eqb) by done.
    apply fmap_Permutation, NoDup_Permutation.
    - apply (NoDup_dedupe String.eqb String.eqb_eq).
    - apply (NoDup_dedupe String.eqb String.eqb_eq).
    - intros s. rewrite (elem_of_dedupe String.eqb String.eqb_eq).
      by apply row_triples_systems. }
  exists df, {| system_names := py_set set_order value_eqb
                  (map (λ cd, py_get cd "system_name" VNone) cds);
                column_names := py_set set_order String.eqb labels;
                scores := M |}.
  split; [by apply (generate_of_dicts config systems idx
                      (grouping_of config idx systems) cds)|].
  split; [done|]. split; [done|]. simpl.
  destruct Hfilled as (-> & _). rewrite Hperm. by rewrite length_fmap.
Qed.
End pipeline.

Lemma builder_table_renders_witness :
  ∃ df tbl,
    generate_dataframe_from_sys_infos mixed_config mixed_systems = Ok df
    ∧ dataframe_to_table (λ _, "") (λ _ l, reverse l) df = Ok tbl
    ∧ system_names tbl ≡ₚ VStr <$> system_names_in_order mixed_systems
    ∧ length (scores tbl) = length (system_names_in_order mixed_systems).
Proof.
  apply (builder_table_renders (λ _, "") (λ _ l, reverse l)
           (λ A l, reverse_Permutation l) mixed_config mixed_systems);
    [vm_compute; reflexivity..|].
  vm_compute. lia.
Defined.

(** * The rows, their submissions and their scores *)

(** ** Datasets indexed under their identity *)

Lemma ident_eqb_refl (k : ident) : ident_name k = true → ident_eqb k k = true.
Proof. intros Hk. by apply ident_eqb_name. Qed.

Lemma distinct_datasets_lookup (ds : list dict) (j j' : nat) (x y : dict) :
  distinct_datasets ds = true →
  ds !! j = Some x → ds !! j' = Some y → j < j' → same_key x y = false.
Proof.
  revert j j'. induction ds as [|z ds IH]; intros j j' Hd Hx Hy Hlt;
    [done|].
  simpl in Hd. apply andb_true_iff in Hd as [Hz Hd].
  destruct j' as [|j']; [lia|]. destruct j as [|j]; simpl in *.
  - injection Hx as ->. rewrite forallb_Forall, Forall_forall in Hz.
    apply negb_true_iff, Hz. by eapply list_elem_of_lookup_2.
  - apply (IH j j'); [done..|lia].
Qed.

(** With distinct index keys, the index maps the key of every dataset
    to the position of that dataset. *)
Lemma index_position (config : BenchmarkConfig) (idx : list (ident * nat))
    (j : nat) (x : dict) (k : ident) :
  Forall (λ x, dataset_ok x = true) (datasets config) →
  distinct_datasets (datasets config) = true →
  dataset_to_id config = Ok idx →
  datasets config !! j = Some x → dataset_key x = Ok k →
  pd_get ident_eqb k idx = Some j.
Proof.
  intros Hds Hdist Hidx Hx Hk.
  destruct (dataset_to_id_spec config Hds) as (idx' & Hidx' & Hget).
  rewrite Hidx in Hidx'. injection Hidx' as <-. rewrite Hget.
  assert (ident_name k = true) as Hname.
  { rewrite Forall_forall in Hds.
    assert (dataset_ok x = true) as Hok
      by (apply Hds; by eapply list_elem_of_lookup_2).
    unfold dataset_ok in Hok. by rewrite Hk in Hok. }
  apply (last_index_last k 0 _ None j x k Hx Hk); [by apply ident_eqb_refl|].
  intros j' y ky Hj' Hy Hky.
  pose proof (distinct_datasets_lookup _ _ _ _ _ Hdist Hx Hy Hj') as Hsame.
  unfold same_key in Hsame. rewrite Hk, Hky in Hsame.
  destruct (ident_eqb ky k) eqn:E; [|done].
  rewrite Forall_forall in Hds.
  assert (dataset_ok y = true) as Hok
    by (apply Hds; by eapply list_elem_of_lookup_2).
  unfold dataset_ok in Hok. rewrite Hky in Hok.
  apply (ident_eqb_name ky k Hok) in E as ->.
  by rewrite ident_eqb_refl in Hsame.
Qed.

Lemma indexed_by_identity_key (x : dict) :
  dataset_ok x = true → indexed_by_identity x = true →
  ∃ k, dataset_key x = Ok k ∧ dataset_identity x = Ok k
       ∧ ident_name k = true.
Proof.
  unfold dataset_ok, indexed_by_identity.
  destruct (dataset_key x) as [k|]; [|done].
  destruct (dataset_identity x) as [k'|]; [|done].
  intros Hk E. apply (ident_eqb_name k k' Hk) in E as <-. by exists k.
Qed.

(** For a dataset that is indexed under its identity, the slot of a
    system at the position of the dataset holds the system's last
    submission with that identity. *)
Lemma submits_to_submitted (config : BenchmarkConfig)
    (idx : list (ident * nat)) (s : string) (j : nat) (dataset sys : dict) :
  Forall (λ x, dataset_ok x = true) (datasets config) →
  distinct_datasets (datasets config) = true →
  dataset_to_id config = Ok idx →
  datasets config !! j = Some dataset →
  indexed_by_identity dataset = true →
  sys_ok config sys = true →
  submits_to idx s j sys = submitted_to s dataset sys.
Proof.
  intros Hds Hdist Hidx Hj Hind Hsys.
  assert (dataset_ok dataset = true) as Hok.
  { rewrite Forall_forall in Hds. apply Hds. by eapply list_elem_of_lookup_2. }
  destruct (indexed_by_identity_key dataset Hok Hind)
    as (kd & Hkd & Hid & Hkdn).
  destruct (sys_ok_inv config idx Hds Hidx sys Hsys)
    as (n & k & j0 & Hn & _ & Hk & Hj0 & _ & _).
  unfold submits_to, submitted_to. rewrite Hk, Hid. f_equal.
  pose proof (index_position config idx j dataset kd Hds Hdist Hidx Hj Hkd)
    as Hpos.
  assert (ident_name k = true) as Hkn.
  { unfold sys_ok, resolves in Hsys. rewrite Hk in Hsys.
    apply andb_true_iff in Hsys as [[_ Hr]%andb_true_iff _].
    by apply andb_true_iff in Hr as [? _]. }
  destruct (ident_eqb k kd) eqn:E.
  - apply (ident_eqb_name k kd Hkn) in E as ->.
    by apply bool_decide_eq_true.
  - apply bool_decide_eq_false. intros Hkj.
    pose proof (dataset_to_id_inj config idx k kd j Hds Hidx Hkj Hpos) as ->.
    by rewrite ident_eqb_refl in E.
Qed.

Lemma last_submission_for (config : BenchmarkConfig)
    (idx : list (ident * nat)) (s : string) (j : nat) (dataset : dict)
    (systems : list dict) (found : option dict) :
  Forall (λ x, dataset_ok x = true) (datasets config) →
  distinct_datasets (datasets config) = true →
  dataset_to_id config = Ok idx →
  datasets config !! j = Some dataset →
  indexed_by_identity dataset = true →
  Forall (λ sys, sys_ok config sys = true) systems →
  last_submission idx s j systems found
    = submission_for s dataset systems found.
Proof.
  intros Hds Hdist Hidx Hj Hind Hsys. revert found.
  induction Hsys as [|sys systems Hs _ IH]; intros found; simpl; [done|].
  rewrite (submits_to_submitted config idx s j dataset sys); [|done..].
  apply IH.
Qed.

(** ** The score of a row *)

Lemma metric_score_expected (sys_info : option dict) (d : dict)
    (nm : string) (score : value) :
  dict_lookup "name" d = Some (VStr nm) →
  (∀ si, sys_info = Some si → results_ok si = true) →
  metric_score sys_info (VDict d) = Ok score →
  expected_score sys_info d = Some score.
Proof.
  intros Hnm Hres. unfold metric_score, expected_score.
  destruct sys_info as [si|]; [|by intros [= <-]].
  specialize (Hres si eq_refl). unfold results_ok in Hres.
  unfold overall_of, subscript, py_getitem.
  destruct (dict_lookup "results" si) as [[| | | |results]|]; try done.
  simpl.
  destruct (dict_lookup "overall" results) as [[| | | |overall]|]; try done.
  simpl. rewrite Hnm. simpl.
  destruct (dict_lookup nm overall) as [p|] eqn:E.
  2:{ assert (py_get overall nm VNone = VNone) as ->
        by (unfold py_get; by rewrite E).
      simpl. by intros [= <-]. }
  assert (py_get overall nm VNone = p) as ->
    by (unfold py_get; by rewrite E).
  destruct p as [|f|s|l|p]; simpl.
  - by intros [= <-].
  - by destruct (negb _); [|intros [= <-]].
  - by destruct (negb _); [|intros [= <-]].
  - by destruct (negb _); [|intros [= <-]].
  - destruct (negb _); [|by intros [= <-]].
    by destruct (dict_lookup "value" p); [intros [= <-]|].
Qed.

(** ** The layout of the rows, with their scores *)

Lemma metric_plain_ok (m : value) : metric_plain m = true → metric_ok m = true.
Proof.
  destruct m as [| | | |d]; try done. unfold metric_plain, metric_ok.
  by destruct (dict_lookup "name" d) as [[| |s| |]|].
Qed.

Lemma metric_plain_name (m : value) :
  metric_plain m = true →
  ∃ d nm, m = VDict d ∧ dict_lookup "name" d = Some (VStr nm).
Proof.
  destruct m as [| | | |d]; try done. unfold metric_plain.
  destruct (dict_lookup "name" d) as [[| |s| |]|] eqn:E; try done.
  intros _. by exists d, s.
Qed.

Lemma metric_list_plain_ok (config : BenchmarkConfig) (dataset : dict) :
  metric_list_plain config dataset = true →
  metric_list_ok config dataset = true.
Proof.
  unfold metric_list_plain, metric_list_ok.
  destruct (effective_metrics config dataset); try done.
  rewrite !forallb_Forall. intros H. eapply Forall_impl; [exact H|].
  intros m. apply metric_plain_ok.
Qed.

Lemma metric_dicts_scored (n : nat) (sys_info : option dict) (cd : dict)
    (ms : list value) :
  forallb metric_plain ms = true →
  (∀ si, sys_info = Some si → results_ok si = true) →
  ∃ r, metric_dicts n sys_info cd ms = Ok r
    ∧ Forall2 (λ c m,
        dict_lookup "system_name" c = dict_lookup "system_name" cd
        ∧ (∀ k, k ∉ written_columns → dict_lookup k c = dict_lookup k cd)
        ∧ ∃ d nm,
            m = VDict d ∧ dict_lookup "name" d = Some (VStr nm)
            ∧ dict_lookup "metric" c = Some (VStr nm)
            ∧ dict_lookup "metric_weight" c
              = Some (py_get d "weight" (VNum (1 / float_of_nat n)))
            ∧ ∃ score, dict_lookup "score" c = Some score
                       ∧ expected_score sys_info d = Some score) r ms.
Proof.
  intros Hms Hres. revert cd.
  induction ms as [|m ms IH]; intros cd; simpl.
  - exists []. split; [done|]. constructor.
  - simpl in Hms. apply andb_true_iff in Hms as [Hm Hms].
    destruct (update_column_dict_ok n sys_info cd m
                (metric_plain_ok m Hm) Hres) as [cd' Hcd'].
    rewrite Hcd'. simpl.
    apply update_column_dict_inv in Hcd'
      as (d & nm & score & -> & Hnm & Hscore & ->).
    destruct (metric_plain_name _ Hm) as (d' & s & [= <-] & Hs).
    rewrite Hs in Hnm. injection Hnm as <-.
    apply (metric_score_expected sys_info d s score Hs Hres) in Hscore.
    set (cd' := dict_store "score" _ _).
    assert (dict_lookup "system_name" cd' = dict_lookup "system_name" cd)
      as Hname by (unfold cd'; by rewrite !dict_lookup_store).
    assert (∀ k, k ∉ written_columns →
              dict_lookup k cd' = dict_lookup k cd) as Hcd'.
    { intros k Hk. unfold cd'.
      rewrite !written_lookup_store; [done|..]; try done;
        unfold written_columns; repeat constructor. }
    destruct (IH Hms cd') as (r & -> & Hr). simpl.
    exists (cd' :: r). split; [done|]. constructor.
    + split; [done|]. split; [done|]. exists d, s.
      unfold cd'. rewrite !dict_lookup_store. simpl.
      repeat (split; [done|]). by exists score.
    + eapply Forall2_impl; [exact Hr|]. intros c m' (Hn & Hk & Hm').
      split; [by rewrite Hn|]. split; [|done].
      intros k Hk'. rewrite (Hk k Hk'). by apply Hcd'.
Qed.

Lemma dataset_dicts_scored (config : BenchmarkConfig) (systems : list dict)
    (s : string) (slot : dict * option dict) :
  metric_list_plain config slot.1 = true →
  (∀ si, slot.2 = Some si → results_ok si = true) →
  slot.2 = submission_for s slot.1 systems None →
  ∃ r, dataset_dicts config (VStr s) slot = Ok r
    ∧ Forall2 (column_dict_scored config systems) r
        (m ← metric_descriptions config slot.1; [(s, slot.1, m)]).
Proof.
  unfold metric_list_plain, metric_descriptions, dataset_dicts.
  destruct (effective_metrics config slot.1) as [| | |ms|] eqn:Ems;
    try done.
  intros Hms Hres Hslot. simpl.
  destruct (metric_dicts_scored (length ms) slot.2
              (dict_store "system_name" (VStr s) slot.1) ms Hms Hres)
    as (r & -> & Hr).
  exists r. split; [done|].
  rewrite (bind_singleton_map (λ m, (s, slot.1, m))), map_eq_fmap.
  apply Forall2_fmap_r.
  eapply Forall2_impl; [exact Hr|]. intros c m (Hn & Hk & Hm).
  unfold compose, column_dict_scored, metric_descriptions.
  rewrite Ems, <- Hslot. split.
  - rewrite Hn, dict_lookup_store. by rewrite String.eqb_refl.
  - split; [|done]. intros k Hk'. rewrite (Hk k Hk').
    apply written_lookup_store; [|done]. by left.
Qed.

(** The states of [column_dict] that the builder goes through on
    well-formed documents whose datasets are indexed under their
    distinct identities. *)
Lemma builder_scored_layout (config : BenchmarkConfig)
    (systems : list dict) :
  forallb dataset_ok (datasets config) = true →
  forallb indexed_by_identity (datasets config) = true →
  distinct_datasets (datasets config) = true →
  forallb (metric_list_plain config) (datasets config) = true →
  forallb (sys_ok config) systems = true →
  ∃ idx cds,
    dataset_to_id config = Ok idx
    ∧ system_dataset_results config idx systems
      = Ok (grouping_of config idx systems)
    ∧ all_dicts config (grouping_of config idx systems) = Ok cds
    ∧ Forall2 (column_dict_scored config systems) cds
              (row_triples config systems).
Proof.
  intros Hds Hind Hdist Hms Hsys.
  destruct (builder_grouping config systems Hds Hsys) as (idx & Hidx & Hsdr).
  apply forallb_Forall in Hds, Hind, Hms, Hsys.
  exists idx. unfold all_dicts, grouping_of, row_triples.
  rewrite concatM_map.
  destruct (concatM_Forall2
    (λ s, system_dicts config
            (VStr s, map (λ j, last_submission idx s j systems None)
                         (seq 0 (length (datasets config)))))
    (λ s, dataset ← datasets config;
          m ← metric_descriptions config dataset; [(s, dataset, m)])
    (column_dict_scored config systems) (system_names_in_order systems))
    as (cds & Hcds & Hall).
  - intros s _. unfold system_dicts. simpl.
    set (slots := map _ (seq 0 (length (datasets config)))).
    assert (length slots = length (datasets config)) as Hlen
      by (unfold slots; by rewrite length_map, length_seq).
    rewrite <- (zip_bind_fst
      (λ dataset, m ← metric_descriptions config dataset; [(s, dataset, m)])
      (datasets config) slots Hlen).
    apply concatM_Forall2.
    intros [dataset sys_info] [j Hj]%list_elem_of_lookup.
    apply lookup_zip_with_Some in Hj as (? & ? & [= <- <-] & Hd & Hs).
    unfold slots in Hs. rewrite map_eq_fmap, list_lookup_fmap in Hs.
    rewrite lookup_seq_lt in Hs by (by eapply lookup_lt_Some).
    simpl in Hs. injection Hs as Hs.
    pose proof (list_elem_of_lookup_2 _ _ _ Hd) as Hin.
    rewrite Forall_forall in Hind, Hms.
    apply (dataset_dicts_scored config systems s (dataset, sys_info)); simpl.
    + by apply Hms.
    + intros si ->. by eapply last_submission_results.
    + rewrite <- Hs.
      apply (last_submission_for config idx s j dataset systems None);
        try done. by apply Hind.
  - by exists cds.
Qed.

Lemma row_triples_elem (config : BenchmarkConfig) (systems : list dict)
    (s : string) (dataset : dict) (m : value) :
  (s, dataset, m) ∈ row_triples config systems
  ↔ s ∈ system_names_in_order systems ∧ dataset ∈ datasets config
    ∧ m ∈ metric_descriptions config dataset.
Proof.
  unfold row_triples. rewrite list_elem_of_bind. split.
  - intros (s' & Ht & Hs).
    apply list_elem_of_bind in Ht as (dataset' & Ht & Hd).
    apply list_elem_of_bind in Ht as (m' & Ht & Hm).
    apply list_elem_of_singleton in Ht. by injection Ht as -> -> ->.
  - intros (Hs & Hd & Hm). exists s. split; [|done].
    apply list_elem_of_bind. exists dataset. split; [|done].
    apply list_elem_of_bind. exists m. split; [|done].
    by apply list_elem_of_singleton.
Qed.

Lemma sys_num_ok_ok (config : BenchmarkConfig) (systems : list dict) :
  forallb (sys_num_ok config) systems = true →
  forallb (sys_ok config) systems = true.
Proof.
  rewrite !forallb_Forall. intros H. eapply Forall_impl; [exact H|].
  intros sys. unfold sys_num_ok. by intros [? _]%andb_true_iff.
Qed.

Lemma metric_plain_num_ok (m : value) :
  metric_plain m = true → metric_num_ok m = true.
Proof.
  intros Hm. unfold metric_num_ok. rewrite (metric_plain_ok m Hm). simpl.
  destruct m as [| | | |d]; try done. unfold metric_plain in Hm.
  by apply andb_true_iff in Hm as [_ ?].
Qed.

Lemma metric_list_plain_num_ok (config : BenchmarkConfig) (dataset : dict) :
  metric_list_plain config dataset = true →
  metric_list_num_ok config dataset = true.
Proof.
  unfold metric_list_plain, metric_list_num_ok.
  destruct (effective_metrics config dataset); try done.
  rewrite !forallb_Forall. intros H. eapply Forall_impl; [exact H|].
  intros m. apply metric_plain_num_ok.
Qed.

(** The identity entries of a dataset that is indexed under its
    identity are names. *)
Lemma identity_entry_name (x : dict) (k : string) :
  dataset_ok x = true → indexed_by_identity x = true →
  k ∈ ["dataset_name"; "sub_dataset_name"; "dataset_split"] →
  is_name (py_get x k VNone) = true.
Proof.
  intros Hok Hind Hk.
  destruct (indexed_by_identity_key x Hok Hind) as (kd & _ & Hid & Hname).
  unfold dataset_identity, py_getitem in Hid.
  destruct (dict_lookup "dataset_name" x) as [n|] eqn:En; [|done].
  simpl in Hid. injection Hid as <-.
  unfold ident_name in Hname. simpl in Hname.
  apply andb_true_iff in Hname as [[Hn Hsub]%andb_true_iff Hsplit].
  apply elem_of_cons in Hk as [->|Hk]; [unfold py_get; by rewrite En|].
  apply elem_of_cons in Hk as [->|Hk]; [done|].
  apply list_elem_of_singleton in Hk as ->. unfold py_get in *.
  by destruct (dict_lookup "dataset_split" x).
Qed.

(** The rows of the table, read off the states of [column_dict]: the
    cells that the rows are stated with are strings, numbers, or
    [None] in a column without numbers, and are stored as they are. *)
Lemma builder_scored_rows (config : BenchmarkConfig)
    (systems : list dict) :
  forallb dataset_ok (datasets config) = true →
  forallb indexed_by_identity (datasets config) = true →
  distinct_datasets (datasets config) = true →
  forallb (metric_list_plain config) (datasets config) = true →
  forallb (sys_num_ok config) systems = true →
  ∃ df, generate_dataframe_from_sys_infos config systems = Ok df
    ∧ Forall2 (scored_row config systems) (iterrows df)
              (row_triples config systems).
Proof.
  intros Hds Hind Hdist Hms Hnum.
  pose proof (sys_num_ok_ok _ _ Hnum) as Hsys.
  destruct (builder_scored_layout config systems Hds Hind Hdist Hms Hsys)
    as (idx & cds & Hidx & Hsdr & Hcds & Hall).
  assert (Forall (λ cd, is_num (py_get cd "score" VNone) = true) cds)
    as Hscores.
  { apply (builder_scores_numeric config idx systems cds); [|done..].
    rewrite forallb_Forall in Hms |- *. eapply Forall_impl; [exact Hms|].
    intros d. apply metric_list_plain_num_ok. }
  apply forallb_Forall in Hds, Hind, Hms.
  rewrite Forall_forall in Hds, Hind, Hms.
  assert (∀ k, k ∈ ["dataset_name"; "sub_dataset_name"; "dataset_split"] →
            k ∉ written_columns) as Hnotwritten.
  { intros k Hin Hw. unfold written_columns in Hw.
    repeat (apply elem_of_cons in Hin as [->|Hin];
            [by repeat (apply elem_of_cons in Hw as [?|Hw]; [done|]);
                apply elem_of_nil in Hw|]).
    by apply elem_of_nil in Hin. }
  assert (∀ k, k ∈ ["dataset_name"; "sub_dataset_name"; "dataset_split"] →
            Forall (λ cd, match py_get cd k VNone with
                          | VNum _ => False
                          | _ => True
                          end) cds) as Hnames.
  { intros k Hk. apply Forall_lookup_2. intros i cd Hcd.
    destruct (Forall2_lookup_l _ _ _ _ _ Hall Hcd)
      as ([[s dataset] m] & Ht & _ & Hkeep & _).
    apply list_elem_of_lookup_2, row_triples_elem in Ht as (_ & Hd & _).
    unfold py_get. rewrite (Hkeep k (Hnotwritten k Hk)).
    pose proof (identity_entry_name dataset k (Hds _ Hd) (Hind _ Hd) Hk)
      as Hname.
    unfold py_get in Hname.
    by destruct (dict_lookup k dataset) as [[| | | |]|]. }
  eexists. split; [by apply (generate_of_dicts config systems idx
                               (grouping_of config idx systems) cds)|].
  rewrite iterrows_append_rows by apply df_input_init_len.
  rewrite map_eq_fmap. apply Forall2_fmap_l.
  apply Forall2_same_length_lookup_2; [by eapply Forall2_length|].
  intros i cd [[s dataset] m] Hcd Ht.
  destruct (Forall2_lookup_lr _ _ _ _ _ _ Hall Hcd Ht)
    as (Hs & Hk & (d & nm & -> & Hnm & Hm & Hw & score & Hsome & Hsc)).
  apply list_elem_of_lookup_2, row_triples_elem in Ht as (_ & Hd & Hmd).
  unfold scored_row, compose.
  assert (∀ k, k ∈ ["dataset_name"; "sub_dataset_name"; "dataset_split"] →
            dict_lookup k (stored_row (df_input_init config).*1 cds cd)
            = Some (py_get dataset k VNone)) as Hid.
  { intros k Hin. rewrite dict_lookup_stored_row.
    - rewrite stored_cell_object by by apply Hnames.
      unfold py_get. by rewrite (Hk k (Hnotwritten k Hin)).
    - rewrite df_input_init_columns. unfold builder_columns.
      apply (elem_of_dedupe String.eqb String.eqb_eq).
      apply elem_of_app. left.
      by repeat (apply elem_of_cons in Hin as [->|Hin];
                 [repeat constructor|]); apply elem_of_nil in Hin. }
  assert (∀ k v, k ∈ written_columns → dict_lookup k cd = Some v →
            v ≠ VNone →
            dict_lookup k (stored_row (df_input_init config).*1 cds cd)
            = Some v) as Hwr.
  { intros k v Hin Hv Hne. rewrite dict_lookup_stored_row.
    - unfold py_get. by rewrite Hv, stored_cell_value.
    - by apply df_input_init_keys. }
  split; [apply Hwr; [repeat constructor|done..]|].
  split; [apply Hid; repeat constructor|].
  split; [apply Hid; repeat constructor|].
  split; [apply Hid; repeat constructor|].
  exists d, nm. split; [done|]. split; [done|].
  split; [apply Hwr; [repeat constructor|done..]|].
  split.
  { apply Hwr; [repeat constructor|done|].
    specialize (Hms _ Hd). unfold metric_list_plain in Hms.
    unfold metric_descriptions in Hmd.
    destruct (effective_metrics config dataset) as [| | |ms|]; try done.
    rewrite forallb_Forall, Forall_forall in Hms.
    specialize (Hms _ Hmd). unfold metric_plain in Hms.
    apply andb_true_iff in Hms as [[_ Hweight]%andb_true_iff _].
    unfold py_get. destruct (dict_lookup "weight" d) as [[| | | |]|]; done. }
  exists score. split; [|done]. apply Hwr; [repeat constructor|done|].
  rewrite Forall_forall in Hscores.
  specialize (Hscores cd (list_elem_of_lookup_2 _ _ _ Hcd)).
  unfold py_get in Hscores. rewrite Hsome in Hscores. by destruct score.
Qed.

(** C4 on the code. For a configuration whose datasets are indexed
    under their identities, these being names and pairwise distinct,
    whose metric descriptions carry a string for a name and numbers for
    the weight and the default they give, and for raw infos that resolve
    and whose results entries are empty or hold a number for a value,
    the builder returns a table whose rows are, in this order, those of
    the (system, dataset, metric) triples of [row_triples]. The row of
    a triple carries the name of the system, the three identity entries
    of the dataset and the name of the metric; its [metric_weight] is
    the weight of the metric when it gives one and one over the length
    of the dataset's metric list otherwise; its [score] is the default
    of the metric ([0.0] without one) when the system has no submission
    with the identity of the dataset, and otherwise what the last such
    submission gives: the value of its entry for the metric, or the
    default when it has no entry or an empty one. On the SST2 scenario,
    with the raw info carrying [sub_dataset_name = None], the builder
    emits exactly one row: system ["A"], metric ["accuracy"], weight
    [1.0], score [0.9]. *)
Theorem generate_dataframe_scores :
  (∀ (config : BenchmarkConfig) (systems : list dict),
     forallb dataset_ok (datasets config) = true →
     forallb indexed_by_identity (datasets config) = true →
     distinct_datasets (datasets config) = true →
     forallb (metric_list_plain config) (datasets config) = true →
     forallb (sys_num_ok config) systems = true →
     ∃ df, generate_dataframe_from_sys_infos config systems = Ok df
       ∧ Forall2 (scored_row config systems) (iterrows df)
                 (row_triples config systems))
  ∧ ∃ df, generate_dataframe_from_sys_infos sst2_config [sst2_system_full]
          = Ok df
      ∧ iterrows df =
          [[("system_name", VStr "A"); ("dataset_name", VStr "SST2");
            ("sub_dataset_name", VNone); ("dataset_split", VStr "test");
            ("metric", VStr "accuracy"); ("metric_weight", VNum 1);
            ("score", VNum 0.9)]].
Proof.
  split; [|by eexists].
  intros config systems Hds Hind Hdist Hms Hsys.
  by apply builder_scored_rows.
Qed.

Lemma generate_dataframe_scores_witness :
  ∃ df, generate_dataframe_from_sys_infos two_config two_systems = Ok df
    ∧ Forall2 (scored_row two_config two_systems) (iterrows df)
              (row_triples two_config two_systems).
Proof.
  apply (proj1 generate_dataframe_scores two_config two_systems);
    vm_compute; reflexivity.
Defined.

(** C4 as stated fails. On the scenario as the specification writes it
    the raw info has no ["sub_dataset_name"] entry, and the builder
    raises [KeyError] when it reads [sys["sub_dataset_name"]]. With a
    dataset listed twice, the rows of its first occurrence carry the
    default although the system has a submission for that dataset. With
    an empty entry for the metric in the results map, the row carries
    the default. *)
Lemma scores_as_stated_fail :
  (dict_lookup "sub_dataset_name" sst2_system = None
   ∧ generate_dataframe_from_sys_infos sst2_config [sst2_system]
     = Raise KeyError)
  ∧ (∃ df, generate_dataframe_from_sys_infos dup_config
             [info "A" "SST2" "test" 0.9] = Ok df
       ∧ iterrows df =
           [[("system_name", VStr "A"); ("dataset_name", VStr "SST2");
             ("sub_dataset_name", VNone); ("dataset_split", VStr "test");
             ("metric", VStr "accuracy"); ("metric_weight", VNum 1);
             ("score", VNum 0)];
            [("system_name", VStr "A"); ("dataset_name", VStr "SST2");
             ("sub_dataset_name", VNone); ("dataset_split", VStr "test");
             ("metric", VStr "accuracy"); ("metric_weight", VNum 1);
             ("score", VNum 0.9)]])
  ∧ ∃ df, generate_dataframe_from_sys_infos sst2_config
            [[("system_name", VStr "A"); ("dataset_name", VStr "SST2");
              ("sub_dataset_name", VNone); ("dataset_split", VStr "test");
              ("results", VDict [("overall",
                 VDict [("accuracy", VDict [])])])]] = Ok df
      ∧ iterrows df =
          [[("system_name", VStr "A"); ("dataset_name", VStr "SST2");
            ("sub_dataset_name", VNone); ("dataset_split", VStr "test");
            ("metric", VStr "accuracy"); ("metric_weight", VNum 1);
            ("score", VNum 0)]].
Proof.
  split; [done|]. split; eexists; split; vm_compute; reflexivity.
Qed.

(** C1 on the code. The configuration [validation_config] has one
    dataset and one metric, and the raw info carries the identity of
    that dataset: the table should have one row. The index key of the
    dataset is read from its ["sub_dataset"] and ["split"] entries, so
    the identity does not resolve and the builder raises [KeyError]. *)
Lemma rectangular_table_not_built :
  ∃ dataset,
    datasets validation_config = [dataset]
    ∧ sys_key (info "A" "SST2" "validation" 0.9) = dataset_identity dataset
    ∧ length (metric_descriptions validation_config dataset) = 1
    ∧ length (distinct_system_names [info "A" "SST2" "validation" 0.9]) = 1
    ∧ dataset_key dataset = Ok (VStr "SST2", VNone, VStr "test")
    ∧ generate_dataframe_from_sys_infos validation_config
        [info "A" "SST2" "validation" 0.9] = Raise KeyError.
Proof. eexists. split; [done|]. vm_compute. done. Qed.

(** ** One row for a system, a dataset identity and a metric *)

Lemma same_key_refl (x : dict) : dataset_ok x = true → same_key x x = true.
Proof.
  unfold dataset_ok, same_key. destruct (dataset_key x) as [k|]; [|done].
  apply ident_eqb_refl.
Qed.

Lemma distinct_datasets_NoDup (ds : list dict) :
  Forall (λ x, dataset_ok x = true) ds → distinct_datasets ds = true →
  NoDup ds.
Proof.
  intros Hds Hdist. apply NoDup_alt. intros i j x Hi Hj.
  assert (same_key x x = true) as Hx.
  { apply same_key_refl. rewrite Forall_forall in Hds. apply Hds.
    by eapply list_elem_of_lookup_2. }
  destruct (lt_eq_lt_dec i j) as [[Hlt|Heq]|Hlt]; [|done|].
  - by rewrite (distinct_datasets_lookup ds i j x x) in Hx.
  - by rewrite (distinct_datasets_lookup ds j i x x) in Hx.
Qed.

(** Two configured datasets with one identity are one dataset. *)
Lemma dataset_identity_inj (ds : list dict) (x y : dict) :
  Forall (λ x, dataset_ok x = true) ds →
  Forall (λ x, indexed_by_identity x = true) ds →
  distinct_datasets ds = true →
  x ∈ ds → y ∈ ds → dataset_identity x = dataset_identity y → x = y.
Proof.
  intros Hds Hind Hdist Hx Hy Heq.
  rewrite Forall_forall in Hds, Hind.
  destruct (indexed_by_identity_key x (Hds x Hx) (Hind x Hx))
    as (k & Hk & Hid & Hname).
  destruct (indexed_by_identity_key y (Hds y Hy) (Hind y Hy))
    as (k' & Hk' & Hid' & _).
  assert (k' = k) as -> by congruence.
  assert (same_key x y = true ∧ same_key y x = true) as [Hxy Hyx].
  { unfold same_key. rewrite Hk, Hk'. split; by apply ident_eqb_refl. }
  apply list_elem_of_lookup in Hx as [i Hi], Hy as [j Hj].
  destruct (lt_eq_lt_dec i j) as [[Hlt|Heq']|Hlt].
  - by rewrite (distinct_datasets_lookup ds i j x y) in Hxy.
  - congruence.
  - by rewrite (distinct_datasets_lookup ds j i y x) in Hyx.
Qed.

Lemma NoDup_fmap_eq {A B : Type} (f : A → B) (l : list A) (x y : A) :
  NoDup (f <$> l) → x ∈ l → y ∈ l → f x = f y → x = y.
Proof.
  induction l as [|a l IH]; [by intros _ ?%elem_of_nil|].
  rewrite fmap_cons, NoDup_cons, !elem_of_cons.
  intros [Ha Hl] [->|Hx] [->|Hy] Heq; [done| | |by apply IH].
  - destruct Ha. rewrite Heq. by apply list_elem_of_fmap_2.
  - destruct Ha. rewrite <- Heq. by apply list_elem_of_fmap_2.
Qed.

Lemma row_triples_NoDup (config : BenchmarkConfig) (systems : list dict) :
  forallb dataset_ok (datasets config) = true →
  distinct_datasets (datasets config) = true →
  forallb (distinct_metric_names config) (datasets config) = true →
  NoDup (row_triples config systems).
Proof.
  intros Hds Hdist Hms. apply forallb_Forall in Hds, Hms.
  unfold row_triples. apply NoDup_bind.
  - intros s1 s2 [[s dataset] m] _ _ H1 H2.
    apply list_elem_of_bind in H1 as (? & H1 & _).
    apply list_elem_of_bind in H1 as (? & H1 & _).
    apply list_elem_of_singleton in H1.
    apply list_elem_of_bind in H2 as (? & H2 & _).
    apply list_elem_of_bind in H2 as (? & H2 & _).
    apply list_elem_of_singleton in H2. congruence.
  - intros s _. apply NoDup_bind.
    + intros d1 d2 [[s' dataset] m] _ _ H1 H2.
      apply list_elem_of_bind in H1 as (? & H1 & _).
      apply list_elem_of_singleton in H1.
      apply list_elem_of_bind in H2 as (? & H2 & _).
      apply list_elem_of_singleton in H2. congruence.
    + intros dataset Hd. apply NoDup_bind.
      * intros m1 m2 t _ _ H1%list_elem_of_singleton
          H2%list_elem_of_singleton. congruence.
      * intros m _. apply NoDup_singleton.
      * rewrite Forall_forall in Hms. specialize (Hms dataset Hd).
        unfold distinct_metric_names in Hms.
        apply bool_decide_eq_true in Hms. by eapply NoDup_fmap_1.
    + by apply distinct_datasets_NoDup.
  - apply (NoDup_dedupe String.eqb String.eqb_eq).
Qed.

(** No two rows of the builder's table belong to one system, one
    dataset identity and one metric name. *)
Lemma row_keys_NoDup (config : BenchmarkConfig) (systems : list dict) :
  forallb dataset_ok (datasets config) = true →
  forallb indexed_by_identity (datasets config) = true →
  distinct_datasets (datasets config) = true →
  forallb (distinct_metric_names config) (datasets config) = true →
  NoDup (triple_key <$> row_triples config systems).
Proof.
  intros Hds Hind Hdist Hms.
  apply NoDup_fmap_2_strong; [|by apply row_triples_NoDup].
  apply forallb_Forall in Hds, Hind, Hms.
  intros [[s dataset] m] [[s' dataset'] m']
    (_ & Hd & Hm)%row_triples_elem (_ & Hd' & Hm')%row_triples_elem.
  unfold triple_key. intros [= -> Hid Hname].
  assert (dataset' = dataset) as ->
    by (symmetry; by eapply dataset_identity_inj).
  rewrite Forall_forall in Hms. specialize (Hms dataset Hd).
  unfold distinct_metric_names in Hms. apply bool_decide_eq_true in Hms.
  by rewrite (NoDup_fmap_eq metric_name _ m m' Hms Hm Hm' Hname).
Qed.

(** C10 on the code. For a configuration whose datasets are indexed
    under their identities, these being names and pairwise distinct,
    and whose metric lists hold plain descriptions with different
    names: when the raw infos contain two submissions [s1], then [s2],
    of one system [n] with one dataset identity [k], and no later
    submission of [n] with [k], the builder raises no error; the slot
    of [n] at the position of [k] holds [s2]; the rows of the table are
    those of the triples of [row_triples], and every row of [n] for a
    dataset of identity [k] has the score that [s2] gives; no two rows
    belong to one (system, dataset identity, metric name); and the
    table is the same whatever raw info of [n] with [k] stands in the
    place of [s1]. *)
Theorem duplicate_submission_last_wins (config : BenchmarkConfig)
    (pre mid post : list dict) (s1 s2 : dict) (n : string) (k : ident) :
  forallb dataset_ok (datasets config) = true →
  forallb indexed_by_identity (datasets config) = true →
  distinct_datasets (datasets config) = true →
  forallb (metric_list_plain config) (datasets config) = true →
  forallb (distinct_metric_names config) (datasets config) = true →
  forallb (sys_num_ok config) (pre ++ s1 :: mid ++ s2 :: post) = true →
  sys_name_of s1 = Some n → sys_key s1 = Ok k →
  sys_name_of s2 = Some n → sys_key s2 = Ok k →
  Forall (λ s, ¬ (sys_name_of s = Some n ∧ sys_key s = Ok k)) post →
  ∃ idx j sdr slots df,
    dataset_to_id config = Ok idx
    ∧ pd_get ident_eqb k idx = Some j
    ∧ system_dataset_results config idx (pre ++ s1 :: mid ++ s2 :: post)
      = Ok sdr
    ∧ pd_get value_eqb (VStr n) sdr = Some slots
    ∧ slots !! j = Some (Some s2)
    ∧ generate_dataframe_from_sys_infos config
        (pre ++ s1 :: mid ++ s2 :: post) = Ok df
    ∧ Forall2 (scored_row config (pre ++ s1 :: mid ++ s2 :: post))
        (iterrows df) (row_triples config (pre ++ s1 :: mid ++ s2 :: post))
    ∧ (∀ i row dataset m,
         iterrows df !! i = Some row →
         row_triples config (pre ++ s1 :: mid ++ s2 :: post) !! i
           = Some (n, dataset, m) →
         dataset_identity dataset = Ok k →
         ∃ d score,
           m = VDict d ∧ dict_lookup "score" row = Some score
           ∧ expected_score (Some s2) d = Some score)
    ∧ NoDup (triple_key
               <$> row_triples config (pre ++ s1 :: mid ++ s2 :: post))
    ∧ ∀ s1', sys_num_ok config s1' = true →
        sys_name_of s1' = Some n → sys_key s1' = Ok k →
        generate_dataframe_from_sys_infos config
          (pre ++ s1' :: mid ++ s2 :: post) = Ok df.
Proof.
  intros Hds Hind Hdist Hms Hnames Hnum Hn1 Hk1 Hn2 Hk2 Hpost.
  pose proof (sys_num_ok_ok _ _ Hnum) as Hsys.
  destruct (builder_scored_rows config _ Hds Hind Hdist Hms Hnum)
    as (df & Hdf & Hrows).
  pose proof (row_keys_NoDup config (pre ++ s1 :: mid ++ s2 :: post)
                Hds Hind Hdist Hnames) as Hnd.
  apply forallb_Forall in Hds, Hind, Hsys.
  destruct (dataset_to_id_spec config Hds) as (idx & Hidx & Hget).
  destruct (system_dataset_results_ok config idx Hds Hidx _ Hsys)
    as (sdr & Hsdr & Hg).
  assert (sys_ok config s2 = true) as Hs2.
  { rewrite Forall_forall in Hsys. apply Hsys. set (l := s2 :: post).
    rewrite elem_of_app. right. right. rewrite elem_of_app. right. by left. }
  destruct (sys_ok_inv config idx Hds Hidx s2 Hs2)
    as (n' & k' & j & Hn' & _ & Hk' & Hj & HjN & _).
  rewrite Hk2 in Hk'. injection Hk' as <-.
  destruct (pd_get value_eqb (VStr n) sdr) as [slots|] eqn:Eslots.
  2:{ apply (pd_get_None value_eqb _ value_eqb_name) in Eslots;
        [|by eapply grouped_names].
      destruct Eslots. destruct Hg as [-> _]. apply list_elem_of_fmap.
      exists n. split; [done|].
      apply (elem_of_dedupe String.eqb String.eqb_eq).
      rewrite !omap_app, elem_of_app. right. simpl. rewrite Hn1. by left. }
  assert (last_submission idx n j (pre ++ s1 :: mid ++ s2 :: post) None
          = Some s2) as Hlast.
  { replace (pre ++ s1 :: mid ++ s2 :: post)
      with ((pre ++ s1 :: mid) ++ s2 :: post)
      by by rewrite <- app_assoc.
    rewrite last_submission_last; [done| |].
    - unfold submits_to. rewrite Hn2, Hk2, Hj.
      by rewrite !bool_decide_eq_true_2.
    - eapply Forall_impl; [exact Hpost|]. intros s Hs. simpl in Hs.
      unfold submits_to.
      destruct (bool_decide (sys_name_of s = Some n)) eqn:En; [|done].
      apply bool_decide_eq_true in En. simpl.
      destruct (sys_key s) as [ks|] eqn:Eks; [|done].
      apply bool_decide_eq_false. intros Hjs. apply Hs. split; [done|].
      f_equal. by eapply (dataset_to_id_inj config idx ks k j). }
  exists idx, j, sdr, slots, df.
  repeat (split; [done|]).
  split.
  { destruct Hg as [_ Hslots]. destruct (Hslots _ _ Eslots) as [_ Hsl].
    by rewrite (Hsl j HjN), Hlast. }
  repeat (split; [done|]).
  split.
  { intros i row dataset m Hrow Ht Hid.
    pose proof (Forall2_lookup_lr _ _ _ _ _ _ Hrows Hrow Ht)
      as (_ & _ & _ & _ & d & nm & -> & _ & _ & _ & score & Hsc & Hexp).
    exists d, score. split; [done|]. split; [done|].
    apply list_elem_of_lookup_2, row_triples_elem in Ht as (_ & Hd & _).
    apply list_elem_of_lookup in Hd as [j' Hj'].
    pose proof (list_elem_of_lookup_2 _ _ _ Hj') as Hin.
    rewrite Forall_forall in Hds, Hind.
    destruct (indexed_by_identity_key dataset (Hds _ Hin) (Hind _ Hin))
      as (kd & Hkd & Hid' & _).
    rewrite Hid in Hid'. injection Hid' as <-.
    rewrite <- Forall_forall in Hds, Hind.
    pose proof (index_position config idx j' dataset k Hds Hdist Hidx
                  Hj' Hkd) as Hpos.
    rewrite Hj in Hpos. injection Hpos as <-.
    rewrite <- Hlast.
    by rewrite (last_submission_for config idx n j dataset _ None Hds Hdist
                  Hidx Hj' (proj1 (Forall_forall _ _) Hind _ Hin) Hsys). }
  split; [done|].
  intros s1' Hs1' Hn1' Hk1'.
  assert (sys_ok config s1' = true) as Hok1'.
  { unfold sys_num_ok in Hs1'. by apply andb_true_iff in Hs1' as [? _]. }
  assert (Forall (λ sys, sys_ok config sys = true)
            (pre ++ s1' :: mid ++ s2 :: post)) as Hsys'.
  { apply Forall_app in Hsys as [Hpre Hrest].
    apply Forall_cons in Hrest as [_ Hrest].
    apply Forall_app. split; [done|]. by apply Forall_cons. }
  destruct (system_dataset_results_ok config idx Hds Hidx _ Hsys')
    as (sdr' & Hsdr' & Hg').
  assert (sdr' = sdr) as ->.
  { rewrite (grouped_unique _ _ _ _ Hg), (grouped_unique _ _ _ _ Hg').
    apply grouping_of_overwritten; congruence. }
  rewrite generate_dataframe_dicts in Hdf |- *.
  rewrite Hidx in Hdf |- *. simpl in *. rewrite Hsdr in Hdf.
  by rewrite Hsdr'.
Qed.

Lemma duplicate_submission_last_wins_witness :
  ∃ idx j sdr slots df,
    dataset_to_id two_config = Ok idx
    ∧ pd_get ident_eqb (VStr "SST2", VNone, VStr "test") idx = Some j
    ∧ system_dataset_results two_config idx
        ([info "B" "SST2" "test" 0.4] ++ info "A" "SST2" "test" 0.1
           :: [info "B" "MNLI" "test" 0.3] ++ info "A" "SST2" "test" 0.8
           :: [info "A" "MNLI" "test" 0.6]) = Ok sdr
    ∧ pd_get value_eqb (VStr "A") sdr = Some slots
    ∧ slots !! j = Some (Some (info "A" "SST2" "test" 0.8))
    ∧ generate_dataframe_from_sys_infos two_config
        ([info "B" "SST2" "test" 0.4] ++ info "A" "SST2" "test" 0.1
           :: [info "B" "MNLI" "test" 0.3] ++ info "A" "SST2" "test" 0.8
           :: [info "A" "MNLI" "test" 0.6]) = Ok df
    ∧ Forall2
        (scored_row two_config
           ([info "B" "SST2" "test" 0.4] ++ info "A" "SST2" "test" 0.1
              :: [info "B" "MNLI" "test" 0.3] ++ info "A" "SST2" "test" 0.8
              :: [info "A" "MNLI" "test" 0.6]))
        (iterrows df)
        (row_triples two_config
           ([info "B" "SST2" "test" 0.4] ++ info "A" "SST2" "test" 0.1
              :: [info "B" "MNLI" "test" 0.3] ++ info "A" "SST2" "test" 0.8
              :: [info "A" "MNLI" "test" 0.6]))
    ∧ (∀ i row dataset m,
         iterrows df !! i = Some row →
         row_triples two_config
           ([info "B" "SST2" "test" 0.4] ++ info "A" "SST2" "test" 0.1
              :: [info "B" "MNLI" "test" 0.3] ++ info "A" "SST2" "test" 0.8
              :: [info "A" "MNLI" "test" 0.6]) !! i
           = Some ("A", dataset, m) →
         dataset_identity dataset = Ok (VStr "SST2", VNone, VStr "test") →
         ∃ d score,
           m = VDict d ∧ dict_lookup "score" row = Some score
           ∧ expected_score (Some (info "A" "SST2" "test" 0.8)) d
             = Some score)
    ∧ NoDup (triple_key
               <$> row_triples two_config
                     ([info "B" "SST2" "test" 0.4]
                        ++ info "A" "SST2" "test" 0.1
                        :: [info "B" "MNLI" "test" 0.3]
                        ++ info "A" "SST2" "test" 0.8
                        :: [info "A" "MNLI" "test" 0.6]))
    ∧ ∀ s1', sys_num_ok two_config s1' = true →
        sys_name_of s1' = Some "A" →
        sys_key s1' = Ok (VStr "SST2", VNone, VStr "test") →
        generate_dataframe_from_sys_infos two_config
          ([info "B" "SST2" "test" 0.4] ++ s1'
             :: [info "B" "MNLI" "test" 0.3] ++ info "A" "SST2" "test" 0.8
             :: [info "A" "MNLI" "test" 0.6]) = Ok df.
Proof.
  apply (duplicate_submission_last_wins two_config
           [info "B" "SST2" "test" 0.4] [info "B" "MNLI" "test" 0.3]
           [info "A" "MNLI" "test" 0.6]
           (info "A" "SST2" "test" 0.1) (info "A" "SST2" "test" 0.8)
           "A" (VStr "SST2", VNone, VStr "test"));
    try (vm_compute; reflexivity).
  repeat constructor. intros [_ [=]].
Defined.

(** C10 as stated fails. The configuration [dup_config] lists one
    dataset identity twice, and the system ["A"] submits twice to it:
    the table has two rows for that system, identity and metric, and
    the first of them carries the default of the metric, not the score
    of the last submission. *)
Lemma duplicate_identity_two_rows :
  dataset_identity <$> datasets dup_config
    = [Ok (VStr "SST2", VNone, VStr "test");
       Ok (VStr "SST2", VNone, VStr "test")]
  ∧ ∃ df, generate_dataframe_from_sys_infos dup_config
            [info "A" "SST2" "test" 0.1; info "A" "SST2" "test" 0.8] = Ok df
      ∧ iterrows df =
          [[("system_name", VStr "A"); ("dataset_name", VStr "SST2");
            ("sub_dataset_name", VNone); ("dataset_split", VStr "test");
            ("metric", VStr "accuracy"); ("metric_weight", VNum 1);
            ("score", VNum 0)];
           [("system_name", VStr "A"); ("dataset_name", VStr "SST2");
            ("sub_dataset_name", VNone); ("dataset_split", VStr "test");
            ("metric", VStr "accuracy"); ("metric_weight", VNum 1);
            ("score", VNum 0.8)]].
Proof. split; [done|]. eexists. split; vm_compute; reflexivity. Qed.
